(** * LLm_service: the context-compaction pipeline of [App/services/LLm_service.py]

    A shallow embedding of the parts of [LLMService] that prepare the
    context of a request: the response cache, the mention prioritizers, the
    fantasy-rankings, draft-projections and boxscore summarizers, the
    orchestrator [_summarize_context_data] and the budget enforcement of
    [generate_response].

    Conventions.
    - Python values are dynamically typed: the embedding works on a type
      [value] of JSON-like data and on an error monad [result] whose
      [Raise] is a Python exception.  A [dict] is an association list in
      insertion order, which is the order [json.dumps] writes.
    - Strings are sequences of code points below 256, one [ascii] per code
      point; numbers are integers (a bundle holding floats is outside the
      model).
    - Methods keep their names.  [print] calls are left out, and so are
      the parameters that only feed them ([context], [endpoint_type]).
    - The summarizers of the categories that are not studied here, the
      mention extractors, the hash of the cache key and the HTTP exchange
      are parameters (classes [Summarizers] and [Environment]). *)

From Stdlib Require Import ZArith QArith String Ascii List Bool Lia DecimalString.
From stdpp Require Import base option list gmap strings.

Set Warnings "-register-all".

Open Scope string_scope.
Open Scope list_scope.
Open Scope Z_scope.

(** ** Values, exceptions and the error monad *)

Inductive value : Type :=
| VNone
| VBool (b : bool)
| VInt (n : Z)
| VStr (s : string)
| VList (l : list value)
| VDict (d : list (string * value)).

(** A Python exception: its class with what its message is built from. *)
Inductive exn : Type :=
| AttributeError (ty attr : string)
| TypeError (msg : string)
| KeyError (key : string).

Inductive result (A : Type) : Type :=
| Ok (a : A)
| Raise (e : exn).
Arguments Ok {A} a.
Arguments Raise {A} e.

#[global] Instance result_ret : MRet result := fun _ a => Ok a.
#[global] Instance result_bind : MBind result := fun _ _ f m =>
  match m with
  | Ok a => f a
  | Raise e => Raise e
  end.

(** [try: body except Exception as e: handler e] *)
Definition try_except {A} (body : result A) (handler : exn -> result A) : result A :=
  match body with
  | Ok a => Ok a
  | Raise e => handler e
  end.

Definition quote_char : string := String (ascii_of_nat 34) EmptyString.
Definition newline : string := String (ascii_of_nat 10) EmptyString.

(** [type(v).__name__] *)
Definition type_name (v : value) : string :=
  match v with
  | VNone => "NoneType"
  | VBool _ => "bool"
  | VInt _ => "int"
  | VStr _ => "str"
  | VList _ => "list"
  | VDict _ => "dict"
  end.

(** [str(e)] for an exception [e] *)
Definition exn_str (e : exn) : string :=
  match e with
  | AttributeError ty attr =>
      "'" +:+ ty +:+ "' object has no attribute '" +:+ attr +:+ "'"
  | TypeError msg => msg
  | KeyError key => "'" +:+ key +:+ "'"
  end.

Definition no_attribute {A} (v : value) (attr : string) : result A :=
  Raise (AttributeError (type_name v) attr).

(** ** Python primitives *)

(** [bool(v)]: what [if v:] and [not v] test. *)
Definition truthy (v : value) : bool :=
  match v with
  | VNone => false
  | VBool b => b
  | VInt n => negb (n =? 0)
  | VStr s => negb (String.eqb s "")
  | VList l => negb (Nat.eqb (length l) 0)
  | VDict d => negb (Nat.eqb (length d) 0)
  end.

Definition is_dict (v : value) : bool :=
  match v with VDict _ => true | _ => false end.
Definition is_list (v : value) : bool :=
  match v with VList _ => true | _ => false end.

Fixpoint dict_lookup (k : string) (d : list (string * value)) : option value :=
  match d with
  | [] => None
  | (k', v) :: d' => if String.eqb k k' then Some v else dict_lookup k d'
  end.

(** [d[k] = v]: the key keeps its place when present, else goes last. *)
Fixpoint dict_set (k : string) (v : value) (d : list (string * value))
  : list (string * value) :=
  match d with
  | [] => [(k, v)]
  | (k', v') :: d' =>
      if String.eqb k k' then (k, v) :: d' else (k', v') :: dict_set k v d'
  end.

Definition dict_mem (k : string) (d : list (string * value)) : bool :=
  match dict_lookup k d with Some _ => true | None => false end.

(** [d.get(k, default)] on a [dict] *)
Definition dict_get (d : list (string * value)) (k : string) (default : value) : value :=
  match dict_lookup k d with Some v => v | None => default end.

(** [v.get(k, default)] on any value: only a [dict] has the method. *)
Definition py_get (v : value) (k : string) (default : value) : result value :=
  match v with
  | VDict d => Ok (dict_get d k default)
  | _ => no_attribute v "get"
  end.

(** [v.items()] *)
Definition py_items (v : value) : result (list (string * value)) :=
  match v with
  | VDict d => Ok d
  | _ => no_attribute v "items"
  end.

(** Code points of [str.isspace] below 256. *)
Definition is_space (c : ascii) : bool :=
  let n := N_of_ascii c in
  ((9 <=? n) && (n <=? 13) || (28 <=? n) && (n <=? 32) || (n =? 133) || (n =? 160))%N.

(** [str.lower] on code points below 256: A-Z and the Latin-1 capitals. *)
Definition lower_char (c : ascii) : ascii :=
  let n := N_of_ascii c in
  if ((65 <=? n) && (n <=? 90)
      || (192 <=? n) && (n <=? 222) && negb (n =? 215))%N
  then ascii_of_N (n + 32) else c.

Fixpoint str_lower (s : string) : string :=
  match s with
  | EmptyString => EmptyString
  | String c s' => String (lower_char c) (str_lower s')
  end.

(** [v.lower()] *)
Definition py_lower (v : value) : result string :=
  match v with
  | VStr s => Ok (str_lower s)
  | _ => no_attribute v "lower"
  end.

Definition flush_word (cur : list ascii) : list string :=
  match cur with
  | [] => []
  | _ => [string_of_list_ascii (rev cur)]
  end.

Fixpoint split_go (cur : list ascii) (s : string) : list string :=
  match s with
  | EmptyString => flush_word cur
  | String c s' =>
      if is_space c then flush_word cur ++ split_go [] s'
      else split_go (c :: cur) s'
  end.

(** [s.split()]: the maximal runs of non-space characters. *)
Definition str_split (s : string) : list string := split_go [] s.

(** [needle in hay] on strings *)
Fixpoint str_contains (needle hay : string) : bool :=
  String.prefix needle hay
  || match hay with
     | EmptyString => false
     | String _ hay' => str_contains needle hay'
     end.

Definition value_is_str (k : string) (v : value) : bool :=
  match v with VStr s => String.eqb k s | _ => false end.

(** [k in v] for a string [k] *)
Definition py_in (k : string) (v : value) : result bool :=
  match v with
  | VDict d => Ok (dict_mem k d)
  | VList l => Ok (existsb (value_is_str k) l)
  | VStr s => Ok (str_contains k s)
  | _ => Raise (TypeError ("argument of type '" +:+ type_name v +:+ "' is not iterable"))
  end.

(** [v[k]] for a string [k] *)
Definition py_getitem (v : value) (k : string) : result value :=
  match v with
  | VDict d =>
      match dict_lookup k d with
      | Some x => Ok x
      | None => Raise (KeyError k)
      end
  | VList _ => Raise (TypeError "list indices must be integers or slices, not str")
  | VStr _ => Raise (TypeError "string indices must be integers, not 'str'")
  | _ => Raise (TypeError ("'" +:+ type_name v +:+ "' object is not subscriptable"))
  end.

(** [l[:n]]: a negative [n] counts from the end. *)
Definition slice_to {A} (n : Z) (l : list A) : list A :=
  if 0 <=? n then take (Z.to_nat n) l
  else take (length l - Z.to_nat (- n))%nat l.

(** [l[i:j]] for [0 <= i] and [0 <= j] *)
Definition slice {A} (i j : nat) (l : list A) : list A :=
  take (j - i)%nat (drop i l).

Fixpoint str_take (n : nat) (s : string) : string :=
  match n, s with
  | S n', String c s' => String c (str_take n' s')
  | _, _ => EmptyString
  end.

(** [len(s)] *)
Definition py_len (s : string) : Z := Z.of_nat (String.length s).

(** [s[:n]] on a string, [0 <= n] *)
Definition str_slice_to (n : Z) (s : string) : string := str_take (Z.to_nat n) s.

(** ** [json.dumps(v, indent=2)] *)

Definition string_of_Z (n : Z) : string := NilZero.string_of_int (Z.to_int n).

Definition hex_digit (n : N) : ascii :=
  if (n <? 10)%N then ascii_of_N (48 + n) else ascii_of_N (87 + n).

(** The encoder's [ensure_ascii] escapes. *)
Definition json_escape_char (c : ascii) : string :=
  let n := N_of_ascii c in
  if (n =? 34)%N then "\" +:+ quote_char
  else if (n =? 92)%N then "\\"
  else if (n =? 10)%N then "\n"
  else if (n =? 13)%N then "\r"
  else if (n =? 9)%N then "\t"
  else if (n =? 8)%N then "\b"
  else if (n =? 12)%N then "\f"
  else if ((32 <=? n) && (n <=? 126))%N then String c EmptyString
  else "\u00" +:+ String (hex_digit (n / 16)) (String (hex_digit (n mod 16)) EmptyString).

Fixpoint json_escape (s : string) : string :=
  match s with
  | EmptyString => EmptyString
  | String c s' => json_escape_char c +:+ json_escape s'
  end.

Definition json_string (s : string) : string :=
  quote_char +:+ json_escape s +:+ quote_char.

Fixpoint spaces (n : nat) : string :=
  match n with
  | O => EmptyString
  | S n' => String " " (spaces n')
  end.

Definition newline_indent (level : nat) : string := newline +:+ spaces (2 * level)%nat.

Fixpoint join (sep : string) (l : list string) : string :=
  match l with
  | [] => EmptyString
  | [x] => x
  | x :: l' => x +:+ sep +:+ join sep l'
  end.

Fixpoint json_encode (level : nat) (v : value) : string :=
  match v with
  | VNone => "null"
  | VBool true => "true"
  | VBool false => "false"
  | VInt n => string_of_Z n
  | VStr s => json_string s
  | VList [] => "[]"
  | VList l =>
      "[" +:+ newline_indent (S level)
      +:+ join ("," +:+ newline_indent (S level)) (List.map (json_encode (S level)) l)
      +:+ newline_indent level +:+ "]"
  | VDict [] => "{}"
  | VDict d =>
      "{" +:+ newline_indent (S level)
      +:+ join ("," +:+ newline_indent (S level))
            (List.map (fun kv => let '(k, x) := kv in
                         json_string k +:+ ": " +:+ json_encode (S level) x) d)
      +:+ newline_indent level +:+ "}"
  end.

Definition json_dumps (v : value) : string := json_encode 0 v.

(** ** Loops in the error monad *)

#[global] Instance result_fmap : FMap result := fun _ _ f m =>
  match m with
  | Ok a => Ok (f a)
  | Raise e => Raise e
  end.

(** [for x in l: s = body(s, x)] *)
Fixpoint for_each {A S : Type} (body : S -> A -> result S) (l : list A) (s : S)
  : result S :=
  match l with
  | [] => Ok s
  | x :: l' => s' ← body s x; for_each body l' s'
  end.

Definition is_nil {A} (l : list A) : bool :=
  match l with [] => true | _ => false end.

Definition str_in (k : string) (l : list string) : bool := existsb (String.eqb k) l.

(** [f(d[k])] when [k] is a key of [d]; written as a recursion over the
    entries so that [f] may be the function being defined. *)
Fixpoint dict_lookup_map {B} (f : value -> B) (k : string) (d : list (string * value))
  : option B :=
  match d with
  | [] => None
  | (k', v) :: d' => if String.eqb k k' then Some (f v) else dict_lookup_map f k d'
  end.

(** ** The response cache (lines 11-12, 32-38 and 238)

    [llm_cache] maps a fingerprint to [(cached_time, cached_response)];
    the clock is read as an exact rational number of seconds. *)

Definition LLM_CACHE_TTL : Q := 60 * 10.

(** Lines 35-38: the cached response when the entry is younger than the TTL. *)
Definition cache_read (llm_cache : gmap string (Q * string)) (cache_key : string)
    (now : Q) : option string :=
  match llm_cache !! cache_key with
  | Some (cached_time, cached_response) =>
      if Qlt_le_dec (now - cached_time) LLM_CACHE_TTL then Some cached_response
      else None
  | None => None
  end.

(** Line 238: [llm_cache[cache_key] = (now, llm_response)] *)
Definition cache_store (llm_cache : gmap string (Q * string)) (cache_key : string)
    (now : Q) (llm_response : string) : gmap string (Q * string) :=
  <[cache_key := (now, llm_response)]> llm_cache.

(** ** Mention prioritizers *)

(** [any(part in player_name for part in mentioned_parts if len(part) > 2)] *)
Definition any_part_in (player_name : string) (mentioned_parts : list string) : bool :=
  existsb (fun part => str_contains part player_name)
          (List.filter (fun part => 2 <? py_len part) mentioned_parts).

(** The inner loop over [mentioned_players], stopped by [break] at the
    first mention with a matching part. *)
Fixpoint is_mentioned (player_name : string) (mentioned_players : list value)
  : result bool :=
  match mentioned_players with
  | [] => Ok false
  | mentioned_player :: rest =>
      lowered ← py_lower mentioned_player;
      if any_part_in player_name (str_split lowered) then Ok true
      else is_mentioned player_name rest
  end.

(** The first pass of the three player prioritizers.  They differ in the
    expression read as the player's name ([name_of]) and in what happens
    to an element that is not a [dict]: [_prioritize_players_in_list]
    keeps it among the remaining players, the other two skip it. *)
Fixpoint first_pass (name_of : list (string * value) -> value) (keep_others : bool)
    (mentioned_players : list value) (players : list value)
    (prioritized_players remaining_players : list value)
  : result (list value * list value) :=
  match players with
  | [] => Ok (prioritized_players, remaining_players)
  | player :: rest =>
      match player with
      | VDict d =>
          player_name ← py_lower (name_of d);
          mentioned ← is_mentioned player_name mentioned_players;
          if (mentioned : bool)
          then first_pass name_of keep_others mentioned_players rest
                 (prioritized_players ++ [player]) remaining_players
          else first_pass name_of keep_others mentioned_players rest
                 prioritized_players (remaining_players ++ [player])
      | _ =>
          first_pass name_of keep_others mentioned_players rest prioritized_players
            (if keep_others then remaining_players ++ [player] else remaining_players)
      end
  end.

(** [prioritized_players + remaining_players[:max_players - len(prioritized_players)]] *)
Definition combine_players (max_players : Z) (prioritized_players remaining_players : list value)
  : list value :=
  prioritized_players
  ++ slice_to (max_players - Z.of_nat (length prioritized_players)) remaining_players.

(** [player.get("name", player.get("display_name", ""))] *)
Definition list_player_name (player : list (string * value)) : value :=
  dict_get player "name" (dict_get player "display_name" (VStr "")).

(** [_prioritize_players_in_list] (lines 2084-2130) *)
Definition _prioritize_players_in_list (players_list mentioned_players : list value)
  : result (list value) :=
  if is_nil players_list || is_nil mentioned_players then Ok players_list
  else
    '(prioritized_players, remaining_players) ←
      first_pass list_player_name true mentioned_players players_list [] [];
    let max_players := 30 in
    Ok (combine_players max_players prioritized_players remaining_players).

Definition POSITIONS : list string := ["QB"; "RB"; "WR"; "TE"; "K"; "DEF"].

(** [any(pos in d for pos in ["QB", "RB", "WR", "TE", "K", "DEF"])] *)
Definition position_keyed (d : list (string * value)) : bool :=
  existsb (fun pos => dict_mem pos d) POSITIONS.

(** [_prioritize_mentioned_players_in_fantasy_rankings] (lines 2030-2082) *)
Fixpoint _prioritize_mentioned_players_in_fantasy_rankings (rankings_data : value)
    (mentioned_players : list value) {struct rankings_data} : result value :=
  if is_nil mentioned_players || negb (truthy rankings_data) then Ok rankings_data
  else
    match rankings_data with
    | VList l => VList <$> _prioritize_players_in_list l mentioned_players
    | VDict d =>
        if position_keyed d then
          VDict <$>
            for_each (fun modified_rankings '(position, players) =>
                        match players with
                        | VList l =>
                            if str_in position ["season"; "metadata"]
                            then Ok modified_rankings
                            else
                              combined ← _prioritize_players_in_list l mentioned_players;
                              Ok (dict_set position (VList combined) modified_rankings)
                        | _ => Ok modified_rankings
                        end) d d
        else
          match dict_lookup "players" d, dict_lookup "players_sample" d with
          | Some (VList l), _ =>
              combined ← _prioritize_players_in_list l mentioned_players;
              Ok (VDict (dict_set "players" (VList combined) d))
          | _, Some (VList l) =>
              combined ← _prioritize_players_in_list l mentioned_players;
              Ok (VDict (dict_set "players_sample" (VList combined) d))
          | _, _ =>
              match dict_lookup_map
                      (fun data =>
                         _prioritize_mentioned_players_in_fantasy_rankings data mentioned_players)
                      "data" d with
              | Some prioritized =>
                  data ← prioritized;
                  Ok (VDict (dict_set "data" data d))
              | None => Ok (VDict d)
              end
          end
    | _ => Ok rankings_data
    end.

(** [player.get("name", "")] *)
Definition plain_player_name (player : list (string * value)) : value :=
  dict_get player "name" (VStr "").

(** [_prioritize_mentioned_players_in_ros] (lines 1878-1933) *)
Definition _prioritize_mentioned_players_in_ros (ros_data : value)
    (mentioned_players : list value) : result value :=
  match ros_data with
  | VDict d =>
      if is_nil mentioned_players then Ok ros_data
      else
        VDict <$>
          for_each (fun modified_ros '(position, players) =>
                      match players with
                      | VList l =>
                          if str_in position ["season"; "metadata"] then Ok modified_ros
                          else
                            '(prioritized_players, remaining_players) ←
                              first_pass plain_player_name false mentioned_players l [] [];
                            let max_players_per_position := 15 in
                            Ok (dict_set position
                                  (VList (combine_players max_players_per_position
                                            prioritized_players remaining_players))
                                  modified_ros)
                      | _ => Ok modified_ros
                      end) d d
  | _ => Ok ros_data
  end.

(** The body of the loop over [draft_data["positions"].items()]
    (lines 1958-2024). *)
Definition prioritize_draft_position (mentioned_players : list value)
    (modified_positions : list (string * value)) (entry : string * value)
  : result (list (string * value)) :=
  let '(position, position_data) := entry in
  match position_data with
  | VDict pd =>
      match dict_lookup "all_players" pd with
      | Some (VList players) =>
          '(prioritized_players, remaining_players) ←
            first_pass plain_player_name false mentioned_players players [] [];
          let max_players_per_position :=
            if String.eqb position "K" && negb (is_nil prioritized_players)
            then Z.of_nat (length players)
            else if negb (is_nil prioritized_players) then 30 else 20 in
          let combined_players :=
            combine_players max_players_per_position prioritized_players remaining_players in
          Ok (dict_set position (VDict (dict_set "all_players" (VList combined_players) pd))
                modified_positions)
      | _ => Ok (dict_set position position_data modified_positions)
      end
  | _ => Ok (dict_set position position_data modified_positions)
  end.

(** [_prioritize_mentioned_players_in_draft_projections] (lines 1935-2028) *)
Definition _prioritize_mentioned_players_in_draft_projections (draft_data : value)
    (mentioned_players : list value) : result value :=
  match draft_data with
  | VDict d =>
      if is_nil mentioned_players then Ok draft_data
      else
        match dict_lookup "positions" d with
        | Some positions =>
            items ← py_items positions;
            modified_positions ← for_each (prioritize_draft_position mentioned_players) items [];
            Ok (VDict (dict_set "positions" (VDict modified_positions) d))
        | None => Ok draft_data
        end
  | _ => Ok draft_data
  end.

(** [_prioritize_mentioned_teams_in_standings] (lines 2132-2192) *)
Definition team_mentioned (team_name team_alias : string) (mentioned_teams : list string)
  : bool :=
  existsb (fun mentioned_team =>
             let mentioned_lower := str_lower mentioned_team in
             str_contains mentioned_lower team_name
             || str_contains mentioned_lower team_alias
             || str_contains team_name mentioned_lower
             || str_contains team_alias mentioned_lower) mentioned_teams.

Definition prioritize_division_teams (mentioned_teams : list string) (teams : list value)
  : result (list value) :=
  '(prioritized_teams, remaining_teams) ←
    for_each (fun '(prioritized_teams, remaining_teams) team =>
                n ← py_get team "name" (VStr "");
                team_name ← py_lower n;
                a ← py_get team "alias" (VStr "");
                team_alias ← py_lower a;
                if team_mentioned team_name team_alias mentioned_teams
                then Ok (prioritized_teams ++ [team], remaining_teams)
                else Ok (prioritized_teams, remaining_teams ++ [team]))
             teams ([], []);
  Ok (prioritized_teams ++ remaining_teams).

(** [for x in v] over a value: the elements of a list, the keys of a
    dict, the characters of a string. *)
Definition py_iter (v : value) : result (list value) :=
  match v with
  | VList l => Ok l
  | VDict d => Ok (List.map (fun kv => VStr (fst kv)) d)
  | VStr s => Ok (List.map (fun c => VStr (String c EmptyString)) (list_ascii_of_string s))
  | _ => Raise (TypeError ("'" +:+ type_name v +:+ "' object is not iterable"))
  end.

(** [v.copy()]: a method of dicts and of lists *)
Definition py_copy (v : value) : result value :=
  match v with
  | VDict _ | VList _ => Ok v
  | _ => no_attribute v "copy"
  end.

(** [v[k] = x] for a string [k] *)
Definition py_setitem (v : value) (k : string) (x : value) : result value :=
  match v with
  | VDict d => Ok (VDict (dict_set k x d))
  | VList _ => Raise (TypeError "list indices must be integers or slices, not str")
  | _ => Raise (TypeError ("'" +:+ type_name v +:+ "' object does not support item assignment"))
  end.

Definition prioritize_division (mentioned_teams : list string) (division : value)
  : result value :=
  modified_division ← py_copy division;
  teams_value ← py_get division "teams" (VList []);
  teams ← py_iter teams_value;
  combined_teams ← prioritize_division_teams mentioned_teams teams;
  py_setitem modified_division "teams" (VList combined_teams).

Definition prioritize_conference (mentioned_teams : list string) (conference : value)
  : result value :=
  modified_conference ← py_copy conference;
  divisions_value ← py_get conference "divisions" (VList []);
  divisions ← py_iter divisions_value;
  modified_divisions ←
    for_each (fun modified_divisions division =>
                modified_division ← prioritize_division mentioned_teams division;
                Ok (modified_divisions ++ [modified_division])) divisions [];
  py_setitem modified_conference "divisions" (VList modified_divisions).

Definition _prioritize_mentioned_teams_in_standings (standings_data : value)
    (mentioned_teams : list string) : result value :=
  match standings_data with
  | VDict d =>
      if is_nil mentioned_teams then Ok standings_data
      else
        match dict_lookup "conferences" d with
        | Some conferences_value =>
            conferences ← py_iter conferences_value;
            modified_conferences ←
              for_each (fun modified_conferences conference =>
                          modified_conference ← prioritize_conference mentioned_teams conference;
                          Ok (modified_conferences ++ [modified_conference])) conferences [];
            Ok (VDict (dict_set "conferences" (VList modified_conferences) d))
        | None => Ok standings_data
        end
  | _ => Ok standings_data
  end.

(** ** Summarizers *)

(** [_extract_key_stats] (lines 818-863) *)
Definition stat_group (stats : value) (group : string) (fields : list (string * string * value))
    (key_stats : list (string * value)) : result (list (string * value)) :=
  present ← py_in group stats;
  if (present : bool) then
    entries ←
      for_each (fun entries '(target, source, default) =>
                  g ← py_getitem stats group;
                  x ← py_get g source default;
                  Ok (entries ++ [(target, x)])) fields [];
    Ok (dict_set group (VDict entries) key_stats)
  else Ok key_stats.

Definition _extract_key_stats (stats : value) : result value :=
  if negb (truthy stats) then Ok (VDict [])
  else
    key_stats ← stat_group stats "team"
      [("first_downs", "first_downs", VInt 0); ("total_yards", "total_yards", VInt 0);
       ("penalties", "penalties", VInt 0); ("penalty_yards", "penalty_yards", VInt 0);
       ("turnovers", "turnovers", VInt 0);
       ("time_of_possession", "possession_time", VStr "")] [];
    key_stats ← stat_group stats "passing"
      [("completions", "completions", VInt 0); ("attempts", "attempts", VInt 0);
       ("yards", "yards", VInt 0); ("touchdowns", "touchdowns", VInt 0);
       ("interceptions", "interceptions", VInt 0)] key_stats;
    key_stats ← stat_group stats "rushing"
      [("attempts", "attempts", VInt 0); ("yards", "yards", VInt 0);
       ("touchdowns", "touchdowns", VInt 0)] key_stats;
    key_stats ← stat_group stats "receiving"
      [("receptions", "receptions", VInt 0); ("yards", "yards", VInt 0);
       ("touchdowns", "touchdowns", VInt 0)] key_stats;
    Ok (VDict key_stats).

(** [data.get(side, {}).get(k, default)] *)
Definition side_get (data : value) (side k : string) (default : value) : result value :=
  team ← py_get data side (VDict []);
  py_get team k default.

Definition boxscore_side (data : value) (side points_key : string) : result value :=
  name ← side_get data side "name" (VStr "");
  alias ← side_get data side "alias" (VStr "");
  points ← py_get data points_key (VInt 0);
  scoring ← side_get data side "scoring" (VList []);
  stats ← side_get data side "statistics" (VDict []);
  statistics ← _extract_key_stats stats;
  Ok (VDict [("name", name); ("alias", alias); ("points", points);
             ("scoring", scoring); ("statistics", statistics)]).

(** [_summarize_boxscore] (lines 795-816): no [try] around the body. *)
Definition _summarize_boxscore (data : value) : result value :=
  id ← py_get data "id" (VStr "");
  status ← py_get data "status" (VStr "");
  scheduled ← py_get data "scheduled" (VStr "");
  home ← boxscore_side data "home" "home_points";
  away ← boxscore_side data "away" "away_points";
  Ok (VDict [("id", id); ("status", status); ("scheduled", scheduled);
             ("home", home); ("away", away)]).

(** *** Fantasy rankings *)

Definition copy_if_present (source target : string) (default : value)
    (player player_summary : list (string * value)) : list (string * value) :=
  if dict_mem source player
  then dict_set target (dict_get player source default) player_summary
  else player_summary.

(** The summary of one player of a flat list: the same text at lines
    923-949 of [_summarize_fantasy_rankings] and at lines 1620-1647 of
    [_process_large_player_list_chunked]. *)
Definition flat_player_summary (player : list (string * value)) : list (string * value) :=
  let player_summary :=
    [("id", dict_get player "player_id" (VStr ""));
     ("name", dict_get player "display_name" (dict_get player "name" (VStr "")));
     ("team", dict_get player "team" (VStr ""));
     ("position", dict_get player "position" (VStr ""));
     ("rank", dict_get player "rank" (dict_get player "position_rank" (VInt 0)));
     ("bye_week", dict_get player "bye_week" (VStr ""))] in
  let player_summary :=
    if dict_mem "standard_points" player
    then dict_set "projected_points"
           (VDict [("standard", dict_get player "standard_points" (VInt 0));
                   ("ppr", dict_get player "ppr_points" (VInt 0));
                   ("half_ppr", dict_get player "half_ppr_points" (VInt 0))])
           player_summary
    else player_summary in
  let player_summary := copy_if_present "proj_pts" "projected_points" (VInt 0) player player_summary in
  let player_summary := copy_if_present "adp" "adp" (VInt 0) player player_summary in
  copy_if_present "injury_risk" "injury_risk" (VStr "") player player_summary.

(** [for player in players: if not isinstance(player, dict): continue;
    ...; summarized.append(player_summary)] *)
Definition append_flat_summaries (summarized : list value) (players : list value)
  : list value :=
  fold_left (fun summarized player =>
               match player with
               | VDict p => summarized ++ [VDict (flat_player_summary p)]
               | _ => summarized
               end) players summarized.

Fixpoint range_from (fuel start stop step : nat) : list nat :=
  match fuel with
  | O => []
  | S fuel' =>
      if (start <? stop)%nat then start :: range_from fuel' (start + step)%nat stop step
      else []
  end.

(** [range(start, stop, step)] for [step > 0]: it has at most [stop] values. *)
Definition py_range (start stop step : nat) : list nat := range_from stop start stop step.

Definition rankings_filler : value :=
  VDict [("summary", VStr "According to the Fantasy Nerds data, NFL player rankings are determined by many factors including past performance, recent games, matchups, and projected usage. Rankings typically showcase the top players at each position based on expected fantasy points.")].

(** The frame of [_summarize_fantasy_rankings]: the emptiness test of
    line 896 and the [try ... except] of lines 899 and 1034-1036 around
    [body]. *)
Definition rankings_frame (rankings_data : value) (body : result value) : result value :=
  if negb (truthy rankings_data) then Ok rankings_filler
  else try_except body
         (fun e => Ok (VDict [("summary", VStr "Rankings data available but could not be summarized");
                              ("error", VStr (exn_str e))])).

(** [_summarize_fantasy_rankings] at a list of at most 200 players, where
    the test of line 906 fails and the players are processed directly. *)
Definition summarize_rankings_upto_200 (rankings_data : list value) : result value :=
  rankings_frame (VList rankings_data) (Ok (VList (append_flat_summaries [] rankings_data))).

(** The loop of lines 1607-1649. *)
Definition chunked_loop (players_list : list value) : list value :=
  let total_players := length players_list in
  let chunk_size := 150%nat in
  fold_left (fun all_summarized i =>
               let chunk_end := Nat.min (i + chunk_size) total_players in
               let chunk := slice i chunk_end players_list in
               append_flat_summaries all_summarized chunk)
            (py_range 0 total_players chunk_size) [].

(** [_process_large_player_list_chunked] (lines 1588-1657).  Its handler
    calls [_summarize_fantasy_rankings] on [players_list[:200]]. *)
Definition _process_large_player_list_chunked (players_list : list value) : result value :=
  try_except (Ok (VList (chunked_loop players_list)))
             (fun _ => summarize_rankings_upto_200 (slice_to 200 players_list)).

(** [_summarize_fantasy_rankings] at a list (lines 896-953). *)
Definition summarize_rankings_list (rankings_data : list value) : result value :=
  rankings_frame (VList rankings_data)
    (let total_players := length rankings_data in
     if (200 <? total_players)%nat then _process_large_player_list_chunked rankings_data
     else Ok (VList (append_flat_summaries [] rankings_data))).

(** One player of a position section (lines 971-985). *)
Definition position_player_summary (player : value) : value :=
  match player with
  | VDict p =>
      VDict (copy_if_present "proj_pts" "projected_points" (VInt 0) p
               [("name", dict_get p "display_name" (dict_get p "name" (VStr "")));
                ("team", dict_get p "team" (VStr ""));
                ("rank", dict_get p "rank" (dict_get p "position_rank" (VInt 0)))])
  | _ => VDict [("error", VStr "Unexpected player data format")]
  end.

(** The loop of lines 964-985 over a position-keyed mapping. *)
Definition position_sections (rankings_data : list (string * value)) : list (string * value) :=
  fold_left (fun summarized '(position, players) =>
               match players with
               | VList ((_ :: _) as l) =>
                   let max_players := if String.eqb position "QB" then 25 else 15 in
                   dict_set position
                     (VList (List.map position_player_summary (slice_to max_players l)))
                     summarized
               | _ => summarized
               end) rankings_data [].

Definition scalar (v : value) : bool := negb (is_list v || is_dict v).

(** [{k: v for k, v in rankings_data.items()
      if k not in ["players", "data"] and not isinstance(v, (list, dict))}] *)
Definition rankings_metadata (rankings_data : list (string * value)) : list (string * value) :=
  fold_left (fun metadata '(k, v) =>
               if negb (str_in k ["players"; "data"]) && scalar v
               then dict_set k v metadata else metadata) rankings_data [].

Definition first_is_dict (l : list value) : bool :=
  match l with VDict _ :: _ => true | _ => false end.

(** The search of lines 1013-1029: the first field holding a non-empty
    list that starts with a dict. *)
Fixpoint find_player_field (items : list (string * value)) : option (list value) :=
  match items with
  | [] => None
  | (_, VList l) :: items' => if first_is_dict l then Some l else find_player_field items'
  | _ :: items' => find_player_field items'
  end.

(** Lines 1018-1028 *)
Definition tiered_sample (field : list value) : list value :=
  let total_items := length field in
  if (30 <? total_items)%nat then
    let tier1 := slice_to 15 field in
    let tier2 := if (60 <? total_items)%nat then slice 50 60 field else [] in
    let tier3 := if (155 <? total_items)%nat then slice 150 155 field else [] in
    tier1 ++ tier2 ++ tier3
  else slice_to 30 field.

(** [_summarize_fantasy_rankings] (lines 885-1036).  The position-keyed
    branch (lines 962-985) fills [summarized] and ends without a
    [return]: control leaves the [try] and the function returns [None].
    The recursive calls on lists built by the function itself are the
    list case [summarize_rankings_list]. *)
Fixpoint _summarize_fantasy_rankings (rankings_data : value) : result value :=
  match rankings_data with
  | VList l => summarize_rankings_list l
  | VDict d =>
      rankings_frame rankings_data
        (if position_keyed d then
           let summarized := position_sections d in
           Ok VNone
         else
           match dict_lookup_map
                   (fun data => (is_list data || is_dict data, _summarize_fantasy_rankings data))
                   "data" d with
           | Some (true, summary) => summary
           | _ =>
               let summarized := [("metadata", VDict (rankings_metadata d));
                                  ("players_sample", VList [])] in
               match dict_lookup "players" d with
               | Some (VList all_players) =>
                   players_sample ← summarize_rankings_list all_players;
                   Ok (VDict (dict_set "players_sample" players_sample summarized))
               | _ =>
                   match find_player_field d with
                   | Some field =>
                       players_sample ← summarize_rankings_list (tiered_sample field);
                       Ok (VDict (dict_set "players_sample" players_sample summarized))
                   | None => Ok (VDict summarized)
                   end
               end
           end)
  | _ =>
      rankings_frame rankings_data
        (Ok (VDict [("summary", VStr "Rankings data available but in unexpected format")]))
  end.

(** *** Draft projections *)

(** [enumerate(l, start)] *)
Definition enumerate_from {A} (start : nat) (l : list A) : list (nat * A) :=
  combine (seq start (length l)) l.

(** [{target: player.get(source, "") for ...}] *)
Definition projection_stats (player : list (string * value)) (fields : list (string * string))
  : value :=
  VDict (List.map (fun '(target, source) => (target, dict_get player source (VStr ""))) fields).

Definition same_name (fields : list string) : list (string * string) :=
  List.map (fun f => (f, f)) fields.

Definition draft_player_base (position : string) (rank : nat) (player : list (string * value))
  : list (string * value) :=
  [("rank", VInt (Z.of_nat rank));
   ("name", dict_get player "name" (VStr ""));
   ("team", dict_get player "team" (VStr ""));
   ("position", dict_get player "position" (VStr position));
   ("player_id", dict_get player "playerId" (VStr ""))].

(** The kicker of lines 1518-1535. *)
Definition kicker_summary (position : string) (rank : nat) (player : list (string * value))
  : list (string * value) :=
  dict_set "projections"
    (projection_stats player
       [("field_goals", "field_goals_made"); ("extra_points", "extra_points_made");
        ("field_goal_attempts", "field_goals_attempted");
        ("extra_point_attempts", "extra_points_attempted")])
    (draft_player_base position rank player).

(** The player of lines 1546-1572. *)
Definition small_position_summary (position : string) (rank : nat)
    (player : list (string * value)) : list (string * value) :=
  let player_summary := draft_player_base position rank player in
  if String.eqb position "QB" then
    dict_set "projections"
      (projection_stats player
         (same_name ["passing_yards"; "passing_touchdowns"; "rushing_yards";
                     "rushing_touchdowns"])) player_summary
  else if str_in position ["RB"; "WR"; "TE"] then
    dict_set "projections"
      (projection_stats player
         (same_name ["rushing_yards"; "rushing_touchdowns"; "receiving_yards";
                     "receiving_touchdowns"; "receptions"])) player_summary
  else player_summary.

(** The player of lines 1770-1811. *)
Definition chunked_position_summary (position : string) (rank : nat)
    (player : list (string * value)) : list (string * value) :=
  let player_summary := draft_player_base position rank player in
  if String.eqb position "QB" then
    dict_set "projections"
      (projection_stats player
         (same_name ["passing_yards"; "passing_touchdowns"; "rushing_yards";
                     "rushing_touchdowns"; "interceptions"; "fumbles"])) player_summary
  else if str_in position ["RB"; "WR"; "TE"] then
    dict_set "projections"
      (projection_stats player
         (same_name ["rushing_yards"; "rushing_touchdowns"; "receiving_yards";
                     "receiving_touchdowns"; "receptions"; "fumbles"])) player_summary
  else if String.eqb position "K" then
    dict_set "projections"
      (projection_stats player
         (same_name ["field_goals"; "extra_points"; "field_goal_attempts"])) player_summary
  else if String.eqb position "DEF" then
    dict_set "projections"
      (projection_stats player
         (same_name ["sacks"; "interceptions"; "fumble_recoveries";
                     "defensive_touchdowns"])) player_summary
  else player_summary.

(** [for rank, player in enumerate(players, start): if isinstance(player, dict):
    ...; acc.append(summary rank player)] *)
Definition append_ranked (summary : nat -> list (string * value) -> list (string * value))
    (start : nat) (acc : list value) (players : list value) : list value :=
  fold_left (fun acc '(rank, player) =>
               match player with
               | VDict p => acc ++ [VDict (summary rank p)]
               | _ => acc
               end) (enumerate_from start players) acc.

(** [_process_draft_projections_fallback] (lines 1821-1834) *)
Definition _process_draft_projections_fallback (players_list : list value) (position : string)
  : list value :=
  append_ranked (draft_player_base position) 1 [] players_list.

(** [_process_large_player_list_chunked_draft_projections] (lines 1737-1819) *)
Definition _process_large_player_list_chunked_draft_projections (players_list : list value)
    (position : string) : result (list value) :=
  try_except
    (let total_players := length players_list in
     let chunk_size := 75%nat in
     Ok (fold_left (fun all_summarized i =>
                      let chunk_end := Nat.min (i + chunk_size) total_players in
                      let chunk := slice i chunk_end players_list in
                      append_ranked (chunked_position_summary position) (i + 1)
                        all_summarized chunk)
                   (py_range 0 total_players chunk_size) []))
    (fun _ => Ok (_process_draft_projections_fallback (slice_to 30 players_list) position)).

(** The body of the loop over [projections.items()] (lines 1507-1577). *)
Definition draft_position (positions : list (string * value)) (entry : string * value)
  : result (list (string * value)) :=
  let '(position, players) := entry in
  match players with
  | VList ((_ :: _) as l) =>
      let total_players := length l in
      position_data ←
        (if String.eqb position "K" then Ok (append_ranked (kicker_summary position) 1 [] l)
         else if (30 <? total_players)%nat
              then _process_large_player_list_chunked_draft_projections l position
              else Ok (append_ranked (small_position_summary position) 1 [] l));
      Ok (dict_set position
            (VDict [("count", VInt (Z.of_nat total_players));
                    ("all_players", VList position_data)]) positions)
  | _ => Ok positions
  end.

(** [_summarize_draft_projections] (lines 1487-1586) *)
Definition _summarize_draft_projections (projections_data : value) : result value :=
  try_except
    (if negb (truthy projections_data)
     then Ok (VDict [("summary", VStr "No draft projections data available")])
     else
       present ← py_in "projections" projections_data;
       if (present : bool) then
         projections ← py_getitem projections_data "projections";
         season ← py_get projections_data "season" (VStr "Unknown");
         items ← py_items projections;
         positions ← for_each draft_position items [];
         Ok (VDict [("season", season); ("positions", VDict positions)])
       else _summarize_fantasy_rankings projections_data)
    (fun e => Ok (VDict [("summary", VStr "Draft projections data available but could not be summarized");
                         ("error", VStr (exn_str e))])).

(** ** The orchestrator *)

(** The summarizers of the categories this development does not look
    into.  Each is a method of [LLMService] taking the raw category data;
    whether it returns or raises is left open. *)
Class Summarizers := {
  _summarize_league_structure : value -> result value;
  _summarize_standings_data : value -> result value;
  _summarize_schedule_data : value -> result value;
  _summarize_team_profile : value -> result value;
  _summarize_injury_data : value -> result value;
  _summarize_team_injuries : value -> result value;
  _summarize_games : value -> result value;
  _summarize_ros_projections : value -> result value;
  _summarize_news_data : value -> result value;
  _summarize_players_data : value -> result value;
  _summarize_depth_charts : value -> result value;
  _summarize_player_details : value -> result value;
  _summarize_bye_weeks : value -> result value;
  _summarize_add_drops : value -> result value;
  _summarize_weather_data : value -> result value;
  _summarize_dfs_data : value -> result value;
  _summarize_dfs_slates : value -> result value;
  _summarize_nfl_picks : value -> result value
}.

(** [if key in data: summarized[target] = summarizer(data[key])] *)
Definition category (data : list (string * value)) (key target : string)
    (summarizer : value -> result value) (summarized : list (string * value))
  : result (list (string * value)) :=
  match dict_lookup key data with
  | Some raw =>
      summary ← summarizer raw;
      Ok (dict_set target summary summarized)
  | None => Ok summarized
  end.

(** [if key in data: summarized[key] = {};
     for team_code, x in data[key].items(): summarized[key][team_code] = summarizer(x)] *)
Definition per_team (data : list (string * value)) (key : string)
    (summarizer : value -> result value) (summarized : list (string * value))
  : result (list (string * value)) :=
  category data key key
    (fun raw =>
       items ← py_items raw;
       VDict <$> for_each (fun by_team '(team_code, x) =>
                             summary ← summarizer x;
                             Ok (dict_set team_code summary by_team)) items [])
    summarized.

(** [if key in data:] prioritize when there are mentions, then summarize. *)
Definition prioritized_category (data : list (string * value)) (key : string)
    (mentioned_players : list value)
    (prioritizer : value -> list value -> result value)
    (summarizer : value -> result value) (summarized : list (string * value))
  : result (list (string * value)) :=
  category data key key
    (fun raw =>
       if negb (is_nil mentioned_players) then
         prioritized_data ← prioritizer raw mentioned_players;
         summarizer prioritized_data
       else summarizer raw)
    summarized.

Definition compaction_fallback (e : exn) : value :=
  VDict [("summary", VStr "According to the Fantasy Nerds data, the NFL analytics show comprehensive information about players, teams, and statistics across the league.");
         ("error", VStr (exn_str e))].

Section Orchestrator.
Context `{Summarizers}.

(** The [try] block of [_summarize_context_data] (lines 320-465). *)
Definition summarize_categories (data : list (string * value))
    (mentioned_players : list value) (summarized : list (string * value))
  : result (list (string * value)) :=
  summarized ← category data "league" "league_structure" _summarize_league_structure summarized;
  summarized ← category data "standings" "standings" _summarize_standings_data summarized;
  summarized ← category data "schedule" "schedule" _summarize_schedule_data summarized;
  summarized ← per_team data "team_profiles" _summarize_team_profile summarized;
  summarized ← category data "injuries" "injuries" _summarize_injury_data summarized;
  summarized ← per_team data "team_injuries" _summarize_team_injuries summarized;
  summarized ← category data "relevant_games" "relevant_games" _summarize_games summarized;
  summarized ← per_team data "team_games" _summarize_games summarized;
  summarized ← category data "boxscore" "boxscore" _summarize_boxscore summarized;
  summarized ← prioritized_category data "draft_rankings" mentioned_players
                 _prioritize_mentioned_players_in_fantasy_rankings
                 _summarize_fantasy_rankings summarized;
  summarized ← prioritized_category data "weekly_rankings" mentioned_players
                 _prioritize_mentioned_players_in_fantasy_rankings
                 _summarize_fantasy_rankings summarized;
  summarized ← prioritized_category data "ros_projections" mentioned_players
                 _prioritize_mentioned_players_in_ros
                 _summarize_ros_projections summarized;
  summarized ← category data "news" "news" _summarize_news_data summarized;
  summarized ← category data "adp" "adp" _summarize_fantasy_rankings summarized;
  summarized ← category data "player_tiers" "player_tiers" _summarize_fantasy_rankings summarized;
  summarized ← category data "auction_values" "auction_values" _summarize_fantasy_rankings summarized;
  summarized ← category data "best_ball" "best_ball" _summarize_fantasy_rankings summarized;
  summarized ← category data "dynasty" "dynasty" _summarize_fantasy_rankings summarized;
  summarized ← category data "fantasy_leaders" "fantasy_leaders" _summarize_fantasy_rankings summarized;
  summarized ← category data "players" "players" _summarize_players_data summarized;
  summarized ← (if dict_mem "depth" data
                then category data "depth" "depth" _summarize_depth_charts summarized
                else category data "depth_charts" "depth" _summarize_depth_charts summarized);
  summarized ← category data "weekly_projections" "weekly_projections" _summarize_fantasy_rankings summarized;
  summarized ← category data "player_details" "player_details" _summarize_player_details summarized;
  summarized ← category data "defense_rankings" "defense_rankings" _summarize_fantasy_rankings summarized;
  summarized ← category data "bye_weeks" "bye_weeks" _summarize_bye_weeks summarized;
  summarized ← category data "add_drops" "add_drops" _summarize_add_drops summarized;
  summarized ← category data "weather" "weather" _summarize_weather_data summarized;
  summarized ← prioritized_category data "draft_projections" mentioned_players
                 _prioritize_mentioned_players_in_draft_projections
                 _summarize_draft_projections summarized;
  summarized ← category data "dfs" "dfs" _summarize_dfs_data summarized;
  summarized ← category data "dfs_slates" "dfs_slates" _summarize_dfs_slates summarized;
  summarized ← category data "idp_draft" "idp_draft" _summarize_fantasy_rankings summarized;
  summarized ← category data "idp_weekly" "idp_weekly" _summarize_fantasy_rankings summarized;
  category data "nfl_picks" "nfl_picks" _summarize_nfl_picks summarized.

(** [_summarize_context_data] (lines 308-473); [mentioned_teams] is
    accepted and not used. *)
Definition _summarize_context_data (data : value) (mentioned_players : list value)
    (mentioned_teams : list string) : result value :=
  match data with
  | VDict d =>
      let summarized := [("query_type", dict_get d "query_type" (VStr "unknown"));
                         ("metadata", dict_get d "metadata" (VDict []))] in
      try_except (VDict <$> summarize_categories d mentioned_players summarized)
                 (fun e => Ok (compaction_fallback e))
  | _ => no_attribute data "get"
  end.
End Orchestrator.

(** ** Budget enforcement in [generate_response] (lines 126-216) *)

Definition max_context_size : Z := 50000.

Definition truncation_marker : string :=
  "...[additional data available - query for specific players]".

(** [v[:n]] for [0 <= n]: lists and strings can be sliced. *)
Definition py_slice_to (n : Z) (v : value) : result (list value) :=
  match v with
  | VList l => Ok (slice_to n l)
  | VStr s =>
      Ok (List.map (fun c => VStr (String c EmptyString))
            (slice_to n (list_ascii_of_string s)))
  | VDict _ => Raise (TypeError "unhashable type: 'slice'")
  | _ => Raise (TypeError ("'" +:+ type_name v +:+ "' object is not subscriptable"))
  end.

(** [mentioned_player.split()] *)
Definition py_split (v : value) : result (list string) :=
  match v with
  | VStr s => Ok (str_split s)
  | _ => no_attribute v "split"
  end.

(** [any(name.lower() in player.get("name", "").lower() for name in names)] *)
Fixpoint any_name_in_player (names : list string) (player : value) : result bool :=
  match names with
  | [] => Ok false
  | name :: names' =>
      n ← py_get player "name" (VStr "");
      player_name ← py_lower n;
      if str_contains (str_lower name) player_name then Ok true
      else any_name_in_player names' player
  end.

(** The inner loop of lines 158-162, left by [break] at the first match. *)
Fixpoint look_for_player (mentioned_player : value) (players : list value) : result bool :=
  match players with
  | [] => Ok false
  | player :: players' =>
      names ← py_split mentioned_player;
      found ← any_name_in_player names player;
      if (found : bool) then Ok true else look_for_player mentioned_player players'
  end.

(** The check of lines 153-164: it only prints, but its lookups can raise. *)
Definition debug_rb_players (mentioned_players : list value) (ros_projections : value)
  : result unit :=
  if is_nil mentioned_players then Ok tt
  else
    has_rb ← py_in "RB" ros_projections;
    if (has_rb : bool) then
      rb_players ← py_getitem ros_projections "RB";
      for_each (fun _ mentioned_player =>
                  first_20 ← py_slice_to 20 rb_players;
                  player_found ← look_for_player mentioned_player first_20;
                  Ok tt) mentioned_players tt
    else Ok tt.

(** [prioritizer(x, mentioned_players) if mentioned_players else x] *)
Definition prioritize_if_mentioned (prioritizer : value -> list value -> result value)
    (x : value) (mentioned_players : list value) : result value :=
  if negb (is_nil mentioned_players) then prioritizer x mentioned_players else Ok x.

Definition fallback_keys : list string :=
  ["ros_projections"; "draft_projections"; "draft_rankings"; "weekly_rankings"; "dynasty";
   "best_ball"; "adp"; "player_tiers"; "auction_values"].

(** The loop of lines 189-210: the first key present is kept and the
    loop is left. *)
Fixpoint keep_first_dataset (keys : list string) (context_obj : list (string * value))
    (mentioned_players : list value) (mentioned_teams : list string)
    (essential_data : list (string * value)) : result (list (string * value)) :=
  match keys with
  | [] => Ok essential_data
  | key :: keys' =>
      match dict_lookup key context_obj with
      | Some dataset =>
          kept ←
            (if negb (is_nil mentioned_players)
                && str_in key ["weekly_rankings"; "dynasty"; "best_ball"; "adp";
                               "player_tiers"; "auction_values"]
             then _prioritize_mentioned_players_in_fantasy_rankings dataset mentioned_players
             else if negb (is_nil mentioned_teams) && str_in key ["standings"; "league"; "teams"]
             then (if String.eqb key "standings"
                   then _prioritize_mentioned_teams_in_standings dataset mentioned_teams
                   else Ok dataset)
             else Ok dataset);
          Ok (dict_set key kept essential_data)
      | None =>
          keep_first_dataset keys' context_obj mentioned_players mentioned_teams essential_data
      end
  end.

(** [essential_data] of lines 133-210.  [context_obj] is
    [json.loads(context_str)] for [context_str = json.dumps(summarized_data)],
    that is, the value that was serialized. *)
Definition essential_data_of (context_obj : value) (mentioned_players : list value)
    (mentioned_teams : list string) : result value :=
  match context_obj with
  | VDict obj =>
      let query_type := dict_get obj "query_type" (VStr "") in
      let essential_data :=
        [("query_type", query_type);
         ("metadata",
          VDict [("note", VStr "Comprehensive dataset - metadata truncated for space")])] in
      if value_is_str "ros_projections" query_type && dict_mem "ros_projections" obj then
        kept ← prioritize_if_mentioned _prioritize_mentioned_players_in_ros
                 (dict_get obj "ros_projections" VNone) mentioned_players;
        _ ← debug_rb_players mentioned_players kept;
        Ok (VDict (dict_set "ros_projections" kept essential_data))
      else if value_is_str "draft_projections" query_type && dict_mem "draft_projections" obj then
        kept ← prioritize_if_mentioned _prioritize_mentioned_players_in_draft_projections
                 (dict_get obj "draft_projections" VNone) mentioned_players;
        Ok (VDict (dict_set "draft_projections" kept essential_data))
      else
        has_sample ←
          match dict_lookup "draft_rankings" obj with
          | Some draft_rankings => py_in "players_sample" draft_rankings
          | None => Ok false
          end;
        if (has_sample : bool) then
          kept ← prioritize_if_mentioned _prioritize_mentioned_players_in_fantasy_rankings
                   (dict_get obj "draft_rankings" VNone) mentioned_players;
          Ok (VDict (dict_set "draft_rankings" kept essential_data))
        else
          VDict <$> keep_first_dataset fallback_keys obj mentioned_players mentioned_teams
                      essential_data
  | _ => no_attribute context_obj "get"
  end.

(** Lines 126-216: the string appended to [messages] for the summarized
    data. *)
Definition bounded_context_str (summarized_data : value) (mentioned_players : list value)
    (mentioned_teams : list string) : result string :=
  let context_str := json_dumps summarized_data in
  if max_context_size <? py_len context_str then
    let context_obj := summarized_data in
    essential_data ← essential_data_of context_obj mentioned_players mentioned_teams;
    let context_str := json_dumps essential_data in
    if max_context_size <? py_len context_str
    then Ok (str_slice_to max_context_size context_str +:+ truncation_marker)
    else Ok context_str
  else Ok context_str.

(** ** [generate_response] (lines 20-306) *)

(** What the exchange with the completion service of lines 221-306 comes
    to: an answer, which is cached, or one of the replies of the [except]
    branches, which is returned and not cached. *)
Inductive reply : Type :=
| Answered (llm_response : string)
| Recovered (text : string).

(** The collaborators of [generate_response] outside the compaction
    pipeline. *)
Class Environment := {
  (** [hashlib.sha256((query + str(context_data)).encode()).hexdigest()] *)
  fingerprint : string -> value -> string;
  _extract_player_names_from_query : string -> list string;
  _extract_team_names_from_query : string -> list string;
  (** the system prompt of lines 73-99 for a given [endpoints_str] *)
  system_message : string -> string;
  (** the text of lines 108-122 *)
  data_instructions : string;
  (** the request of lines 221-306 for the given messages *)
  post_chat : list (string * string) -> reply
}.

Fixpoint str_replace_char (old new : ascii) (s : string) : string :=
  match s with
  | EmptyString => EmptyString
  | String c s' =>
      String (if Ascii.eqb c old then new else c) (str_replace_char old new s')
  end.

(** Lines 62-68 *)
Definition endpoints_used_of (context_data : value) : result (list string) :=
  if truthy context_data then
    keys ← py_iter context_data;
    for_each (fun endpoints_used key =>
                if existsb (fun k => value_is_str k key)
                     ["query_type"; "metadata"; "original_query"]
                then Ok endpoints_used
                else
                  match key with
                  | VStr k =>
                      let endpoint_name :=
                        if String.eqb k "league" then "teams"
                        else str_replace_char "_" "-" k in
                      Ok (endpoints_used ++ [endpoint_name])
                  | _ => no_attribute key "replace"
                  end) keys []
  else Ok [].

(** Lines 46-55 *)
Definition mentioned_players_of `{Environment} (query : string) (context_data : value)
  : result (list value) :=
  let extracted := List.map VStr (_extract_player_names_from_query query) in
  if truthy context_data then
    has_metadata ← py_in "metadata" context_data;
    if (has_metadata : bool) then
      metadata ← py_getitem context_data "metadata";
      has_target ← py_in "target_player" metadata;
      if (has_target : bool) then
        target_player ← py_getitem metadata "target_player";
        Ok [target_player]
      else Ok extracted
    else Ok extracted
  else Ok extracted.

Section Service.
Context `{Summarizers} `{Environment}.

(** Lines 101-218: the messages sent before the user's query. *)
Definition messages_of (endpoints_str : string) (context_data : value)
    (mentioned_players : list value) (mentioned_teams : list string)
  : result (list (string * string)) :=
  let messages := [("system", system_message endpoints_str)] in
  if truthy context_data then
    summarized_data ← _summarize_context_data context_data mentioned_players mentioned_teams;
    context_str ← bounded_context_str summarized_data mentioned_players mentioned_teams;
    Ok (messages ++ [("system", data_instructions); ("system", context_str)])
  else Ok messages.

Definition generate_response (llm_cache : gmap string (Q * string)) (now : Q)
    (query : string) (context_data : value)
  : result (string * gmap string (Q * string)) :=
  let cache_key := fingerprint query context_data in
  match cache_read llm_cache cache_key now with
  | Some cached_response => Ok (cached_response, llm_cache)
  | None =>
      mentioned_players ← mentioned_players_of query context_data;
      let mentioned_teams := _extract_team_names_from_query query in
      endpoints_used ← endpoints_used_of context_data;
      let endpoints_str :=
        join ", " (List.map (fun endpoint => quote_char +:+ "/nfl/" +:+ endpoint +:+ quote_char)
                     endpoints_used) in
      messages ← messages_of endpoints_str context_data mentioned_players mentioned_teams;
      match post_chat (messages ++ [("user", query)]) with
      | Answered llm_response =>
          Ok (llm_response, cache_store llm_cache cache_key now llm_response)
      | Recovered text => Ok (text, llm_cache)
      end
  end.
End Service.

(** ** Notions used by the statements *)

(** [t] occurs in [s]. *)
Definition substring (t s : string) : Prop := exists a b, s = a +:+ t +:+ b.

(** [t] is a part, longer than two characters, of a lower-cased mention. *)
Definition mention_token (mentions : list string) (t : string) : Prop :=
  exists m, In m mentions /\ In t (str_split (str_lower m)) /\ 2 < py_len t.

(** The name of a record: its field [name] when it has one, else its
    field [display_name], else the empty text. *)
Definition record_name (p : list (string * value)) : value :=
  match dict_lookup "name" p with
  | Some name => name
  | None =>
      match dict_lookup "display_name" p with
      | Some display_name => display_name
      | None => VStr ""
      end
  end.

(** The record [r] is a mapping whose lower-cased name holds a mention
    token. *)
Definition mentioned (mentions : list string) (r : value) : Prop :=
  exists p name t,
    r = VDict p /\ record_name p = VStr name
    /\ mention_token mentions t /\ substring t (str_lower name).



Definition mentionedb (mentions : list string) (r : value) : bool :=
  match r with
  | VDict p =>
      match list_player_name p with
      | VStr name =>
          existsb (fun m => any_part_in (str_lower name) (str_split (str_lower m))) mentions
      | _ => false
      end
  | _ => false
  end.

(** Every record of the list has a text as its name. *)
Definition names_are_text (players : list value) : Prop :=
  forall p, In (VDict p) players -> exists name, list_player_name p = VStr name.

(** The well-formed (mapping) elements of a list, in order. *)
Fixpoint records_of (l : list value) : list (list (string * value)) :=
  match l with
  | [] => []
  | VDict p :: l' => p :: records_of l'
  | _ :: l' => records_of l'
  end.

(** The name under which a flat list summarizes a record. *)
Definition identity_of (player : list (string * value)) : value :=
  dict_get player "display_name" (dict_get player "name" (VStr "")).

(** [summary["name"]] of a summarized record. *)
Definition summary_name (summary : value) : option value :=
  match summary with
  | VDict s => dict_lookup "name" s
  | _ => None
  end.

(** The cap of a position section. *)
Definition position_cap (position : string) : nat :=
  if String.eqb position "QB" then 25%nat else 15%nat.

(** Every section of [summarized] is a list within the cap of its
    position. *)
Definition capped_sections (summarized : list (string * value)) : Prop :=
  forall position section,
    dict_lookup position summarized = Some section ->
    exists l, section = VList l /\ (length l <= position_cap position)%nat.

(** The records a summary holds for a position. *)
Definition retained_records (position : string) (summary : value) : list value :=
  match summary with
  | VDict sections =>
      match dict_lookup position sections with
      | Some (VList records) => records
      | _ => []
      end
  | _ => []
  end.

(** What [_summarize_games] returns when the games cannot be
    summarized. *)
Definition games_fallback : value :=
  VDict [("summary", VStr "Games data available but could not be summarized")].

(** ** Example data *)

Definition mahomes : value := VDict [("name", VStr "Patrick Mahomes")].
Definition brady : value := VDict [("name", VStr "Tom Brady")].

(** A bundle of 500 ranked players without any field. *)
Definition overflowing_bundle : value :=
  VDict [("draft_rankings", VList (repeat (VDict []) 500))].

Definition overflowing_summary : value :=
  VDict [("query_type", VStr "unknown"); ("metadata", VDict []);
         ("draft_rankings", VList (repeat (VDict (flat_player_summary [])) 500))].

Definition overflowing_essential : value :=
  VDict [("query_type", VStr "unknown");
         ("metadata",
          VDict [("note", VStr "Comprehensive dataset - metadata truncated for space")]);
         ("draft_rankings", VList (repeat (VDict (flat_player_summary [])) 500))].

(** ** More primitives *)

(** [len(v)] *)
Definition py_len_of (v : value) : result Z :=
  match v with
  | VStr s => Ok (py_len s)
  | VList l => Ok (Z.of_nat (length l))
  | VDict d => Ok (Z.of_nat (length d))
  | _ => Raise (TypeError ("object of type '" +:+ type_name v +:+ "' has no len()"))
  end.

(** [for x in l: summarized.append(summary(x))] *)
Definition append_each {A} (summary : A -> result value) (l : list A) : result (list value) :=
  for_each (fun summarized x => s ← summary x; Ok (summarized ++ [s])) l [].

(** [for x in l: if isinstance(x, dict): summarized.append(summary(x))] *)
Definition append_each_dict (summary : list (string * value) -> result value) (l : list value)
  : result (list value) :=
  for_each (fun summarized x =>
              match x with
              | VDict d => s ← summary d; Ok (summarized ++ [s])
              | _ => Ok summarized
              end) l [].

(** ** Further methods of [LLMService]

    The methods below are the ones the class [Summarizers] and the class
    [Environment] leave open; they are modelled under the name of the
    service, next to the parameters of the same names. *)

Module LLMService.

(** The body of the loop of [_summarize_games] (lines 622-643). *)
Definition game_summary (game : value) : result value :=
  match game with
  | VDict g =>
      let home_team_info := dict_get g "home_team" (VStr "") in
      let away_team_info := dict_get g "away_team" (VStr "") in
      home_team_info ←
        (if negb (truthy home_team_info)
         then py_get (dict_get g "home" (VDict [])) "alias" (VStr "")
         else Ok home_team_info);
      away_team_info ←
        (if negb (truthy away_team_info)
         then py_get (dict_get g "away" (VDict [])) "alias" (VStr "")
         else Ok away_team_info);
      Ok (VDict [("gameId", dict_get g "gameId" (dict_get g "id" (VStr "")));
                 ("week", dict_get g "week" (VStr ""));
                 ("game_date", dict_get g "game_date" (dict_get g "scheduled" (VStr "")));
                 ("home_team", home_team_info);
                 ("away_team", away_team_info);
                 ("tv_station", dict_get g "tv_station" (VStr ""));
                 ("home_score", dict_get g "home_score" (dict_get g "home_points" (VInt 0)));
                 ("away_score", dict_get g "away_score" (dict_get g "away_points" (VInt 0)));
                 ("status", dict_get g "status" (VStr "Scheduled"))])
  | _ => no_attribute game "get"
  end.

(** [_summarize_games] (lines 612-648) *)
Definition _summarize_games (games_data : value) : result value :=
  if negb (truthy games_data) then Ok (VList [])
  else
    try_except
      (games ← py_slice_to 10 games_data;
       games_summary ← append_each game_summary games;
       Ok (VList games_summary))
      (fun _ => Ok (VList [VDict [("summary",
                                   VStr "Games data available but could not be summarized")]])).

(** The team of a conference of the standings (lines 676-685). *)
Definition standings_team (team : value) : result value :=
  match team with
  | VDict t =>
      Ok (VDict [("name", dict_get t "name" (VStr ""));
                 ("alias", dict_get t "alias" (VStr ""));
                 ("wins", dict_get t "wins" (VInt 0));
                 ("losses", dict_get t "losses" (VInt 0));
                 ("ties", dict_get t "ties" (VInt 0));
                 ("win_pct", dict_get t "win_pct" (VInt 0));
                 ("points_for", dict_get t "points_for" (VInt 0));
                 ("points_against", dict_get t "points_against" (VInt 0))])
  | _ => no_attribute team "get"
  end.

Definition standings_division (division : value) : result value :=
  name ← py_get division "name" (VStr "");
  alias ← py_get division "alias" (VStr "");
  teams_value ← py_get division "teams" (VList []);
  teams ← py_iter teams_value;
  teams ← append_each standings_team teams;
  Ok (VDict [("name", name); ("alias", alias); ("teams", VList teams)]).

Definition standings_conference (conference : value) : result value :=
  name ← py_get conference "name" (VStr "");
  alias ← py_get conference "alias" (VStr "");
  divisions_value ← py_get conference "divisions" (VList []);
  divisions ← py_iter divisions_value;
  divisions ← append_each standings_division divisions;
  Ok (VDict [("name", name); ("alias", alias); ("divisions", VList divisions)]).

(** [_summarize_standings_data] (lines 650-694): the season is read
    before the [try]. *)
Definition _summarize_standings_data (standings_data : value) : result value :=
  if negb (truthy standings_data) then Ok (VDict [])
  else
    season ← py_get standings_data "season" (VDict []);
    year ← py_get season "year" (VStr "");
    try_except
      (present ← py_in "conferences" standings_data;
       conferences ←
         (if (present : bool) then
            conferences_value ← py_getitem standings_data "conferences";
            conferences ← py_iter conferences_value;
            append_each standings_conference conferences
          else Ok []);
       Ok (VDict [("season", year); ("conferences", VList conferences)]))
      (fun _ => Ok (VDict [("summary", VStr "According to the Fantasy Nerds data, NFL standings are organized by division and conference, with each team's win-loss record, winning percentage, points scored, and points allowed. Teams are ranked within their divisions based on these metrics, with division winners securing automatic playoff berths.")])).

(** The game of a schedule (lines 720-731). *)
Definition schedule_game (g : list (string * value)) : result value :=
  home_alias ← py_get (dict_get g "home" (VDict [])) "alias" (VStr "");
  away_alias ← py_get (dict_get g "away" (VDict [])) "alias" (VStr "");
  Ok (VDict [("gameId", dict_get g "gameId" (dict_get g "id" (VStr "")));
             ("season", dict_get g "season" (VStr ""));
             ("week", dict_get g "week" (VStr ""));
             ("game_date", dict_get g "game_date" (dict_get g "scheduled" (VStr "")));
             ("home_team", dict_get g "home_team" home_alias);
             ("away_team", dict_get g "away_team" away_alias);
             ("home_score", dict_get g "home_score" (dict_get g "home_points" VNone));
             ("away_score", dict_get g "away_score" (dict_get g "away_points" VNone));
             ("tv_station", dict_get g "tv_station" (VStr ""));
             ("winner", dict_get g "winner" VNone)]).

Definition schedule_filler : value :=
  VDict [("summary", VStr ("According to the Fantasy Nerds data, the NFL regular season typically runs from early September through early January, followed by the playoffs. Recent games would have included weekly matchups on Thursday night, Sunday, and Monday. The most recent games would have been part of the latest completed week (for example, Week 18 if it's the end of the regular season, or playoff games if the postseason has started)." +:+ newline +:+ newline +:+ "If you're interested in a specific week or team, let me know and I can provide more targeted information from my NFL knowledge, such as notable matchups, key results, and interesting storylines from the most recent NFL week."))].

Definition schedule_fallback : value :=
  VDict [("summary", VStr "According to the Fantasy Nerds data, the NFL schedule typically includes regular season games from September through January, followed by playoffs. Games are usually played on Thursdays, Sundays, and Mondays.")].

(** [_summarize_schedule_data] (lines 696-750) *)
Definition _summarize_schedule_data (data : value) : result value :=
  try_except
    ('(year, type, games) ←
       match data with
       | VList l => Ok (VStr "current", VStr "regular", slice_to 10 l)
       | _ =>
           year ← py_get data "year" (VStr "");
           type ← py_get data "type" (VStr "");
           games_value ← py_get data "games" (VList []);
           games ← py_slice_to 10 games_value;
           Ok (year, type, games)
       end;
     games ← append_each_dict schedule_game games;
     if is_nil games then Ok schedule_filler
     else Ok (VDict [("year", year); ("type", type); ("games", VList games)]))
    (fun _ => Ok schedule_fallback).

(** The injured player of lines 780-785. *)
Definition injured_player (player : value) : result value :=
  match player with
  | VDict p =>
      Ok (VDict [("name", dict_get p "name" (VStr ""));
                 ("position", dict_get p "position" (VStr ""));
                 ("status", dict_get p "status" (VStr ""));
                 ("injury", dict_get p "injury" (VStr ""))])
  | _ => no_attribute player "get"
  end.

(** The team of lines 770-788. *)
Definition injury_team (team : value) : result value :=
  name ← py_get team "name" (VStr "");
  alias ← py_get team "alias" (VStr "");
  players_value ← py_get team "players" (VList []);
  players ← py_slice_to 10 players_value;
  injuries ← append_each injured_player players;
  Ok (VDict [("name", name); ("alias", alias); ("injuries", VList injuries)]).

Definition injury_fallback : value :=
  VDict [("summary", VStr "According to the Fantasy Nerds data, NFL injuries are closely monitored throughout the week with practice reports on Wednesday, Thursday, and Friday. Players are designated as Questionable (Q), Doubtful (D), or Out (O), with detailed information about the specific injury and expected recovery timeline where available.")].

(** [_summarize_injury_data] (lines 752-793) *)
Definition _summarize_injury_data (data : value) : result value :=
  try_except
    ('(week, teams) ←
       match data with
       | VList l => Ok (VStr "current", slice_to 10 l)
       | _ =>
           week ← py_get data "week" (VStr "");
           teams_value ← py_get data "teams" (VList []);
           teams ← py_slice_to 10 teams_value;
           Ok (week, teams)
       end;
     teams_with_injuries ← append_each injury_team teams;
     Ok (VDict [("week", week); ("teams_with_injuries", VList teams_with_injuries)]))
    (fun _ => Ok injury_fallback).

(** [excerpt[:200] + "..." if len(excerpt) > 200 else excerpt] *)
Definition news_excerpt (excerpt : value) : result value :=
  n ← py_len_of excerpt;
  if 200 <? n then
    match excerpt with
    | VStr s => Ok (VStr (str_slice_to 200 s +:+ "..."))
    | VList _ =>
        Raise (TypeError ("can only concatenate list (not " +:+ quote_char +:+ "str"
                          +:+ quote_char +:+ ") to list"))
    | _ => Raise (TypeError "unhashable type: 'slice'")
    end
  else Ok excerpt.

(** The article of lines 1052-1058. *)
Definition article_summary (article : list (string * value)) : result value :=
  excerpt ← news_excerpt (dict_get article "article_excerpt" (VStr ""));
  Ok (VDict [("headline", dict_get article "article_headline" (VStr ""));
             ("date", dict_get article "article_date" (VStr ""));
             ("author", dict_get article "article_author" (VStr ""));
             ("excerpt", excerpt);
             ("teams", dict_get article "teams" (VList []))]).

(** [_summarize_news_data] (lines 1038-1072) *)
Definition _summarize_news_data (news_data : value) : result value :=
  try_except
    (match news_data with
     | VList l =>
         let top_articles := slice_to 5 l in
         summarized ← append_each_dict article_summary top_articles;
         Ok (VList summarized)
     | VDict d =>
         articles_count ←
           (if dict_mem "articles" d then py_len_of (dict_get d "articles" (VList []))
            else Ok (Z.of_nat (length d)));
         Ok (VDict [("summary", VStr "News data available"); ("count", VInt articles_count)])
     | _ => Ok (VDict [("summary", VStr "News data available but in unexpected format")])
     end)
    (fun e => Ok (VDict [("summary", VStr "News data available but could not be summarized");
                         ("error", VStr (exn_str e))])).

(** The sampled player of lines 1162-1168. *)
Definition sample_player (player : list (string * value)) : value :=
  VDict [("name", dict_get player "display_name" (dict_get player "name" (VStr "")));
         ("team", dict_get player "team" (VStr ""));
         ("position", dict_get player "position" (VStr ""));
         ("jersey_number", dict_get player "jersey" (VStr ""));
         ("status", dict_get player "status" (VStr ""))].

Definition players_frame (body : result value) : result value :=
  try_except body
    (fun e => Ok (VDict [("summary", VStr "Players data available but could not be summarized");
                         ("error", VStr (exn_str e))])).

(** [_summarize_players_data] (lines 1147-1180).  Only a mapping has a
    value under the key [players] to recurse into: on a string holding
    the word the subscript [players_data["players"]] raises, on the
    other values the membership test does, so that the last case never
    gets to the recursive call. *)
Fixpoint _summarize_players_data (players_data : value) : result value :=
  players_frame
    (match players_data with
     | VList l =>
         Ok (VDict [("players_count", VInt (Z.of_nat (length l)));
                    ("sample_players",
                     VList (List.map sample_player (records_of (slice_to 20 l))))])
     | VDict d =>
         match dict_lookup_map _summarize_players_data "players" d with
         | Some summary => summary
         | None => Ok (VDict [("summary", VStr "Players data available but in unexpected format")])
         end
     | _ =>
         present ← py_in "players" players_data;
         if (present : bool) then py_getitem players_data "players"
         else Ok (VDict [("summary", VStr "Players data available but in unexpected format")])
     end).

(** *** Rest-of-season projections *)

Definition ros_stats : list string :=
  ["passing_yards"; "passing_touchdowns"; "rushing_yards"; "rushing_touchdowns";
   "receiving_yards"; "receiving_touchdowns"].

Definition ros_chunked_stats : list string :=
  ["passing_yards"; "passing_touchdowns"; "rushing_yards"; "rushing_touchdowns";
   "receiving_yards"; "receiving_touchdowns"; "receptions"; "fumbles"; "interceptions"].

(** The player summary of lines 1118-1131 ([stats] is [ros_stats]) and of
    lines 1691-1711 ([stats] is [ros_chunked_stats]). *)
Definition ros_player_summary (stats : list string) (position : string)
    (player : list (string * value)) : list (string * value) :=
  let player_summary :=
    [("name", dict_get player "name" (VStr ""));
     ("team", dict_get player "team" (VStr ""));
     ("position", dict_get player "position" (VStr position))] in
  let player_summary :=
    copy_if_present "proj_pts" "projected_points" (VInt 0) player player_summary in
  fold_left (fun player_summary stat => copy_if_present stat stat (VInt 0) player player_summary)
            stats player_summary.

(** [_process_ros_fallback] (lines 1723-1735) *)
Definition _process_ros_fallback (players_list : list value) (position : string) : list value :=
  List.map (fun player =>
              VDict [("name", dict_get player "name" (VStr ""));
                     ("team", dict_get player "team" (VStr ""));
                     ("position", dict_get player "position" (VStr position));
                     ("projected_points", dict_get player "proj_pts" (VInt 0))])
           (records_of players_list).

(** The player of a chunk (lines 1687-1713): the check of line 1698
    lower-cases the name and can raise. *)
Definition ros_chunk_player (position : string) (all_summarized : list value) (player : value)
  : result (list value) :=
  match player with
  | VDict p =>
      _ ← py_lower (dict_get p "name" (VStr ""));
      Ok (all_summarized ++ [VDict (ros_player_summary ros_chunked_stats position p)])
  | _ => Ok all_summarized
  end.

(** [_process_large_player_list_chunked_ros] (lines 1659-1721) *)
Definition _process_large_player_list_chunked_ros (players_list : list value)
    (position : string) : result (list value) :=
  try_except
    (let total_players := length players_list in
     let chunk_size := 100%nat in
     for_each (fun all_summarized i =>
                 let chunk_end := Nat.min (i + chunk_size) total_players in
                 let chunk := slice i chunk_end players_list in
                 for_each (ros_chunk_player position) chunk all_summarized)
              (py_range 0 total_players chunk_size) [])
    (fun _ => Ok (_process_ros_fallback (slice_to 50 players_list) position)).

(** The body of the loop over [projections.items()] (lines 1103-1135). *)
Definition ros_position (summarized : list (string * value)) (entry : string * value)
  : result (list (string * value)) :=
  let '(position, players) := entry in
  match players with
  | VList ((_ :: _) as l) =>
      let total_players := length l in
      position_summary ←
        (if (50 <? total_players)%nat then _process_large_player_list_chunked_ros l position
         else Ok (List.map (fun p => VDict (ros_player_summary ros_stats position p))
                    (records_of l)));
      Ok (dict_set position (VList position_summary) summarized)
  | _ => Ok summarized
  end.

(** [{k: v for k, v in ros_data.items()
      if k not in ["projections", "season"] and not isinstance(v, dict)}] *)
Definition ros_metadata (ros_data : list (string * value)) : list (string * value) :=
  fold_left (fun metadata '(k, v) =>
               if negb (str_in k ["projections"; "season"]) && negb (is_dict v)
               then dict_set k v metadata else metadata) ros_data [].

Definition ros_filler : value :=
  VDict [("summary", VStr "According to the Fantasy Nerds data, Rest of Season (ROS) projections for NFL players take into account upcoming matchups, recent performance trends, team situations, and player health. These projections help fantasy managers make decisions about which players to start, bench, trade, or acquire for the remainder of the season.")].

(** [_summarize_ros_projections] (lines 1074-1145) *)
Definition _summarize_ros_projections (ros_data : value) : result value :=
  if negb (truthy ros_data) then Ok ros_filler
  else
    try_except
      (match ros_data with
       | VList _ => _summarize_fantasy_rankings ros_data
       | _ =>
           season ← py_get ros_data "season" (VStr "");
           items ← py_items ros_data;
           let summarized := [("season", season); ("metadata", VDict (ros_metadata items))] in
           match dict_lookup "projections" items with
           | Some (VDict projections) => VDict <$> for_each ros_position projections summarized
           | _ => _summarize_fantasy_rankings ros_data
           end
       end)
      (fun e => Ok (VDict [("summary",
                            VStr "ROS projections data available but could not be summarized");
                           ("error", VStr (exn_str e))])).

(** *** Team mentions *)

(** The elements of the set literal of lines 2200-2208. *)
Definition NFL_TEAMS : list string :=
  ["bills"; "dolphins"; "patriots"; "jets"; "ravens"; "bengals"; "browns"; "steelers";
   "texans"; "colts"; "jaguars"; "titans"; "broncos"; "chiefs"; "raiders"; "chargers";
   "cowboys"; "giants"; "eagles"; "commanders"; "bears"; "lions"; "packers"; "vikings";
   "falcons"; "panthers"; "saints"; "buccaneers"; "cardinals"; "rams"; "49ers"; "seahawks";
   "buf"; "mia"; "ne"; "nyj"; "bal"; "cin"; "cle"; "pit"; "hou"; "ind"; "jax"; "ten";
   "den"; "kc"; "lv"; "lac"; "dal"; "nyg"; "phi"; "was"; "chi"; "det"; "gb"; "min";
   "atl"; "car"; "no"; "tb"; "ari"; "lar"; "sf"; "sea"].

(** [_extract_team_names_from_query] (lines 2194-2217).  [nfl_teams] is
    the set in the order in which the interpreter iterates it, which the
    language leaves open. *)
Definition _extract_team_names_from_query (nfl_teams : list string) (query : string)
  : list string :=
  let query_lower := str_lower query in
  fold_left (fun mentioned_teams team =>
               if str_in team (str_split query_lower) then mentioned_teams ++ [team]
               else mentioned_teams) nfl_teams [].

End LLMService.

(** ** Notions used by the further statements *)

(** What [json.dumps] may write: the printable ASCII characters and the
    line feed. *)
Definition json_char (c : ascii) : bool :=
  let n := N_of_ascii c in
  ((n =? 10) || (32 <=? n) && (n <=? 126))%N.

(** The mapping elements of a list with their positions, counted from
    [start]. *)
Fixpoint ranked_records (start : nat) (l : list value) : list (nat * list (string * value)) :=
  match l with
  | [] => []
  | VDict p :: l' => (start, p) :: ranked_records (S start) l'
  | _ :: l' => ranked_records (S start) l'
  end.

(** [mentionedb] for a prioritizer that reads the name with [name_of]. *)
Definition mentionedb_by (name_of : list (string * value) -> value) (mentions : list string)
    (p : list (string * value)) : bool :=
  match name_of p with
  | VStr name =>
      existsb (fun m => any_part_in (str_lower name) (str_split (str_lower m))) mentions
  | _ => false
  end.

Definition names_are_text_by (name_of : list (string * value) -> value) (players : list value)
  : Prop :=
  forall p, In (VDict p) players -> exists name, name_of p = VStr name.

(** The list a position of the rest-of-season data is replaced by. *)
Definition ros_prioritized (mentions : list string) (l : list value) : list value :=
  let records := records_of l in
  combine_players 15
    (List.map VDict (List.filter (mentionedb_by plain_player_name mentions) records))
    (List.map VDict
       (List.filter (fun p => negb (mentionedb_by plain_player_name mentions p)) records)).

(** [summary[k]] of a summarized record. *)
Definition summary_field (k : string) (summary : value) : option value :=
  match summary with
  | VDict s => dict_lookup k s
  | _ => None
  end.

(** The summary of a player of a draft-projections position: the one
    of the kickers, of a position of more than 30 players, of a smaller
    position. *)
Definition draft_summary_of (position : string) (total_players : nat)
  : nat -> list (string * value) -> list (string * value) :=
  if String.eqb position "K" then kicker_summary position
  else if (30 <? total_players)%nat then chunked_position_summary position
  else small_position_summary position.

(** The fields a rest-of-season position of [total_players] players
    reports. *)
Definition ros_stats_of (total_players : nat) : list string :=
  if (50 <? total_players)%nat then LLMService.ros_chunked_stats else LLMService.ros_stats.

(** What the loop of [_prioritize_mentioned_players_in_ros] makes of an
    entry. *)
Definition ros_entry (mentions : list string) (position : string) (players : value) : value :=
  match players with
  | VList l =>
      if str_in position ["season"; "metadata"] then players
      else VList (ros_prioritized mentions l)
  | _ => players
  end.

(** An injured team of a summary: three fields, at most ten injuries. *)
Definition capped_injury_team (team : value) : Prop :=
  exists name alias injuries,
    team = VDict [("name", name); ("alias", alias); ("injuries", VList injuries)]
    /\ (length injuries <= 10)%nat.

(** An article of a summary whose excerpt, when it is a text, has at
    most 203 characters. *)
Definition short_excerpt (article : value) : Prop :=
  exists headline date author excerpt teams,
    article = VDict [("headline", headline); ("date", date); ("author", author);
                     ("excerpt", excerpt); ("teams", teams)]
    /\ (forall s, excerpt = VStr s -> py_len s <= 203).

(** A text written with the characters of [json_char] only. *)
Fixpoint json_text (s : string) : bool :=
  match s with
  | EmptyString => true
  | String c s' => json_char c && json_text s'
  end.

(** Induction on values that reaches the elements of lists and the
    values of mappings. *)
Fixpoint value_deep_ind (P : value -> Prop)
    (HNone : P VNone) (HBool : forall b, P (VBool b)) (HInt : forall n, P (VInt n))
    (HStr : forall s, P (VStr s))
    (HList : forall l, List.Forall P l -> P (VList l))
    (HDict : forall d, List.Forall (fun kv => P (snd kv)) d -> P (VDict d))
    (v : value) {struct v} : P v :=
  match v with
  | VNone => HNone
  | VBool b => HBool b
  | VInt n => HInt n
  | VStr s => HStr s
  | VList l =>
      HList l
        ((fix elements (l : list value) : List.Forall P l :=
            match l with
            | [] => @List.Forall_nil _ P
            | x :: l' =>
                @List.Forall_cons _ P x l'
                  (value_deep_ind P HNone HBool HInt HStr HList HDict x) (elements l')
            end) l)
  | VDict d =>
      HDict d
        ((fix entries (d : list (string * value)) : List.Forall (fun kv => P (snd kv)) d :=
            match d with
            | [] => @List.Forall_nil _ (fun kv => P (snd kv))
            | kv :: d' =>
                @List.Forall_cons _ (fun kv => P (snd kv)) kv d'
                  (value_deep_ind P HNone HBool HInt HStr HList HDict (snd kv)) (entries d')
            end) d)
  end.

(** The endpoint a key of the bundle is listed as (line 67). *)
Definition endpoint_of (key : string) : string :=
  if String.eqb key "league" then "teams" else str_replace_char "_" "-" key.

(** The keys of the bundle that name an endpoint (line 65). *)
Definition endpoint_keys (context_data : list (string * value)) : list string :=
  List.filter (fun key => negb (str_in key ["query_type"; "metadata"; "original_query"]))
    (List.map fst context_data).

(** What the loop of [_prioritize_mentioned_teams_in_standings] decides
    for a team whose name and alias are texts. *)
Definition team_is_mentioned (mentioned_teams : list string) (team : value) : bool :=
  match team with
  | VDict d =>
      match dict_get d "name" (VStr ""), dict_get d "alias" (VStr "") with
      | VStr name, VStr alias =>
          team_mentioned (str_lower name) (str_lower alias) mentioned_teams
      | _, _ => false
      end
  | _ => false
  end.

(** Every team is a mapping whose name and alias, when present, are
    texts. *)
Definition teams_are_text (teams : list value) : Prop :=
  forall team, In team teams ->
    exists d name alias,
      team = VDict d /\ dict_get d "name" (VStr "") = VStr name
      /\ dict_get d "alias" (VStr "") = VStr alias.

(** The groups of statistics [_extract_key_stats] looks for. *)
Definition STAT_GROUPS : list string := ["team"; "passing"; "rushing"; "receiving"].

(** The group is absent or a mapping. *)
Definition group_is_usable (stats : list (string * value)) (group : string) : bool :=
  match dict_lookup group stats with
  | Some g => is_dict g
  | None => true
  end.

(** ** Strings *)

Lemma str_length_app (s1 s2 : string) :
  String.length (s1 +:+ s2) = (String.length s1 + String.length s2)%nat.
Proof.
  induction s1 as [|c s1 IH]; [reflexivity |].
  change (S (String.length (s1 +:+ s2)) = S (String.length s1 + String.length s2)).
  now rewrite IH.
Qed.

Lemma str_take_length (n : nat) (s : string) :
  String.length (str_take n s) = Nat.min n (String.length s).
Proof.
  revert s; induction n as [|n IH]; intros [|c s]; simpl; try reflexivity.
  now rewrite IH.
Qed.

Lemma str_take_prefix (n : nat) (s : string) : exists rest, s = str_take n s +:+ rest.
Proof.
  revert s; induction n as [|n IH]; intros s.
  - exists s. now destruct s.
  - destruct s as [|c s]; [now exists EmptyString |].
    destruct (IH s) as [rest Hrest]. exists rest.
    change (String c s = String c (str_take n s +:+ rest)). now rewrite <- Hrest.
Qed.

Lemma py_len_app (s1 s2 : string) : py_len (s1 +:+ s2) = py_len s1 + py_len s2.
Proof. unfold py_len. rewrite str_length_app. lia. Qed.

Lemma str_slice_to_len (n : Z) (s : string) :
  0 <= n -> n <= py_len s -> py_len (str_slice_to n s) = n.
Proof.
  unfold py_len, str_slice_to. intros Hn Hs. rewrite str_take_length. lia.
Qed.

Lemma truncation_marker_len : py_len truncation_marker = 59.
Proof. reflexivity. Qed.

(** ** The primitives on examples *)

Example json_dumps_nested :
  json_dumps (VDict [("a", VInt (-12)); ("b", VList [VStr "x"; VNone; VBool true; VList []])])
  = "{" +:+ newline +:+ "  " +:+ quote_char +:+ "a" +:+ quote_char +:+ ": -12," +:+ newline
    +:+ "  " +:+ quote_char +:+ "b" +:+ quote_char +:+ ": [" +:+ newline
    +:+ "    " +:+ quote_char +:+ "x" +:+ quote_char +:+ "," +:+ newline
    +:+ "    null," +:+ newline +:+ "    true," +:+ newline +:+ "    []" +:+ newline
    +:+ "  ]" +:+ newline +:+ "}".
Proof. reflexivity. Qed.

Example str_split_runs : str_split "  Patrick   Mahomes " = ["Patrick"; "Mahomes"].
Proof. reflexivity. Qed.

Example slice_to_negative : slice_to (-1) [1; 2; 3] = [1; 2].
Proof. reflexivity. Qed.

Example py_range_chunks : py_range 0 451 150 = [0; 150; 300; 450]%nat.
Proof. reflexivity. Qed.

Example lower_on_none :
  _prioritize_players_in_list [VDict [("name", VNone)]] [VStr "Mahomes"]
  = Raise (AttributeError "NoneType" "lower").
Proof. reflexivity. Qed.

(** ** The response cache *)

Lemma cache_read_store (llm_cache : gmap string (Q * string)) (f : string)
    (t now : Q) (v : string) :
  cache_read (cache_store llm_cache f t v) f now
  = if Qlt_le_dec (now - t) LLM_CACHE_TTL then Some v else None.
Proof. unfold cache_read, cache_store. now rewrite lookup_insert_eq. Qed.

Example cache_read_fresh :
  cache_read (cache_store ∅ "f" 100 "v") "f" (1399 # 2) = Some "v".
Proof. reflexivity. Qed.

Example cache_read_stale : cache_read (cache_store ∅ "f" 100 "v") "f" 700 = None.
Proof. reflexivity. Qed.

(** C3.  A response [v] stored for fingerprint [f] at time [t] is what a
    read of [f] at time [t'] returns when [t' - t] is less than the 600
    seconds of the TTL, and [generate_response] then answers [v] without
    building a request; when [t' - t] is at least 600 seconds the read
    is a miss. *)
Theorem cache_hit_within_ttl_miss_after `{Summarizers} `{Environment}
    (llm_cache : gmap string (Q * string)) (t t' : Q) (v query : string)
    (context_data : value) :
  let f := fingerprint query context_data in
  let stored := cache_store llm_cache f t v in
  ((t' - t < 600)%Q ->
     cache_read stored f t' = Some v
     /\ generate_response stored t' query context_data = Ok (v, stored))
  /\ ((600 <= t' - t)%Q -> cache_read stored f t' = None).
Proof.
  intros f stored. unfold stored. split; intros Hage.
  - assert (Hread : cache_read (cache_store llm_cache f t v) f t' = Some v).
    { rewrite cache_read_store. destruct (Qlt_le_dec (t' - t) LLM_CACHE_TTL) as [_|Hle].
      - reflexivity.
      - exfalso. apply (Qlt_irrefl (t' - t)). eapply Qlt_le_trans; [exact Hage | exact Hle]. }
    split; [exact Hread |]. unfold generate_response. fold f. now rewrite Hread.
  - rewrite cache_read_store. destruct (Qlt_le_dec (t' - t) LLM_CACHE_TTL) as [Hlt|_].
    + exfalso. apply (Qlt_irrefl (t' - t)). eapply Qlt_le_trans; [exact Hlt | exact Hage].
    + reflexivity.
Qed.

(** ** Budget enforcement *)

Lemma overflowing_summary_too_long :
  max_context_size < py_len (json_dumps overflowing_summary).
Proof. vm_compute. reflexivity. Qed.

Lemma overflowing_essential_data :
  essential_data_of overflowing_summary [] [] = Ok overflowing_essential.
Proof. vm_compute. reflexivity. Qed.

Lemma overflowing_essential_too_long :
  max_context_size < py_len (json_dumps overflowing_essential).
Proof. vm_compute. reflexivity. Qed.

Lemma overflowing_bundle_summary `{Summarizers} :
  _summarize_context_data overflowing_bundle [] [] = Ok overflowing_summary.
Proof. vm_compute. reflexivity. Qed.

Lemma bounded_context_str_cases (summarized_data : value) (mentioned_players : list value)
    (mentioned_teams : list string) (context_str : string) :
  bounded_context_str summarized_data mentioned_players mentioned_teams = Ok context_str ->
  (context_str = json_dumps summarized_data
   /\ py_len context_str <= max_context_size)
  \/ (exists essential_data,
        essential_data_of summarized_data mentioned_players mentioned_teams = Ok essential_data
        /\ max_context_size < py_len (json_dumps summarized_data)
        /\ ((context_str = json_dumps essential_data
             /\ py_len context_str <= max_context_size)
            \/ (context_str
                = str_slice_to max_context_size (json_dumps essential_data) +:+ truncation_marker
                /\ max_context_size < py_len (json_dumps essential_data)))).
Proof.
  unfold bounded_context_str.
  destruct (max_context_size <? py_len (json_dumps summarized_data)) eqn:Hfirst.
  - apply Z.ltb_lt in Hfirst.
    destruct (essential_data_of summarized_data mentioned_players mentioned_teams)
      as [essential_data|e] eqn:Hessential; simpl; [|discriminate].
    destruct (max_context_size <? py_len (json_dumps essential_data)) eqn:Hsecond;
      intros [= <-]; right; exists essential_data; repeat split; try assumption.
    + right. split; [reflexivity | now apply Z.ltb_lt].
    + left. split; [reflexivity | now apply Z.ltb_ge].
  - intros [= <-]. left. split; [reflexivity | now apply Z.ltb_ge].
Qed.

Lemma truncated_context_str (summarized_data essential_data : value)
    (mentioned_players : list value) (mentioned_teams : list string) :
  max_context_size < py_len (json_dumps summarized_data) ->
  essential_data_of summarized_data mentioned_players mentioned_teams = Ok essential_data ->
  max_context_size < py_len (json_dumps essential_data) ->
  exists kept rest,
    bounded_context_str summarized_data mentioned_players mentioned_teams
    = Ok (kept +:+ truncation_marker)
    /\ json_dumps essential_data = kept +:+ rest
    /\ py_len kept = 50000.
Proof.
  intros Hfirst Hessential Hsecond.
  destruct (str_take_prefix (Z.to_nat max_context_size) (json_dumps essential_data))
    as [rest Hrest].
  exists (str_slice_to max_context_size (json_dumps essential_data)), rest.
  repeat split.
  - unfold bounded_context_str. apply Z.ltb_lt in Hfirst, Hsecond.
    rewrite Hfirst, Hessential. simpl. now rewrite Hsecond.
  - exact Hrest.
  - apply str_slice_to_len; unfold max_context_size in *; lia.
Qed.

Lemma bounded_context_str_length (summarized_data : value) (mentioned_players : list value)
    (mentioned_teams : list string) (context_str : string) :
  bounded_context_str summarized_data mentioned_players mentioned_teams = Ok context_str ->
  py_len context_str <= max_context_size
  \/ exists kept, context_str = kept +:+ truncation_marker /\ py_len kept = max_context_size.
Proof.
  intros Hrun. apply bounded_context_str_cases in Hrun
    as [[_ Hlen] | (essential_data & _ & _ & [[_ Hlen] | [-> Hlong]])].
  - now left.
  - now left.
  - right. eexists. split; [reflexivity |].
    apply str_slice_to_len; unfold max_context_size in *; lia.
Qed.

(** The context message of a request: the last of the three system
    messages, within the budget or cut at the budget and marked. *)
Lemma messages_of_context `{Summarizers} `{Environment} (endpoints_str : string)
    (context_data : value) (mentioned_players : list value) (mentioned_teams : list string)
    (messages : list (string * string)) :
  truthy context_data = true ->
  messages_of endpoints_str context_data mentioned_players mentioned_teams = Ok messages ->
  exists summarized_data context_str,
    _summarize_context_data context_data mentioned_players mentioned_teams = Ok summarized_data
    /\ bounded_context_str summarized_data mentioned_players mentioned_teams = Ok context_str
    /\ messages = [("system", system_message endpoints_str); ("system", data_instructions);
                   ("system", context_str)]
    /\ py_len context_str <= max_context_size + py_len truncation_marker.
Proof.
  intros Htruthy. unfold messages_of. rewrite Htruthy.
  destruct (_summarize_context_data context_data mentioned_players mentioned_teams)
    as [summarized_data|e]; [|discriminate].
  cbn [mbind result_bind].
  destruct (bounded_context_str summarized_data mentioned_players mentioned_teams)
    as [context_str|e] eqn:Hrun; [|discriminate].
  cbn [mbind result_bind]. intros [= <-]. exists summarized_data, context_str.
  split; [reflexivity |]. split; [exact Hrun |]. split; [reflexivity |].
  apply bounded_context_str_length in Hrun as [Hlen | (kept & -> & Hkept)].
  - rewrite truncation_marker_len. lia.
  - rewrite py_len_app, Hkept. lia.
Qed.

(** C1, amended.  Whenever budget enforcement produces the context
    string, it has at most 50,000 characters plus the 59 of the
    truncation marker.  It is the serialization of the summary when
    that has at most 50,000 characters; else the serialization of the
    reduced summary when that has at most 50,000 characters; else the
    first 50,000 characters of the serialization of the reduced summary
    followed by the marker, 50,059 characters. *)
Theorem context_str_within_budget_plus_marker (summarized_data : value)
    (mentioned_players : list value) (mentioned_teams : list string)
    (context_str : string) :
  bounded_context_str summarized_data mentioned_players mentioned_teams = Ok context_str ->
  py_len context_str <= max_context_size + py_len truncation_marker
  /\ py_len truncation_marker = 59
  /\ ((py_len (json_dumps summarized_data) <= max_context_size
       /\ context_str = json_dumps summarized_data
       /\ py_len context_str <= max_context_size)
      \/ (max_context_size < py_len (json_dumps summarized_data)
          /\ exists essential_data,
               essential_data_of summarized_data mentioned_players mentioned_teams
               = Ok essential_data
               /\ ((py_len (json_dumps essential_data) <= max_context_size
                    /\ context_str = json_dumps essential_data
                    /\ py_len context_str <= max_context_size)
                   \/ (max_context_size < py_len (json_dumps essential_data)
                       /\ exists kept rest,
                            json_dumps essential_data = kept +:+ rest
                            /\ py_len kept = max_context_size
                            /\ context_str = kept +:+ truncation_marker
                            /\ py_len context_str = 50059)))).
Proof.
  intros Hrun. pose proof (bounded_context_str_length _ _ _ _ Hrun) as Hlength.
  split; [|split; [reflexivity |]].
  - destruct Hlength as [Hlen | (kept & -> & Hkept)].
    + rewrite truncation_marker_len. lia.
    + rewrite py_len_app, Hkept. lia.
  - apply bounded_context_str_cases in Hrun
      as [[-> Hlen] | (essential_data & Hessential & Hfirst & [[-> Hlen] | [-> Hsecond]])].
    + left. repeat split; assumption.
    + right. split; [exact Hfirst |]. exists essential_data. split; [exact Hessential |].
      left. repeat split; assumption.
    + right. split; [exact Hfirst |]. exists essential_data. split; [exact Hessential |].
      right. split; [exact Hsecond |].
      destruct (str_take_prefix (Z.to_nat max_context_size) (json_dumps essential_data))
        as [rest Hrest].
      assert (Hkept : py_len (str_slice_to max_context_size (json_dumps essential_data))
                      = max_context_size)
        by (apply str_slice_to_len; unfold max_context_size in *; lia).
      exists (str_slice_to max_context_size (json_dumps essential_data)), rest.
      split; [exact Hrest |]. split; [exact Hkept |]. split; [reflexivity |].
      rewrite py_len_app, Hkept, truncation_marker_len. reflexivity.
Qed.

Lemma context_str_within_budget_plus_marker_witness :
  exists context_str,
    bounded_context_str overflowing_summary [] [] = Ok context_str
    /\ py_len context_str <= max_context_size + py_len truncation_marker
    /\ py_len truncation_marker = 59
    /\ ((py_len (json_dumps overflowing_summary) <= max_context_size
         /\ context_str = json_dumps overflowing_summary
         /\ py_len context_str <= max_context_size)
        \/ (max_context_size < py_len (json_dumps overflowing_summary)
            /\ exists essential_data,
                 essential_data_of overflowing_summary [] [] = Ok essential_data
                 /\ ((py_len (json_dumps essential_data) <= max_context_size
                      /\ context_str = json_dumps essential_data
                      /\ py_len context_str <= max_context_size)
                     \/ (max_context_size < py_len (json_dumps essential_data)
                         /\ exists kept rest,
                              json_dumps essential_data = kept +:+ rest
                              /\ py_len kept = max_context_size
                              /\ context_str = kept +:+ truncation_marker
                              /\ py_len context_str = 50059)))).
Proof.
  destruct (truncated_context_str overflowing_summary overflowing_essential [] []
              overflowing_summary_too_long overflowing_essential_data
              overflowing_essential_too_long) as (kept & rest & Hrun & _ & _).
  exists (kept +:+ truncation_marker). split; [exact Hrun |].
  exact (context_str_within_budget_plus_marker overflowing_summary [] []
           (kept +:+ truncation_marker) Hrun).
Defined.

(** C1, counterexample.  The bundle of 500 ranked players is compacted,
    whatever the other summarizers are, to a summary whose context
    string after budget enforcement has 50,059 characters. *)
Lemma context_str_exceeds_budget :
  (forall S : Summarizers,
      _summarize_context_data overflowing_bundle [] [] = Ok overflowing_summary)
  /\ exists context_str,
       bounded_context_str overflowing_summary [] [] = Ok context_str
       /\ py_len context_str = 50059
       /\ max_context_size < py_len context_str.
Proof.
  split; [intros S; apply overflowing_bundle_summary |].
  destruct (truncated_context_str overflowing_summary overflowing_essential [] []
              overflowing_summary_too_long overflowing_essential_data
              overflowing_essential_too_long) as (kept & rest & Hrun & _ & Hkept).
  exists (kept +:+ truncation_marker). split; [exact Hrun |].
  rewrite py_len_app, Hkept, truncation_marker_len. split; reflexivity.
Qed.

(** C10.  When the reduced summary still serializes to more than 50,000
    characters, the context string is the first 50,000 characters of that
    serialization followed by the truncation marker: it ends with the
    marker and is 59 characters, the marker's length, over 50,000. *)
Theorem hard_truncation_appends_marker (summarized_data essential_data : value)
    (mentioned_players : list value) (mentioned_teams : list string) :
  max_context_size < py_len (json_dumps summarized_data) ->
  essential_data_of summarized_data mentioned_players mentioned_teams = Ok essential_data ->
  max_context_size < py_len (json_dumps essential_data) ->
  exists kept rest,
    bounded_context_str summarized_data mentioned_players mentioned_teams
    = Ok (kept +:+ truncation_marker)
    /\ json_dumps essential_data = kept +:+ rest
    /\ py_len kept = 50000
    /\ truncation_marker = "...[additional data available - query for specific players]"
    /\ py_len (kept +:+ truncation_marker) = 50000 + py_len truncation_marker.
Proof.
  intros Hfirst Hessential Hsecond.
  destruct (truncated_context_str summarized_data essential_data mentioned_players
              mentioned_teams Hfirst Hessential Hsecond) as (kept & rest & Hrun & Hrest & Hkept).
  exists kept, rest. repeat split; try assumption.
  rewrite py_len_app, Hkept. reflexivity.
Qed.

Lemma hard_truncation_appends_marker_witness :
  exists kept rest,
    bounded_context_str overflowing_summary [] [] = Ok (kept +:+ truncation_marker)
    /\ json_dumps overflowing_essential = kept +:+ rest
    /\ py_len kept = 50000
    /\ truncation_marker = "...[additional data available - query for specific players]"
    /\ py_len (kept +:+ truncation_marker) = 50000 + py_len truncation_marker.
Proof.
  apply (hard_truncation_appends_marker overflowing_summary overflowing_essential [] []).
  - vm_compute. reflexivity.
  - vm_compute. reflexivity.
  - vm_compute. reflexivity.
Defined.

(** ** Mention matching *)

Lemma prefix_spec (t s : string) :
  String.prefix t s = true <-> exists b, s = t +:+ b.
Proof.
  revert s; induction t as [|c t IH]; intros s.
  - split; [intros _; now exists s | now destruct s].
  - destruct s as [|c' s].
    + split; [discriminate | intros [b Hb]; discriminate].
    + change (String.prefix (String c t) (String c' s))
        with (if ascii_dec c c' then String.prefix t s else false).
      destruct (ascii_dec c c') as [->|Hne].
      * rewrite IH. split; intros [b Hb]; exists b.
        -- change (String c' s = String c' (t +:+ b)). now rewrite <- Hb.
        -- change (String c' s = String c' (t +:+ b)) in Hb. now injection Hb.
      * split; [discriminate |]. intros [b Hb].
        change (String c' s = String c (t +:+ b)) in Hb. injection Hb as -> _. now destruct Hne.
Qed.

Lemma str_contains_spec (t s : string) : str_contains t s = true <-> substring t s.
Proof.
  unfold substring. induction s as [|c s IH].
  - change (str_contains t EmptyString) with (String.prefix t EmptyString || false).
    rewrite orb_false_r, prefix_spec. split.
    + intros [b Hb]. now exists EmptyString, b.
    + intros (a & b & Hab). destruct a; [now exists b | discriminate].
  - change (str_contains t (String c s)) with (String.prefix t (String c s) || str_contains t s).
    rewrite orb_true_iff, prefix_spec, IH. split.
    + intros [[b Hb] | (a & b & Hab)].
      * now exists EmptyString, b.
      * exists (String c a), b. change (String c s = String c (a +:+ t +:+ b)). now rewrite <- Hab.
    + intros (a & b & Hab). destruct a as [|c' a].
      * left. now exists b.
      * right. exists a, b. change (String c s = String c' (a +:+ t +:+ b)) in Hab.
        now injection Hab.
Qed.







Lemma is_mentioned_strs (player_name : string) (mentions : list string) :
  is_mentioned player_name (List.map VStr mentions)
  = Ok (existsb (fun m => any_part_in player_name (str_split (str_lower m))) mentions).
Proof.
  induction mentions as [|m mentions IH]; [reflexivity |].
  simpl. destruct (any_part_in player_name (str_split (str_lower m))); [reflexivity | exact IH].
Qed.

Lemma names_are_text_tail (player : value) (players : list value) :
  names_are_text (player :: players) -> names_are_text players.
Proof. intros Htext p Hp. apply Htext. now right. Qed.

Lemma first_pass_list (mentions : list string) (players prioritized remaining : list value) :
  names_are_text players ->
  first_pass list_player_name true (List.map VStr mentions) players prioritized remaining
  = Ok (prioritized ++ List.filter (mentionedb mentions) players,
        remaining ++ List.filter (fun r => negb (mentionedb mentions r)) players).
Proof.
  revert prioritized remaining.
  induction players as [|player players IH]; intros prioritized remaining Htext.
  - simpl. now rewrite !app_nil_r.
  - pose proof (names_are_text_tail _ _ Htext) as Htail.
    destruct player as [| | | |l|p];
      try (simpl; rewrite IH by assumption; now rewrite <- app_assoc).
    destruct (Htext p (or_introl eq_refl)) as [name Hname].
    cbn [first_pass]. rewrite Hname. cbn [py_lower mbind result_bind].
    rewrite is_mentioned_strs. cbn [mbind result_bind].
    cbn [List.filter mentionedb]. rewrite Hname.
    destruct (existsb _ mentions); cbn [negb];
      rewrite IH by assumption; now rewrite <- app_assoc.
Qed.


Lemma slice_to_length {A} (n : Z) (l : list A) :
  0 <= n -> (length (slice_to n l) <= Z.to_nat n)%nat.
Proof.
  intros Hn. unfold slice_to. apply Z.leb_le in Hn. rewrite Hn.
  rewrite length_take. lia.
Qed.

Lemma prioritize_players_in_list_run (mentions : list string) (players : list value) :
  mentions <> [] ->
  names_are_text players ->
  _prioritize_players_in_list players (List.map VStr mentions)
  = Ok (combine_players 30 (List.filter (mentionedb mentions) players)
          (List.filter (fun r => negb (mentionedb mentions r)) players)).
Proof.
  intros Hmentions Htext. unfold _prioritize_players_in_list.
  destruct players as [|player players]; [reflexivity |].
  destruct mentions as [|m mentions]; [contradiction |].
  cbn [is_nil orb List.map].
  change (VStr m :: List.map VStr mentions) with (List.map VStr (m :: mentions)).
  rewrite first_pass_list by assumption. reflexivity.
Qed.




Lemma combine_players_length (max_players : Z) (prioritized remaining : list value) :
  (Z.of_nat (length prioritized) <= max_players) ->
  Z.of_nat (length (combine_players max_players prioritized remaining)) <= max_players.
Proof.
  intros Hfew. unfold combine_players. rewrite length_app.
  pose proof (slice_to_length (max_players - Z.of_nat (length prioritized)) remaining).
  lia.
Qed.




(** With more than 30 mentioned records the bound of the slice at line
    2125 is negative and counts from the end of [remaining_players]. *)
Example negative_slice_keeps_others :
  length <$> _prioritize_players_in_list (repeat mahomes 31 ++ repeat brady 5) [VStr "Mahomes"]
  = Ok 35%nat.
Proof. reflexivity. Qed.

(** ** Flat player lists *)

Lemma dict_lookup_set (k k' : string) (v : value) (d : list (string * value)) :
  dict_lookup k (dict_set k' v d) = if String.eqb k k' then Some v else dict_lookup k d.
Proof.
  induction d as [|[k0 v0] d IH]; simpl.
  - destruct (String.eqb k k'); reflexivity.
  - destruct (String.eqb k' k0) eqn:Hk0; simpl.
    + apply String.eqb_eq in Hk0 as <-. destruct (String.eqb k k'); reflexivity.
    + destruct (String.eqb k k0) eqn:Hkk0.
      * apply String.eqb_eq in Hkk0 as ->. now rewrite String.eqb_sym, Hk0.
      * exact IH.
Qed.

Lemma dict_lookup_copy_if_present (k source target : string) (default : value)
    (player player_summary : list (string * value)) :
  String.eqb k target = false ->
  dict_lookup k (copy_if_present source target default player player_summary)
  = dict_lookup k player_summary.
Proof.
  intros Hne. unfold copy_if_present. destruct (dict_mem source player); [|reflexivity].
  now rewrite dict_lookup_set, Hne.
Qed.

Lemma flat_player_summary_name (player : list (string * value)) :
  summary_name (VDict (flat_player_summary player)) = Some (identity_of player).
Proof.
  unfold summary_name, flat_player_summary.
  rewrite !dict_lookup_copy_if_present by reflexivity.
  destruct (dict_mem "standard_points" player); [rewrite dict_lookup_set|]; reflexivity.
Qed.

Lemma append_flat_summaries_spec (summarized players : list value) :
  append_flat_summaries summarized players
  = summarized ++ List.map (fun p => VDict (flat_player_summary p)) (records_of players).
Proof.
  unfold append_flat_summaries. revert summarized.
  induction players as [|player players IH]; intros summarized; simpl.
  - now rewrite app_nil_r.
  - destruct player; rewrite IH; try reflexivity. simpl. now rewrite <- app_assoc.
Qed.

Lemma records_of_app (l1 l2 : list value) :
  records_of (l1 ++ l2) = records_of l1 ++ records_of l2.
Proof.
  induction l1 as [|x l1 IH]; [reflexivity |].
  destruct x; simpl; rewrite IH; reflexivity.
Qed.

Lemma append_flat_summaries_app (summarized l1 l2 : list value) :
  append_flat_summaries (append_flat_summaries summarized l1) l2
  = append_flat_summaries summarized (l1 ++ l2).
Proof. unfold append_flat_summaries. now rewrite fold_left_app. Qed.

Lemma chunk_then_rest {A} (start chunk_size : nat) (l : list A) :
  slice start (Nat.min (start + chunk_size) (length l)) l ++ drop (start + chunk_size) l
  = drop start l.
Proof.
  unfold slice. rewrite <- (drop_drop l chunk_size start).
  destruct (Nat.le_gt_cases (start + chunk_size) (length l)) as [Hfull|Hlast].
  - replace (Nat.min (start + chunk_size) (length l) - start)%nat with chunk_size by lia.
    apply take_drop.
  - rewrite (drop_ge (drop start l) chunk_size) by (rewrite length_drop; lia).
    rewrite app_nil_r. apply take_ge. rewrite length_drop. lia.
Qed.

Lemma chunks_cover_list (chunk_size : nat) (players_list : list value) :
  forall (fuel start : nat) (all_summarized : list value),
    (0 < chunk_size)%nat ->
    (length players_list - start <= fuel)%nat ->
    fold_left (fun all_summarized i =>
                 append_flat_summaries all_summarized
                   (slice i (Nat.min (i + chunk_size) (length players_list)) players_list))
              (range_from fuel start (length players_list) chunk_size) all_summarized
    = append_flat_summaries all_summarized (drop start players_list).
Proof.
  induction fuel as [|fuel IH]; intros start all_summarized Hstep Hfuel.
  - rewrite drop_ge by lia. reflexivity.
  - simpl. destruct (start <? length players_list)%nat eqn:Hstart.
    + simpl. rewrite IH by lia.
      rewrite append_flat_summaries_app. now rewrite chunk_then_rest.
    + apply Nat.ltb_ge in Hstart. rewrite drop_ge by lia. reflexivity.
Qed.

Lemma chunked_loop_spec (players_list : list value) :
  chunked_loop players_list
  = List.map (fun p => VDict (flat_player_summary p)) (records_of players_list).
Proof.
  unfold chunked_loop, py_range.
  rewrite (chunks_cover_list 150 players_list (length players_list) 0 []) by lia.
  now rewrite append_flat_summaries_spec.
Qed.

(** C6.  For a flat player list of more than 200 elements, the chunked
    processing with chunk size 150, which is what
    [_summarize_fantasy_rankings] returns for it, yields one summary per
    mapping element, in the original order, and the names of the
    summaries are the names of the mapping elements. *)
Theorem chunked_processing_covers_all_records (players_list : list value) :
  (200 < length players_list)%nat ->
  exists out,
    _process_large_player_list_chunked players_list = Ok (VList out)
    /\ _summarize_fantasy_rankings (VList players_list) = Ok (VList out)
    /\ out = List.map (fun p => VDict (flat_player_summary p)) (records_of players_list)
    /\ List.map summary_name out
       = List.map (fun p => Some (identity_of p)) (records_of players_list)
    /\ (forall name, In name (List.map summary_name out)
                     <-> In name (List.map (fun p => Some (identity_of p))
                                    (records_of players_list))).
Proof.
  intros Hlarge.
  exists (List.map (fun p => VDict (flat_player_summary p)) (records_of players_list)).
  assert (Hnames :
            List.map summary_name
              (List.map (fun p => VDict (flat_player_summary p)) (records_of players_list))
            = List.map (fun p => Some (identity_of p)) (records_of players_list)).
  { rewrite List.map_map. apply List.map_ext. intros p. apply flat_player_summary_name. }
  assert (Hchunked :
            _process_large_player_list_chunked players_list
            = Ok (VList (List.map (fun p => VDict (flat_player_summary p))
                           (records_of players_list)))).
  { unfold _process_large_player_list_chunked. now rewrite chunked_loop_spec. }
  repeat split; try assumption.
  - change (_summarize_fantasy_rankings (VList players_list))
      with (summarize_rankings_list players_list).
    assert (Htruthy : truthy (VList players_list) = true)
      by (destruct players_list; [simpl in Hlarge; lia | reflexivity]).
    unfold summarize_rankings_list, rankings_frame. rewrite Htruthy.
    apply Nat.ltb_lt in Hlarge. rewrite Hlarge, Hchunked. reflexivity.
  - now rewrite Hnames.
  - now rewrite Hnames.
Qed.

Lemma chunked_processing_covers_all_records_witness :
  exists out,
    _process_large_player_list_chunked (VInt 0 :: repeat mahomes 201) = Ok (VList out)
    /\ _summarize_fantasy_rankings (VList (VInt 0 :: repeat mahomes 201)) = Ok (VList out)
    /\ out = List.map (fun p => VDict (flat_player_summary p))
               (records_of (VInt 0 :: repeat mahomes 201))
    /\ List.map summary_name out
       = List.map (fun p => Some (identity_of p)) (records_of (VInt 0 :: repeat mahomes 201))
    /\ (forall name, In name (List.map summary_name out)
                     <-> In name (List.map (fun p => Some (identity_of p))
                                    (records_of (VInt 0 :: repeat mahomes 201)))).
Proof.
  apply (chunked_processing_covers_all_records (VInt 0 :: repeat mahomes 201)).
  rewrite length_cons, repeat_length. lia.
Defined.

Lemma summarize_rankings_list_upto_200 (rankings_data : list value) :
  (length rankings_data <= 200)%nat ->
  _summarize_fantasy_rankings (VList rankings_data) = summarize_rankings_upto_200 rankings_data.
Proof.
  intros Hsmall. change (_summarize_fantasy_rankings (VList rankings_data))
    with (summarize_rankings_list rankings_data).
  unfold summarize_rankings_list, summarize_rankings_upto_200.
  apply Nat.ltb_ge in Hsmall. now rewrite Hsmall.
Qed.

(** ** Position sections *)

Lemma position_keyed_nonempty (d : list (string * value)) :
  position_keyed d = true -> truthy (VDict d) = true.
Proof. destruct d; [discriminate | reflexivity]. Qed.

Lemma position_keyed_returns_none (d : list (string * value)) :
  position_keyed d = true -> _summarize_fantasy_rankings (VDict d) = Ok VNone.
Proof.
  intros Hkeyed. cbn [_summarize_fantasy_rankings]. unfold rankings_frame.
  rewrite (position_keyed_nonempty d Hkeyed), Hkeyed. reflexivity.
Qed.

Lemma position_sections_capped_from (rankings_data summarized : list (string * value)) :
  capped_sections summarized ->
  capped_sections
    (fold_left (fun summarized '(position, players) =>
                  match players with
                  | VList ((_ :: _) as l) =>
                      let max_players := if String.eqb position "QB" then 25 else 15 in
                      dict_set position
                        (VList (List.map position_player_summary (slice_to max_players l)))
                        summarized
                  | _ => summarized
                  end) rankings_data summarized).
Proof.
  revert summarized.
  induction rankings_data as [|[position players] rankings_data IH];
    intros summarized Hcapped; [exact Hcapped |].
  simpl. apply IH. destruct players as [| | | |[|player l]|]; try exact Hcapped.
  intros k section. rewrite dict_lookup_set.
  destruct (String.eqb k position) eqn:Hk; [|apply Hcapped].
  apply String.eqb_eq in Hk as ->. intros [= <-]. eexists. split; [reflexivity |].
  rewrite length_map. unfold position_cap.
  destruct (String.eqb position "QB").
  - apply (slice_to_length 25). lia.
  - apply (slice_to_length 15). lia.
Qed.

Lemma position_sections_capped (rankings_data : list (string * value)) :
  capped_sections (position_sections rankings_data).
Proof. apply position_sections_capped_from. intros position section. discriminate. Qed.

Example position_sections_two_quarterbacks :
  position_sections [("QB", VList [mahomes; brady]); ("season", VInt 2025)]
  = [("QB", VList [VDict [("name", VStr "Patrick Mahomes"); ("team", VStr "");
                          ("rank", VInt 0)];
                   VDict [("name", VStr "Tom Brady"); ("team", VStr "");
                          ("rank", VInt 0)]])]
  /\ _summarize_fantasy_rankings (VDict [("QB", VList [mahomes; brady]); ("season", VInt 2025)])
     = Ok VNone.
Proof. split; reflexivity. Qed.

(** C8.  On a position-keyed mapping the branch of lines 962-985 fills
    the sections of the positions, each within its cap of 25 ([QB]) or
    15 records, and the value the function returns holds, for every
    position, no more records than the cap of the position. *)
Theorem position_keyed_rankings_within_caps (rankings_data : list (string * value)) :
  position_keyed rankings_data = true ->
  capped_sections (position_sections rankings_data)
  /\ exists summary,
       _summarize_fantasy_rankings (VDict rankings_data) = Ok summary
       /\ forall position,
            (length (retained_records position summary) <= position_cap position)%nat.
Proof.
  intros Hkeyed. split; [apply position_sections_capped |].
  exists VNone. split; [now apply position_keyed_returns_none |].
  intros position. cbn [retained_records length]. lia.
Qed.

Lemma position_keyed_rankings_within_caps_witness :
  capped_sections
    (position_sections [("QB", VList (repeat mahomes 30)); ("RB", VList (repeat brady 20))])
  /\ exists summary,
       _summarize_fantasy_rankings
         (VDict [("QB", VList (repeat mahomes 30)); ("RB", VList (repeat brady 20))])
       = Ok summary
       /\ forall position,
            (length (retained_records position summary) <= position_cap position)%nat.
Proof.
  apply (position_keyed_rankings_within_caps
           [("QB", VList (repeat mahomes 30)); ("RB", VList (repeat brady 20))]).
  reflexivity.
Defined.

Example position_sections_cut_to_caps :
  List.map (fun '(position, section) => (position, length (retained_records position
                                                              (VDict [(position, section)]))))
    (position_sections [("QB", VList (repeat mahomes 30)); ("RB", VList (repeat brady 20))])
  = [("QB", 25%nat); ("RB", 15%nat)].
Proof. vm_compute. reflexivity. Qed.

(** ** The orchestrator *)

(** C2.  On a mapping, [_summarize_context_data] returns a value: the
    summary of the categories when the [try] block completes, and, when
    a step of the block raises [e], the single fallback object with its
    summary text and the text of [e]. *)
Theorem summarize_context_data_always_returns `{Summarizers}
    (d : list (string * value)) (mentioned_players : list value)
    (mentioned_teams : list string) :
  let summarized := [("query_type", dict_get d "query_type" (VStr "unknown"));
                     ("metadata", dict_get d "metadata" (VDict []))] in
  (exists compacted,
      _summarize_context_data (VDict d) mentioned_players mentioned_teams = Ok compacted)
  /\ (forall categories,
         summarize_categories d mentioned_players summarized = Ok categories ->
         _summarize_context_data (VDict d) mentioned_players mentioned_teams
         = Ok (VDict categories))
  /\ (forall e,
         summarize_categories d mentioned_players summarized = Raise e ->
         _summarize_context_data (VDict d) mentioned_players mentioned_teams
         = Ok (VDict [("summary", VStr "According to the Fantasy Nerds data, the NFL analytics show comprehensive information about players, teams, and statistics across the league.");
                      ("error", VStr (exn_str e))])).
Proof.
  intros summarized. unfold _summarize_context_data. fold summarized.
  destruct (summarize_categories d mentioned_players summarized) as [categories|e].
  - split; [now eexists |]. split; [now intros ? [= <-] | discriminate].
  - split; [now eexists |]. split; [discriminate | now intros ? [= <-]].
Qed.

Lemma summarize_context_data_needs_mapping `{Summarizers} (l : list value)
    (mentioned_players : list value) (mentioned_teams : list string) :
  _summarize_context_data (VList l) mentioned_players mentioned_teams
  = Raise (AttributeError "list" "get").
Proof. reflexivity. Qed.

(** C7.  [_summarize_boxscore] raises on a boxscore that is a list, and
    a bundle holding such a boxscore next to a [draft_rankings] category
    is compacted, whatever the other summarizers are, to the top-level
    fallback object: the sibling category is not in the result. *)
Theorem malformed_boxscore_discards_siblings `{Summarizers} (boxscore : list value)
    (draft_rankings : value) :
  _summarize_boxscore (VList boxscore) = Raise (AttributeError "list" "get")
  /\ _summarize_context_data
       (VDict [("boxscore", VList boxscore); ("draft_rankings", draft_rankings)]) [] []
     = Ok (VDict [("summary", VStr "According to the Fantasy Nerds data, the NFL analytics show comprehensive information about players, teams, and statistics across the league.");
                  ("error", VStr "'list' object has no attribute 'get'")]).
Proof. split; reflexivity. Qed.

(** The same bundle with a well-formed boxscore keeps both categories. *)
Example well_formed_boxscore_keeps_siblings `{Summarizers} :
  exists boxscore,
    _summarize_context_data (VDict [("boxscore", VDict []); ("draft_rankings", VList [mahomes])])
      [] []
    = Ok (VDict [("query_type", VStr "unknown"); ("metadata", VDict []);
                 ("boxscore", boxscore);
                 ("draft_rankings",
                  VList [VDict (flat_player_summary [("name", VStr "Patrick Mahomes")])])]).
Proof. eexists. reflexivity. Qed.

(** C9.  [_summarize_draft_projections] answers an empty input with the
    summary "No draft projections data available", where
    [_summarize_fantasy_rankings] answers it with its filler text. *)
Theorem empty_draft_projections_say_no_data :
  _summarize_draft_projections (VDict [])
  = Ok (VDict [("summary", VStr "No draft projections data available")])
  /\ _summarize_draft_projections (VList [])
     = Ok (VDict [("summary", VStr "No draft projections data available")])
  /\ _summarize_draft_projections VNone
     = Ok (VDict [("summary", VStr "No draft projections data available")])
  /\ _summarize_fantasy_rankings (VDict []) = Ok rankings_filler.
Proof. repeat split. Qed.

(** ** Loops that append *)

Lemma for_each_append_length {A} (summary : A -> result value) (l : list A)
    (summarized out : list value) :
  for_each (fun summarized x => s ← summary x; Ok (summarized ++ [s])) l summarized = Ok out ->
  length out = (length summarized + length l)%nat.
Proof.
  revert summarized. induction l as [|x l IH]; intros summarized; simpl.
  - intros [= <-]. lia.
  - destruct (summary x) as [s|e]; [|discriminate]. simpl. intros Hrun.
    apply IH in Hrun. rewrite Hrun, length_app. simpl. lia.
Qed.

Lemma for_each_append_forall {A} (summary : A -> result value) (P : value -> Prop)
    (l : list A) (summarized out : list value) :
  (forall x s, summary x = Ok s -> P s) ->
  List.Forall P summarized ->
  for_each (fun summarized x => s ← summary x; Ok (summarized ++ [s])) l summarized = Ok out ->
  List.Forall P out.
Proof.
  intros Hsummary. revert summarized. induction l as [|x l IH]; intros summarized Hacc; simpl.
  - now intros [= <-].
  - destruct (summary x) as [s|e] eqn:Hx; [|discriminate]. simpl. apply IH.
    apply List.Forall_app. split; [assumption |]. constructor; [|constructor]. eauto.
Qed.

Lemma append_each_length {A} (summary : A -> result value) (l : list A) (out : list value) :
  append_each summary l = Ok out -> length out = length l.
Proof. intros Hrun. apply for_each_append_length in Hrun. exact Hrun. Qed.

Lemma append_each_forall {A} (summary : A -> result value) (P : value -> Prop)
    (l : list A) (out : list value) :
  (forall x s, summary x = Ok s -> P s) ->
  append_each summary l = Ok out -> List.Forall P out.
Proof. intros Hsummary. now apply for_each_append_forall. Qed.

Lemma append_each_dict_from (summary : list (string * value) -> result value)
    (P : value -> Prop) (l : list value) (summarized out : list value) :
  (forall d s, summary d = Ok s -> P s) ->
  List.Forall P summarized ->
  for_each (fun summarized x =>
              match x with
              | VDict d => s ← summary d; Ok (summarized ++ [s])
              | _ => Ok summarized
              end) l summarized = Ok out ->
  List.Forall P out /\ (length summarized <= length out <= length summarized + length l)%nat.
Proof.
  intros Hsummary. revert summarized. induction l as [|x l IH]; intros summarized Hacc; simpl.
  - intros [= <-]. split; [assumption | lia].
  - destruct x as [| | | | |d]; simpl;
      try (intros Hrun; apply IH in Hrun as [Hall Hlen]; [split; [assumption | lia] | assumption]).
    destruct (summary d) as [s|e] eqn:Hd; [|discriminate]. simpl. intros Hrun.
    apply IH in Hrun as [Hall Hlen].
    + split; [assumption |]. rewrite length_app in Hlen. simpl in Hlen. lia.
    + apply List.Forall_app. split; [assumption |]. constructor; [|constructor]. eauto.
Qed.

Lemma append_each_dict_spec (summary : list (string * value) -> result value)
    (P : value -> Prop) (l : list value) (out : list value) :
  (forall d s, summary d = Ok s -> P s) ->
  append_each_dict summary l = Ok out ->
  List.Forall P out /\ (length out <= length l)%nat.
Proof.
  intros Hsummary Hrun.
  apply (append_each_dict_from summary P l [] out Hsummary) in Hrun as [Hall Hlen];
    [|constructor]. split; [assumption | simpl in Hlen; lia].
Qed.

Lemma py_slice_to_length (n : Z) (v : value) (l : list value) :
  0 <= n -> py_slice_to n v = Ok l -> (length l <= Z.to_nat n)%nat.
Proof.
  intros Hn. destruct v; simpl; try discriminate; intros [= <-].
  - rewrite length_map. now apply slice_to_length.
  - now apply slice_to_length.
Qed.

(** ** Games, injuries, schedule and news *)

Lemma for_each_append_forall2 {A} (summary : A -> result value) (l : list A)
    (summarized out : list value) :
  for_each (fun summarized x => s ← summary x; Ok (summarized ++ [s])) l summarized = Ok out ->
  exists added,
    out = summarized ++ added /\ Forall2 (fun x s => summary x = Ok s) l added.
Proof.
  revert summarized. induction l as [|x l IH]; intros summarized; simpl.
  - intros [= <-]. exists []. split; [now rewrite app_nil_r | constructor].
  - destruct (summary x) as [s|e] eqn:Hx; [|discriminate]. simpl. intros Hrun.
    apply IH in Hrun as (added & -> & Hadded). exists (s :: added).
    split; [now rewrite <- app_assoc | now constructor].
Qed.

Lemma for_each_append_raises {A} (summary : A -> result value) (l : list A)
    (summarized : list value) (e : exn) :
  for_each (fun summarized x => s ← summary x; Ok (summarized ++ [s])) l summarized = Raise e ->
  exists x, In x l /\ summary x = Raise e.
Proof.
  revert summarized. induction l as [|x l IH]; intros summarized; simpl; [discriminate |].
  destruct (summary x) as [s|e'] eqn:Hx; simpl.
  - intros Hrun. apply IH in Hrun as (y & Hy & Hraise). exists y. split; [now right | exact Hraise].
  - intros [= <-]. exists x. split; [now left | exact Hx].
Qed.

(** X1.  [_summarize_games] never raises and returns a list of at most
    ten entries: the empty list for an input that counts as false; the
    summaries of the first ten elements, one each and in order, when
    all of them can be summarized; and otherwise, when the input cannot
    be sliced or one of the first ten elements cannot be summarized, the
    list holding the fallback entry alone, whatever was summarized
    before the failure. *)
Theorem games_summary_has_at_most_ten (games_data : value) :
  exists games_summary,
    LLMService._summarize_games games_data = Ok (VList games_summary)
    /\ (length games_summary <= 10)%nat
    /\ (if truthy games_data
        then (exists games,
                 py_slice_to 10 games_data = Ok games
                 /\ Forall2 (fun game summary => LLMService.game_summary game = Ok summary)
                      games games_summary)
             \/ (games_summary = [games_fallback]
                 /\ ((exists e, py_slice_to 10 games_data = Raise e)
                     \/ exists games game e,
                          py_slice_to 10 games_data = Ok games /\ In game games
                          /\ LLMService.game_summary game = Raise e))
        else games_summary = []).
Proof.
  unfold LLMService._summarize_games.
  destruct (truthy games_data); cbn [negb];
    [|exists []; split; [reflexivity | split; [simpl; lia | reflexivity]]].
  destruct (py_slice_to 10 games_data) as [games|e] eqn:Hslice; cbn [mbind result_bind try_except].
  - destruct (append_each LLMService.game_summary games) as [games_summary|e] eqn:Hgames;
      cbn [mbind result_bind try_except].
    + exists games_summary. split; [reflexivity |]. split.
      * apply append_each_length in Hgames. apply py_slice_to_length in Hslice; lia.
      * left. exists games. split; [reflexivity |].
        apply for_each_append_forall2 in Hgames as (added & -> & Hadded). exact Hadded.
    + exists [games_fallback]. split; [reflexivity |]. split; [simpl; lia |].
      right. split; [reflexivity |]. right.
      apply for_each_append_raises in Hgames as (game & Hgame & Hraise).
      exists games, game, e. auto.
  - exists [games_fallback]. split; [reflexivity |]. split; [simpl; lia |].
    right. split; [reflexivity |]. left. now exists e.
Qed.

Lemma injury_team_capped (team summary : value) :
  LLMService.injury_team team = Ok summary -> capped_injury_team summary.
Proof.
  unfold LLMService.injury_team.
  destruct (py_get team "name" (VStr "")) as [name|e]; [|discriminate]. simpl.
  destruct (py_get team "alias" (VStr "")) as [alias|e]; [|discriminate]. simpl.
  destruct (py_get team "players" (VList [])) as [players_value|e]; [|discriminate]. simpl.
  destruct (py_slice_to 10 players_value) as [players|e] eqn:Hslice; [|discriminate]. simpl.
  destruct (append_each LLMService.injured_player players) as [injuries|e] eqn:Hinjuries;
    [|discriminate]. simpl.
  intros [= <-]. exists name, alias, injuries. split; [reflexivity |].
  apply append_each_length in Hinjuries. apply py_slice_to_length in Hslice; lia.
Qed.

(** X2.  [_summarize_injury_data] never raises: it returns its fallback
    summary, or a report of at most ten teams, each with at most ten
    injuries. *)
Theorem injury_summary_is_capped (data : value) :
  LLMService._summarize_injury_data data = Ok LLMService.injury_fallback
  \/ exists week teams,
       LLMService._summarize_injury_data data
       = Ok (VDict [("week", week); ("teams_with_injuries", VList teams)])
       /\ (length teams <= 10)%nat
       /\ List.Forall capped_injury_team teams.
Proof.
  unfold LLMService._summarize_injury_data.
  assert (Hbounded : forall week teams,
             (length teams <= 10)%nat ->
             try_except
               (teams_with_injuries ← append_each LLMService.injury_team teams;
                Ok (VDict [("week", week); ("teams_with_injuries", VList teams_with_injuries)]))
               (fun _ => Ok LLMService.injury_fallback)
             = Ok LLMService.injury_fallback
             \/ exists week' teams',
                  try_except
                    (teams_with_injuries ← append_each LLMService.injury_team teams;
                     Ok (VDict [("week", week);
                                ("teams_with_injuries", VList teams_with_injuries)]))
                    (fun _ => Ok LLMService.injury_fallback)
                  = Ok (VDict [("week", week'); ("teams_with_injuries", VList teams')])
                  /\ (length teams' <= 10)%nat
                  /\ List.Forall capped_injury_team teams').
  { intros week teams Hlen.
    destruct (append_each LLMService.injury_team teams) as [summaries|e] eqn:Hteams; simpl;
      [|now left].
    right. exists week, summaries. split; [reflexivity |]. split.
    - apply append_each_length in Hteams. lia.
    - eapply append_each_forall; [|exact Hteams]. intros team s. apply injury_team_capped. }
  destruct data as [| | | |l|d]; try (now left).
  - apply (Hbounded (VStr "current") (slice_to 10 l)).
    pose proof (slice_to_length 10 l). lia.
  - cbn [py_get mbind result_bind].
    destruct (py_slice_to 10 (dict_get d "teams" (VList []))) as [teams|e] eqn:Hslice;
      [|now left].
    apply (Hbounded (dict_get d "week" (VStr "")) teams).
    apply py_slice_to_length in Hslice; lia.
Qed.

(** X3.  [_summarize_schedule_data] never raises and never returns an
    empty list of games: it returns its filler text, its fallback text,
    or a schedule of one to ten games. *)
Theorem schedule_summary_is_never_empty (data : value) :
  LLMService._summarize_schedule_data data = Ok LLMService.schedule_filler
  \/ LLMService._summarize_schedule_data data = Ok LLMService.schedule_fallback
  \/ exists year type games,
       LLMService._summarize_schedule_data data
       = Ok (VDict [("year", year); ("type", type); ("games", VList games)])
       /\ (1 <= length games <= 10)%nat.
Proof.
  unfold LLMService._summarize_schedule_data.
  assert (Hbounded : forall year type games,
             (length games <= 10)%nat ->
             let run :=
               try_except
                 (games ← append_each_dict LLMService.schedule_game games;
                  if is_nil games then Ok LLMService.schedule_filler
                  else Ok (VDict [("year", year); ("type", type); ("games", VList games)]))
                 (fun _ => Ok LLMService.schedule_fallback) in
             run = Ok LLMService.schedule_filler
             \/ run = Ok LLMService.schedule_fallback
             \/ exists year' type' games',
                  run = Ok (VDict [("year", year'); ("type", type'); ("games", VList games')])
                  /\ (1 <= length games' <= 10)%nat).
  { intros year type games Hlen run. unfold run.
    destruct (append_each_dict LLMService.schedule_game games) as [summaries|e] eqn:Hgames;
      simpl; [|right; now left].
    destruct summaries as [|summary summaries]; simpl; [now left |].
    right. right. exists year, type, (summary :: summaries). split; [reflexivity |].
    apply (append_each_dict_spec _ (fun _ => True)) in Hgames as [_ Hsize]; [|trivial].
    simpl in *. lia. }
  destruct data as [| | | |l|d]; try (right; now left).
  - apply (Hbounded (VStr "current") (VStr "regular") (slice_to 10 l)).
    pose proof (slice_to_length 10 l). lia.
  - cbn [py_get mbind result_bind].
    destruct (py_slice_to 10 (dict_get d "games" (VList []))) as [games|e] eqn:Hslice;
      [|right; now left].
    apply (Hbounded (dict_get d "year" (VStr "")) (dict_get d "type" (VStr "")) games).
    apply py_slice_to_length in Hslice; lia.
Qed.

Lemma news_excerpt_short (excerpt : value) (s : string) :
  LLMService.news_excerpt excerpt = Ok (VStr s) -> py_len s <= 203.
Proof.
  unfold LLMService.news_excerpt.
  destruct (py_len_of excerpt) as [n|e] eqn:Hlen; [|discriminate]. simpl.
  destruct (200 <? n) eqn:Hlong.
  - apply Z.ltb_lt in Hlong. destruct excerpt; try discriminate.
    simpl in Hlen. injection Hlen as <-. intros [= <-].
    rewrite py_len_app, str_slice_to_len by lia. reflexivity.
  - apply Z.ltb_ge in Hlong. intros [= ->]. simpl in Hlen. injection Hlen as <-. lia.
Qed.

Lemma article_summary_short (article : list (string * value)) (summary : value) :
  LLMService.article_summary article = Ok summary -> short_excerpt summary.
Proof.
  unfold LLMService.article_summary.
  destruct (LLMService.news_excerpt (dict_get article "article_excerpt" (VStr "")))
    as [excerpt|e] eqn:Hexcerpt; [|discriminate]. simpl. intros [= <-].
  eexists _, _, _, excerpt, _. split; [reflexivity |].
  intros s ->. now apply news_excerpt_short in Hexcerpt.
Qed.

(** X4.  On a list, [_summarize_news_data] never raises: it returns its
    fallback object with the text of the error, or the summaries of
    mapping elements among the first five, at most five, whose excerpts,
    when texts, have at most 203 characters. *)
Theorem news_summary_is_capped (news_data : list value) :
  (exists e,
      LLMService._summarize_news_data (VList news_data)
      = Ok (VDict [("summary", VStr "News data available but could not be summarized");
                   ("error", VStr (exn_str e))]))
  \/ exists summarized,
       LLMService._summarize_news_data (VList news_data) = Ok (VList summarized)
       /\ (length summarized <= 5)%nat
       /\ List.Forall short_excerpt summarized.
Proof.
  unfold LLMService._summarize_news_data.
  destruct (append_each_dict LLMService.article_summary (slice_to 5 news_data))
    as [summarized|e] eqn:Harticles; simpl; [|left; now exists e].
  right. exists summarized. split; [reflexivity |].
  apply (append_each_dict_spec _ short_excerpt) in Harticles as [Hshort Hsize];
    [|intros d s; apply article_summary_short].
  split; [|assumption]. pose proof (slice_to_length 5 news_data). lia.
Qed.

(** X5.  On a mapping, [_summarize_standings_data] returns exactly when
    the season (an empty mapping when absent) is a mapping; otherwise
    the lookup of the year, which is outside the [try], raises
    [AttributeError]. *)
Theorem standings_summary_needs_mapping_season (standings_data : list (string * value)) :
  let season := dict_get standings_data "season" (VDict []) in
  if is_dict season
  then exists summary, LLMService._summarize_standings_data (VDict standings_data) = Ok summary
  else LLMService._summarize_standings_data (VDict standings_data)
       = Raise (AttributeError (type_name season) "get").
Proof.
  intros season. unfold LLMService._summarize_standings_data.
  destruct (truthy (VDict standings_data)) eqn:Htruthy; simpl.
  - fold season. destruct season as [| | | |l|s]; try reflexivity. simpl.
    match goal with
    | |- exists summary, try_except ?body _ = Ok summary =>
        destruct body; simpl; eexists; reflexivity
    end.
  - destruct standings_data; [|discriminate]. simpl. eexists; reflexivity.
Qed.

Lemma dict_lookup_map_spec {B} (f : value -> B) (k : string) (d : list (string * value)) :
  dict_lookup_map f k d = f <$> dict_lookup k d.
Proof.
  induction d as [|[k' v] d IH]; [reflexivity |].
  simpl. destruct (String.eqb k k'); [reflexivity | exact IH].
Qed.

Lemma records_of_length (l : list value) : (length (records_of l) <= length l)%nat.
Proof. induction l as [|x l IH]; [simpl; lia |]. destruct x; simpl; lia. Qed.

(** X6.  On a list, [_summarize_players_data] reports the length of the
    whole list as [players_count] and samples at most twenty players;
    a mapping that holds the list under [players] is summarized as the
    list itself. *)
Theorem players_summary_counts_all_and_samples_twenty (players : list value)
    (wrapper : list (string * value)) :
  exists sample_players,
    LLMService._summarize_players_data (VList players)
    = Ok (VDict [("players_count", VInt (Z.of_nat (length players)));
                 ("sample_players", VList sample_players)])
    /\ (length sample_players <= 20)%nat
    /\ (length sample_players <= length players)%nat
    /\ LLMService._summarize_players_data (VDict (dict_set "players" (VList players) wrapper))
       = LLMService._summarize_players_data (VList players).
Proof.
  eexists. split; [reflexivity |]. rewrite length_map.
  pose proof (records_of_length (slice_to 20 players)).
  pose proof (slice_to_length 20 players).
  assert (length (slice_to 20 players) <= length players)%nat.
  { unfold slice_to. simpl. rewrite length_take. lia. }
  split; [lia |]. split; [lia |].
  cbn [LLMService._summarize_players_data].
  rewrite dict_lookup_map_spec, dict_lookup_set, String.eqb_refl. reflexivity.
Qed.

(** ** Flat rankings of any size *)

Lemma summarize_rankings_list_spec (player : value) (players : list value) :
  summarize_rankings_list (player :: players)
  = Ok (VList (List.map (fun p => VDict (flat_player_summary p))
                 (records_of (player :: players)))).
Proof.
  unfold summarize_rankings_list, rankings_frame. cbn [truthy length Nat.eqb negb].
  destruct (200 <? S (length players))%nat.
  - unfold _process_large_player_list_chunked. now rewrite chunked_loop_spec.
  - now rewrite append_flat_summaries_spec.
Qed.

(** X7.  On a non-empty list of any size, [_summarize_fantasy_rankings]
    returns one summary per mapping element, in the original order: the
    threshold of 200 players and the chunks of 150 do not change the
    result. *)
Theorem flat_rankings_summarize_every_record (player : value) (players : list value) :
  _summarize_fantasy_rankings (VList (player :: players))
  = Ok (VList (List.map (fun p => VDict (flat_player_summary p))
                 (records_of (player :: players))))
  /\ List.map summary_name
       (List.map (fun p => VDict (flat_player_summary p)) (records_of (player :: players)))
     = List.map (fun p => Some (identity_of p)) (records_of (player :: players)).
Proof.
  split.
  - apply summarize_rankings_list_spec.
  - rewrite List.map_map. apply List.map_ext. intros p. apply flat_player_summary_name.
Qed.

(** ** Ranks of the draft projections *)

Lemma append_ranked_spec (summary : nat -> list (string * value) -> list (string * value))
    (players : list value) :
  forall (start : nat) (acc : list value),
    append_ranked summary start acc players
    = acc ++ List.map (fun '(rank, p) => VDict (summary rank p)) (ranked_records start players).
Proof.
  unfold append_ranked, enumerate_from.
  induction players as [|player players IH]; intros start acc; simpl.
  - now rewrite app_nil_r.
  - destruct player; rewrite IH; try reflexivity. simpl. now rewrite <- app_assoc.
Qed.

Lemma ranked_records_app (l1 l2 : list value) :
  forall start : nat,
    ranked_records start (l1 ++ l2)
    = ranked_records start l1 ++ ranked_records (start + length l1) l2.
Proof.
  induction l1 as [|x l1 IH]; intros start; simpl.
  - now rewrite Nat.add_0_r.
  - replace (start + S (length l1))%nat with (S start + length l1)%nat by lia.
    destruct x; rewrite IH; reflexivity.
Qed.

Lemma slice_chunk_length {A} (start chunk_size : nat) (l : list A) :
  (start + chunk_size <= length l)%nat ->
  length (slice start (Nat.min (start + chunk_size) (length l)) l) = chunk_size.
Proof. intros Hfull. unfold slice. rewrite length_take, length_drop. lia. Qed.

Lemma ranked_chunks_cover_list (summary : nat -> list (string * value) -> list (string * value))
    (chunk_size : nat) (players_list : list value) :
  forall (fuel start : nat) (all_summarized : list value),
    (0 < chunk_size)%nat ->
    (length players_list - start <= fuel)%nat ->
    fold_left (fun all_summarized i =>
                 append_ranked summary (i + 1) all_summarized
                   (slice i (Nat.min (i + chunk_size) (length players_list)) players_list))
              (range_from fuel start (length players_list) chunk_size) all_summarized
    = all_summarized
      ++ List.map (fun '(rank, p) => VDict (summary rank p))
           (ranked_records (start + 1) (drop start players_list)).
Proof.
  induction fuel as [|fuel IH]; intros start all_summarized Hstep Hfuel.
  - rewrite drop_ge by lia. simpl. now rewrite app_nil_r.
  - simpl. destruct (start <? length players_list)%nat eqn:Hstart.
    + simpl. rewrite IH by lia. rewrite append_ranked_spec, <- app_assoc, <- List.map_app.
      f_equal. f_equal.
      replace (ranked_records (start + 1) (drop start players_list))
        with (ranked_records (start + 1)
                (slice start (Nat.min (start + chunk_size) (length players_list)) players_list
                 ++ drop (start + chunk_size) players_list))
        by now rewrite chunk_then_rest.
      rewrite ranked_records_app. f_equal.
      destruct (Nat.le_gt_cases (start + chunk_size) (length players_list)) as [Hfull|Hlast].
      * rewrite slice_chunk_length by assumption. f_equal. lia.
      * rewrite drop_ge by lia. reflexivity.
    + apply Nat.ltb_ge in Hstart. rewrite drop_ge by lia. simpl. now rewrite app_nil_r.
Qed.

Lemma chunked_draft_projections_spec (players_list : list value) (position : string) :
  _process_large_player_list_chunked_draft_projections players_list position
  = Ok (List.map (fun '(rank, p) => VDict (chunked_position_summary position rank p))
          (ranked_records 1 players_list)).
Proof.
  unfold _process_large_player_list_chunked_draft_projections, py_range, try_except.
  rewrite (ranked_chunks_cover_list (chunked_position_summary position) 75 players_list
             (length players_list) 0 []) by lia.
  reflexivity.
Qed.

Lemma draft_summary_rank_and_name (position : string) (total_players rank : nat)
    (p : list (string * value)) :
  summary_field "rank" (VDict (draft_summary_of position total_players rank p))
  = Some (VInt (Z.of_nat rank))
  /\ summary_field "name" (VDict (draft_summary_of position total_players rank p))
     = Some (dict_get p "name" (VStr "")).
Proof.
  unfold summary_field, draft_summary_of, kicker_summary, chunked_position_summary,
    small_position_summary.
  destruct (String.eqb position "K") eqn:HK.
  - rewrite !dict_lookup_set. split; reflexivity.
  - destruct (30 <? total_players)%nat;
      destruct (String.eqb position "QB"); rewrite ?dict_lookup_set; try (split; reflexivity);
      destruct (str_in position ["RB"; "WR"; "TE"]); rewrite ?dict_lookup_set;
        try (split; reflexivity);
      rewrite ?HK; destruct (String.eqb position "DEF"); rewrite ?dict_lookup_set;
        split; reflexivity.
Qed.

(** X8.  For a position holding a non-empty list, the loop body of
    [_summarize_draft_projections] stores the length of the list as
    [count] and one summary per mapping element; the [rank] of a
    summary is the position of its element in the list, counted from
    one, also past elements that are skipped and across the chunks of
    75. *)
Theorem draft_ranks_are_list_positions (position : string) (player : value)
    (players : list value) (positions : list (string * value)) :
  let players_list := player :: players in
  let total_players := length players_list in
  let all_players :=
    List.map (fun '(rank, p) => VDict (draft_summary_of position total_players rank p))
      (ranked_records 1 players_list) in
  draft_position positions (position, VList players_list)
  = Ok (dict_set position
          (VDict [("count", VInt (Z.of_nat total_players)); ("all_players", VList all_players)])
          positions)
  /\ List.map (summary_field "rank") all_players
     = List.map (fun '(rank, _) => Some (VInt (Z.of_nat rank))) (ranked_records 1 players_list)
  /\ List.map (summary_field "name") all_players
     = List.map (fun '(_, p) => Some (dict_get p "name" (VStr "")))
         (ranked_records 1 players_list).
Proof.
  intros players_list total_players all_players. split; [|split].
  - unfold all_players, draft_summary_of, draft_position. fold players_list total_players.
    destruct (String.eqb position "K").
    + now rewrite append_ranked_spec.
    + destruct (30 <? total_players)%nat.
      * now rewrite chunked_draft_projections_spec.
      * now rewrite append_ranked_spec.
  - unfold all_players. rewrite List.map_map. apply List.map_ext. intros [rank p].
    apply draft_summary_rank_and_name.
  - unfold all_players. rewrite List.map_map. apply List.map_ext. intros [rank p].
    apply draft_summary_rank_and_name.
Qed.

(** ** Rest-of-season projections *)

Lemma for_each_app {A S : Type} (body : S -> A -> result S) (l1 l2 : list A) (s : S) :
  for_each body (l1 ++ l2) s = s' ← for_each body l1 s; for_each body l2 s'.
Proof.
  revert s. induction l1 as [|x l1 IH]; intros s; [reflexivity |].
  simpl. destruct (body s x) as [s'|e]; [apply IH | reflexivity].
Qed.

Lemma chunked_for_each_flattens {A S : Type} (body : S -> A -> result S) (chunk_size : nat)
    (l : list A) :
  forall (fuel start : nat) (s : S),
    (0 < chunk_size)%nat ->
    (length l - start <= fuel)%nat ->
    for_each (fun s i => for_each body (slice i (Nat.min (i + chunk_size) (length l)) l) s)
             (range_from fuel start (length l) chunk_size) s
    = for_each body (drop start l) s.
Proof.
  induction fuel as [|fuel IH]; intros start s Hstep Hfuel.
  - rewrite drop_ge by lia. reflexivity.
  - simpl. destruct (start <? length l)%nat eqn:Hstart.
    + replace (for_each body (drop start l) s)
        with (for_each body (slice start (Nat.min (start + chunk_size) (length l)) l
                             ++ drop (start + chunk_size) l) s)
        by now rewrite chunk_then_rest.
      rewrite for_each_app. simpl.
      destruct (for_each body (slice start (Nat.min (start + chunk_size) (length l)) l) s);
        [|reflexivity].
      simpl. apply IH; lia.
    + apply Nat.ltb_ge in Hstart. rewrite drop_ge by lia. reflexivity.
Qed.

Lemma ros_chunk_players_text (position : string) (players : list value) :
  forall all_summarized : list value,
    names_are_text_by plain_player_name players ->
    for_each (LLMService.ros_chunk_player position) players all_summarized
    = Ok (all_summarized
          ++ List.map (fun p => VDict (LLMService.ros_player_summary
                                         LLMService.ros_chunked_stats position p))
               (records_of players)).
Proof.
  induction players as [|player players IH]; intros all_summarized Htext.
  - simpl. now rewrite app_nil_r.
  - assert (Htail : names_are_text_by plain_player_name players)
      by (intros p Hp; apply Htext; now right).
    destruct player as [| | | | |p]; try (simpl; now rewrite IH).
    destruct (Htext p (or_introl eq_refl)) as [name Hname].
    cbn [for_each LLMService.ros_chunk_player]. unfold plain_player_name in Hname.
    rewrite Hname. cbn [py_lower mbind result_bind].
    rewrite IH by assumption. cbn [records_of List.map]. now rewrite <- app_assoc.
Qed.

Lemma ros_chunk_players_not_text (position : string) (players : list value)
    (p : list (string * value)) :
  forall all_summarized : list value,
    In (VDict p) players ->
    (forall name, plain_player_name p <> VStr name) ->
    exists e, for_each (LLMService.ros_chunk_player position) players all_summarized = Raise e.
Proof.
  induction players as [|player players IH]; intros all_summarized Hin Hname; [destruct Hin |].
  cbn [for_each].
  destruct (LLMService.ros_chunk_player position all_summarized player) as [s|e] eqn:Hplayer;
    [|now exists e].
  simpl. destruct Hin as [-> | Hin]; [|now apply IH].
  exfalso. cbn [LLMService.ros_chunk_player] in Hplayer. unfold plain_player_name in Hname.
  destruct (dict_get p "name" (VStr "")); try discriminate. now apply (Hname s0).
Qed.

Lemma chunked_ros_is_flat_loop (players_list : list value) (position : string) :
  LLMService._process_large_player_list_chunked_ros players_list position
  = try_except (for_each (LLMService.ros_chunk_player position) players_list [])
      (fun _ => Ok (LLMService._process_ros_fallback (slice_to 50 players_list) position)).
Proof.
  unfold LLMService._process_large_player_list_chunked_ros, py_range.
  now rewrite (chunked_for_each_flattens (LLMService.ros_chunk_player position) 100
                 players_list (length players_list) 0 []) by lia.
Qed.

(** X9.  For a position holding a non-empty list whose records have
    texts as names, the loop body of [_summarize_ros_projections] stores
    one summary per mapping element, in the original order, whatever the
    size of the list; a list of more than 50 players, processed in
    chunks of 100, reports three more statistics. *)
Theorem ros_position_summarizes_every_record (position : string) (player : value)
    (players : list value) (summarized : list (string * value)) :
  names_are_text_by plain_player_name (player :: players) ->
  LLMService.ros_position summarized (position, VList (player :: players))
  = Ok (dict_set position
          (VList (List.map
                    (fun p => VDict (LLMService.ros_player_summary
                                       (ros_stats_of (length (player :: players))) position p))
                    (records_of (player :: players))))
          summarized).
Proof.
  intros Htext. unfold LLMService.ros_position, ros_stats_of.
  destruct (50 <? length (player :: players))%nat; [|reflexivity].
  rewrite chunked_ros_is_flat_loop, ros_chunk_players_text by assumption. reflexivity.
Qed.

Lemma ros_position_summarizes_every_record_witness :
  LLMService.ros_position [] ("RB", VList (VInt 0 :: repeat mahomes 51))
  = Ok (dict_set "RB"
          (VList (List.map
                    (fun p => VDict (LLMService.ros_player_summary
                                       (ros_stats_of (length (VInt 0 :: repeat mahomes 51)))
                                       "RB" p))
                    (records_of (VInt 0 :: repeat mahomes 51))))
          []).
Proof.
  apply (ros_position_summarizes_every_record "RB" (VInt 0) (repeat mahomes 51) []).
  intros p [Hp | Hp]; [discriminate |].
  apply repeat_spec in Hp. injection Hp as ->. eexists; reflexivity.
Defined.

(** X10.  When some mapping element of the list has a name that is not
    a text, [_process_large_player_list_chunked_ros] returns the
    fallback summaries of the mapping elements among the first 50
    players: the check of line 1698 raises and the handler of the
    chunked processing takes over. *)
Theorem chunked_ros_falls_back_on_bad_name (players_list : list value) (position : string)
    (p : list (string * value)) :
  In (VDict p) players_list ->
  (forall name, plain_player_name p <> VStr name) ->
  LLMService._process_large_player_list_chunked_ros players_list position
  = Ok (LLMService._process_ros_fallback (slice_to 50 players_list) position)
  /\ (length (LLMService._process_ros_fallback (slice_to 50 players_list) position) <= 50)%nat.
Proof.
  intros Hin Hname. split.
  - rewrite chunked_ros_is_flat_loop.
    destruct (ros_chunk_players_not_text position players_list p [] Hin Hname) as [e He].
    now rewrite He.
  - unfold LLMService._process_ros_fallback. rewrite length_map.
    pose proof (records_of_length (slice_to 50 players_list)).
    pose proof (slice_to_length 50 players_list). lia.
Qed.

Lemma chunked_ros_falls_back_on_bad_name_witness :
  LLMService._process_large_player_list_chunked_ros
    (repeat mahomes 60 ++ [VDict [("name", VNone)]]) "RB"
  = Ok (LLMService._process_ros_fallback
          (slice_to 50 (repeat mahomes 60 ++ [VDict [("name", VNone)]])) "RB")
  /\ (length (LLMService._process_ros_fallback
                (slice_to 50 (repeat mahomes 60 ++ [VDict [("name", VNone)]])) "RB") <= 50)%nat.
Proof.
  apply (chunked_ros_falls_back_on_bad_name
           (repeat mahomes 60 ++ [VDict [("name", VNone)]]) "RB" [("name", VNone)]).
  - apply in_or_app. right. now left.
  - intros name. discriminate.
Defined.

(** ** The reduced summary *)

Lemma keep_first_dataset_adds_one (keys : list string) (context_obj : list (string * value))
    (mentioned_players : list value) (mentioned_teams : list string)
    (essential_data out : list (string * value)) :
  keep_first_dataset keys context_obj mentioned_players mentioned_teams essential_data = Ok out ->
  out = essential_data
  \/ exists key kept,
       In key keys /\ dict_mem key context_obj = true /\ out = dict_set key kept essential_data.
Proof.
  induction keys as [|key keys IH]; simpl.
  - intros [= <-]. now left.
  - unfold dict_mem. destruct (dict_lookup key context_obj) as [dataset|] eqn:Hkey.
    + match goal with
      | |- (kept ← ?choice; _) = _ -> _ => destruct choice as [kept|e]; [|discriminate]
      end.
      simpl. intros [= <-]. right. exists key, kept. rewrite Hkey. auto.
    + intros Hrun. apply IH in Hrun as [-> | (key' & kept & Hin & Hmem & ->)]; [now left |].
      right. exists key', kept. auto.
Qed.

Lemma fallback_key_goes_last (key : string) (kept query_type note : value) :
  In key fallback_keys ->
  dict_set key kept [("query_type", query_type); ("metadata", note)]
  = [("query_type", query_type); ("metadata", note); (key, kept)].
Proof.
  unfold fallback_keys. simpl. intros Hkey.
  repeat (destruct Hkey as [<- | Hkey]; [reflexivity |]). destruct Hkey.
Qed.

(** X11.  The reduced summary of the escalation step holds the query
    type, the note that replaces the metadata and at most one category,
    which is one of the nine fantasy categories and present in the
    compacted summary: no other category of the bundle is ever kept. *)
Theorem reduced_summary_keeps_at_most_one_category (context_obj : value)
    (mentioned_players : list value) (mentioned_teams : list string) (essential_data : value) :
  essential_data_of context_obj mentioned_players mentioned_teams = Ok essential_data ->
  exists obj query_type kept_categories,
    context_obj = VDict obj
    /\ essential_data
       = VDict ([("query_type", query_type);
                 ("metadata",
                  VDict [("note", VStr "Comprehensive dataset - metadata truncated for space")])]
                ++ kept_categories)
    /\ (kept_categories = []
        \/ exists key kept,
             kept_categories = [(key, kept)] /\ In key fallback_keys
             /\ dict_mem key obj = true).
Proof.
  unfold essential_data_of. destruct context_obj as [| | | | |obj]; try discriminate.
  intros Hrun. exists obj, (dict_get obj "query_type" (VStr "")).
  set (query_type := dict_get obj "query_type" (VStr "")) in *.
  remember (keep_first_dataset fallback_keys obj mentioned_players mentioned_teams
              [("query_type", query_type);
               ("metadata",
                VDict [("note", VStr "Comprehensive dataset - metadata truncated for space")])])
    as fallback eqn:Hkeep.
  symmetry in Hkeep.
  destruct (value_is_str "ros_projections" query_type && dict_mem "ros_projections" obj)
    eqn:Hros.
  { apply andb_true_iff in Hros as [_ Hmem].
    destruct (prioritize_if_mentioned _ _ _) as [kept|e]; [|discriminate]. simpl in Hrun.
    destruct (debug_rb_players mentioned_players kept); [|discriminate]. simpl in Hrun.
    injection Hrun as <-. exists [("ros_projections", kept)].
    split; [reflexivity |]. split; [reflexivity |]. right. exists "ros_projections", kept.
    split; [reflexivity |]. split; [simpl; tauto | exact Hmem]. }
  destruct (value_is_str "draft_projections" query_type && dict_mem "draft_projections" obj)
    eqn:Hdraft.
  { apply andb_true_iff in Hdraft as [_ Hmem].
    destruct (prioritize_if_mentioned _ _ _) as [kept|e]; [|discriminate]. simpl in Hrun.
    injection Hrun as <-. exists [("draft_projections", kept)].
    split; [reflexivity |]. split; [reflexivity |]. right. exists "draft_projections", kept.
    split; [reflexivity |]. split; [simpl; tauto | exact Hmem]. }
  destruct (dict_lookup "draft_rankings" obj) as [draft_rankings|] eqn:Hrankings.
  - destruct (py_in "players_sample" draft_rankings) as [[|]|e]; try discriminate;
      simpl in Hrun.
    + destruct (prioritize_if_mentioned _ _ _) as [kept|e]; [|discriminate]. simpl in Hrun.
      injection Hrun as <-. exists [("draft_rankings", kept)].
      split; [reflexivity |]. split; [reflexivity |]. right. exists "draft_rankings", kept.
      split; [reflexivity |]. split; [simpl; tauto |]. unfold dict_mem. now rewrite Hrankings.
    + destruct fallback as [out|e]; [|discriminate].
      simpl in Hrun. injection Hrun as <-.
      apply keep_first_dataset_adds_one in Hkeep as [-> | (key & kept & Hin & Hmem & ->)].
      * exists []. split; [reflexivity |]. split; [reflexivity | now left].
      * exists [(key, kept)]. split; [reflexivity |].
        split; [now rewrite fallback_key_goes_last |]. right. now exists key, kept.
  - simpl in Hrun.
    destruct fallback as [out|e]; [|discriminate].
    simpl in Hrun. injection Hrun as <-.
    apply keep_first_dataset_adds_one in Hkeep as [-> | (key & kept & Hin & Hmem & ->)].
    + exists []. split; [reflexivity |]. split; [reflexivity | now left].
    + exists [(key, kept)]. split; [reflexivity |].
      split; [now rewrite fallback_key_goes_last |]. right. now exists key, kept.
Qed.

Lemma reduced_summary_keeps_at_most_one_category_witness :
  exists obj query_type kept_categories,
    VDict [("query_type", VStr "standings"); ("standings", VList [VInt 1]);
           ("news", VList [mahomes]); ("adp", VList [brady]); ("dynasty", VList [mahomes])]
    = VDict obj
    /\ VDict [("query_type", VStr "standings");
              ("metadata",
               VDict [("note", VStr "Comprehensive dataset - metadata truncated for space")]);
              ("dynasty", VList [mahomes])]
       = VDict ([("query_type", query_type);
                 ("metadata",
                  VDict [("note", VStr "Comprehensive dataset - metadata truncated for space")])]
                ++ kept_categories)
    /\ (kept_categories = []
        \/ exists key kept,
             kept_categories = [(key, kept)] /\ In key fallback_keys
             /\ dict_mem key obj = true).
Proof.
  apply (reduced_summary_keeps_at_most_one_category
           (VDict [("query_type", VStr "standings"); ("standings", VList [VInt 1]);
                   ("news", VList [mahomes]); ("adp", VList [brady]);
                   ("dynasty", VList [mahomes])]) [] []).
  reflexivity.
Defined.

(** ** Team mentions *)

Lemma str_in_spec (k : string) (l : list string) : str_in k l = true <-> In k l.
Proof.
  unfold str_in. rewrite existsb_exists. split.
  - intros (k' & Hin & Heq). apply String.eqb_eq in Heq as ->. exact Hin.
  - intros Hin. exists k. split; [exact Hin | apply String.eqb_refl].
Qed.

Lemma appended_teams_are_filtered (words nfl_teams mentioned_teams : list string) :
  fold_left (fun mentioned_teams team =>
               if str_in team words then mentioned_teams ++ [team] else mentioned_teams)
    nfl_teams mentioned_teams
  = mentioned_teams ++ List.filter (fun team => str_in team words) nfl_teams.
Proof.
  revert mentioned_teams.
  induction nfl_teams as [|team nfl_teams IH]; intros mentioned_teams; simpl.
  - now rewrite app_nil_r.
  - rewrite IH. destruct (str_in team words); [now rewrite <- app_assoc | reflexivity].
Qed.

Lemma NFL_TEAMS_distinct : List.NoDup LLMService.NFL_TEAMS.
Proof. apply NoDup_ListNoDup, (bool_decide_unpack _). vm_compute. reflexivity. Qed.

(** X12.  In whatever order the set of team names is iterated,
    [_extract_team_names_from_query] returns, without repetition,
    exactly the names of the vocabulary that are words of the
    lower-cased query. *)
Theorem team_mentions_are_vocabulary_words (nfl_teams : list string) (query : string) :
  Permutation nfl_teams LLMService.NFL_TEAMS ->
  List.NoDup (LLMService._extract_team_names_from_query nfl_teams query)
  /\ forall team,
       In team (LLMService._extract_team_names_from_query nfl_teams query)
       <-> In team LLMService.NFL_TEAMS /\ In team (str_split (str_lower query)).
Proof.
  intros Horder. unfold LLMService._extract_team_names_from_query.
  rewrite appended_teams_are_filtered. cbn [app]. split.
  - apply List.NoDup_filter. eapply Permutation_NoDup; [symmetry; exact Horder |].
    exact NFL_TEAMS_distinct.
  - intros team. rewrite filter_In, str_in_spec. split.
    + intros [Hteam Hword]. split; [| exact Hword].
      exact (Permutation_in team Horder Hteam).
    + intros [Hteam Hword]. split; [| exact Hword].
      exact (Permutation_in team (Permutation_sym Horder) Hteam).
Qed.

Lemma team_mentions_are_vocabulary_words_witness :
  List.NoDup (LLMService._extract_team_names_from_query LLMService.NFL_TEAMS
                "Will the Chiefs beat KC rivals like the Raiders?")
  /\ forall team,
       In team (LLMService._extract_team_names_from_query LLMService.NFL_TEAMS
                  "Will the Chiefs beat KC rivals like the Raiders?")
       <-> In team LLMService.NFL_TEAMS
           /\ In team (str_split (str_lower "Will the Chiefs beat KC rivals like the Raiders?")).
Proof.
  apply (team_mentions_are_vocabulary_words LLMService.NFL_TEAMS
           "Will the Chiefs beat KC rivals like the Raiders?").
  apply Permutation_refl.
Defined.

Example team_mentions_need_whole_words :
  LLMService._extract_team_names_from_query LLMService.NFL_TEAMS
    "Will the Chiefs beat KC rivals like the Raiders?"
  = ["chiefs"; "kc"].
Proof. vm_compute. reflexivity. Qed.

(** ** The request *)

Section Request.
Context `{Summarizers} `{Environment}.

(** X13.  A call of [generate_response] that returns leaves the cache as
    it was or stores its response, with the time of the call, under the
    fingerprint of the request: the entries of other requests are
    untouched and no entry, expired or not, is ever removed. *)
Theorem generate_response_only_stores_its_own_entry (llm_cache : gmap string (Q * string))
    (now : Q) (query : string) (context_data : value) :
  match generate_response llm_cache now query context_data with
  | Ok (response, llm_cache') =>
      (llm_cache' = llm_cache
       \/ llm_cache' = cache_store llm_cache (fingerprint query context_data) now response)
      /\ (forall cache_key, cache_key <> fingerprint query context_data ->
            llm_cache' !! cache_key = llm_cache !! cache_key)
      /\ (forall cache_key, is_Some (llm_cache !! cache_key) ->
            is_Some (llm_cache' !! cache_key))
  | Raise _ => True
  end.
Proof.
  unfold generate_response.
  destruct (cache_read llm_cache (fingerprint query context_data) now) as [cached_response|].
  { split; [now left |]. split; auto. }
  destruct (mentioned_players_of query context_data) as [mentioned_players|e];
    [|exact I]. cbn [mbind result_bind].
  destruct (endpoints_used_of context_data) as [endpoints_used|e]; [|exact I].
  cbn [mbind result_bind].
  destruct (messages_of _ context_data mentioned_players _) as [messages|e]; [|exact I].
  cbn [mbind result_bind].
  destruct (post_chat _) as [llm_response|text].
  - split; [now right |]. unfold cache_store. split.
    + intros cache_key Hother. now apply lookup_insert_ne.
    + intros cache_key Hstored.
      destruct (decide (fingerprint query context_data = cache_key)) as [<-|Hother].
      * rewrite lookup_insert_eq. eauto.
      * now rewrite lookup_insert_ne.
  - split; [now left |]. split; auto.
Qed.

Lemma dict_mem_set (k : string) (v : value) (d : list (string * value)) :
  dict_mem k (dict_set k v d) = true.
Proof. unfold dict_mem. now rewrite dict_lookup_set, String.eqb_refl. Qed.

Lemma dict_set_truthy (k : string) (v : value) (d : list (string * value)) :
  truthy (VDict (dict_set k v d)) = true.
Proof.
  destruct d as [|[k' v'] d]; [reflexivity |]. simpl. now destruct (String.eqb k k').
Qed.

(** X14.  A [target_player] in the metadata of the bundle is the only
    mention used, whatever it is and whatever the query says: the names
    extracted from the query are not consulted. *)
Theorem target_player_replaces_query_mentions (query : string) (target_player : value)
    (metadata context_data : list (string * value)) :
  mentioned_players_of query
    (VDict (dict_set "metadata" (VDict (dict_set "target_player" target_player metadata))
              context_data))
  = Ok [target_player].
Proof.
  unfold mentioned_players_of. rewrite dict_set_truthy.
  cbn [py_in py_getitem mbind result_bind]. rewrite dict_mem_set.
  rewrite dict_lookup_set, String.eqb_refl. cbn [py_in py_getitem mbind result_bind].
  rewrite dict_mem_set. now rewrite dict_lookup_set, String.eqb_refl.
Qed.

Lemma cache_read_empty (cache_key : string) (now : Q) : cache_read ∅ cache_key now = None.
Proof. unfold cache_read. now rewrite lookup_empty. Qed.

(** X15.  The test for a [target_player] is made on the metadata as it
    comes, outside any handler.  With nothing cached, a bundle whose
    metadata is [None], a number or a truth value makes
    [generate_response] raise [TypeError], and so does a metadata that
    is a text containing [target_player] or a list holding that text. *)
Theorem metadata_that_is_no_mapping_raises (now : Q) (query : string)
    (context_data : list (string * value)) :
  let response_for metadata :=
    generate_response ∅ now query (VDict (dict_set "metadata" metadata context_data)) in
  (exists msg, response_for VNone = Raise (TypeError msg))
  /\ (forall n, exists msg, response_for (VInt n) = Raise (TypeError msg))
  /\ (forall b, exists msg, response_for (VBool b) = Raise (TypeError msg))
  /\ (forall before after,
        exists msg,
          response_for (VStr (before +:+ "target_player" +:+ after)) = Raise (TypeError msg))
  /\ (forall before after,
        exists msg,
          response_for (VList (before ++ VStr "target_player" :: after))
          = Raise (TypeError msg)).
Proof.
  intros response_for.
  assert (Hraise : forall metadata msg,
            (has_target ← py_in "target_player" metadata;
             if (has_target : bool) then
               target_player ← py_getitem metadata "target_player";
               Ok [target_player]
             else Ok (List.map VStr (_extract_player_names_from_query query)))
            = Raise (TypeError msg) ->
            response_for metadata = Raise (TypeError msg)).
  { intros metadata msg Hmentions. unfold response_for, generate_response.
    rewrite cache_read_empty. unfold mentioned_players_of. rewrite dict_set_truthy.
    cbn [py_in py_getitem mbind result_bind]. rewrite dict_mem_set.
    rewrite dict_lookup_set, String.eqb_refl. cbn [mbind result_bind].
    rewrite Hmentions. reflexivity. }
  repeat split.
  - eexists. apply Hraise. reflexivity.
  - intros n. eexists. apply Hraise. reflexivity.
  - intros b. eexists. apply Hraise. reflexivity.
  - intros before after. eexists. apply Hraise. cbn [py_in mbind result_bind].
    assert (Hin : str_contains "target_player" (before +:+ "target_player" +:+ after) = true).
    { apply str_contains_spec. now exists before, after. }
    rewrite Hin. reflexivity.
  - intros before after. eexists. apply Hraise. cbn [py_in mbind result_bind].
    assert (Hin : existsb (value_is_str "target_player")
                    (before ++ VStr "target_player" :: after) = true).
    { apply existsb_exists. exists (VStr "target_player").
      split; [apply in_elt | reflexivity]. }
    rewrite Hin. reflexivity.
Qed.

End Request.

(** ** Endpoint names *)

Lemma endpoints_loop (context_data : list (string * value)) (endpoints_used : list string) :
  for_each (fun endpoints_used key =>
              if existsb (fun k => value_is_str k key)
                   ["query_type"; "metadata"; "original_query"]
              then Ok endpoints_used
              else
                match key with
                | VStr k =>
                    let endpoint_name :=
                      if String.eqb k "league" then "teams"
                      else str_replace_char "_" "-" k in
                    Ok (endpoints_used ++ [endpoint_name])
                | _ => no_attribute key "replace"
                end)
    (List.map (fun kv => VStr (fst kv)) context_data) endpoints_used
  = Ok (endpoints_used ++ List.map endpoint_of (endpoint_keys context_data)).
Proof.
  revert endpoints_used.
  induction context_data as [|[key x] context_data IH]; intros endpoints_used.
  - simpl. now rewrite app_nil_r.
  - assert (Hreserved :
              existsb (fun k => value_is_str k (VStr key))
                ["query_type"; "metadata"; "original_query"]
              = str_in key ["query_type"; "metadata"; "original_query"]).
    { unfold str_in. cbn [existsb value_is_str]. now rewrite !(String.eqb_sym key). }
    unfold endpoint_keys. cbn [List.map for_each fst List.filter]. rewrite Hreserved.
    destruct (str_in key ["query_type"; "metadata"; "original_query"]).
    + cbn [mbind result_bind negb]. apply IH.
    + cbn [mbind result_bind negb List.map]. rewrite IH. unfold endpoint_of, endpoint_keys.
      now rewrite <- app_assoc.
Qed.

Lemma replaced_has_no_underscore (key : string) :
  str_contains "_" (str_replace_char "_" "-" key) = false.
Proof.
  induction key as [|c key IH]; [reflexivity |].
  cbn [str_replace_char str_contains String.prefix]. rewrite IH, orb_false_r.
  destruct (Ascii.eqb c "_") eqn:Hc.
  - reflexivity.
  - destruct (ascii_dec "_" c) as [<-|_]; [discriminate | reflexivity].
Qed.

(** X16.  For a mapping, the endpoints listed in the system prompt are
    those of its keys other than [query_type], [metadata] and
    [original_query], in the order of the mapping, [league] being listed
    as [teams]; no listed name contains an underscore. *)
Theorem endpoint_names_have_no_underscore (context_data : list (string * value)) :
  endpoints_used_of (VDict context_data)
  = Ok (List.map endpoint_of (endpoint_keys context_data))
  /\ forall endpoint_name,
       In endpoint_name (List.map endpoint_of (endpoint_keys context_data)) ->
       str_contains "_" endpoint_name = false.
Proof.
  split.
  - unfold endpoints_used_of. destruct context_data as [|entry context_data]; [reflexivity |].
    cbn [truthy length Nat.eqb negb py_iter mbind result_bind].
    now rewrite endpoints_loop.
  - intros endpoint_name Hin. apply in_map_iff in Hin as (key & <- & _).
    unfold endpoint_of. destruct (String.eqb key "league"); [reflexivity |].
    apply replaced_has_no_underscore.
Qed.

(** ** The characters of the serialization *)

Lemma json_text_app (a b : string) : json_text (a +:+ b) = json_text a && json_text b.
Proof.
  induction a as [|c a IH]; [reflexivity |].
  change (String c a +:+ b) with (String c (a +:+ b)). cbn [json_text].
  now rewrite IH, andb_assoc.
Qed.

Lemma json_escape_char_text (c : ascii) : json_text (json_escape_char c) = true.
Proof. destruct c as [[] [] [] [] [] [] [] []]; vm_compute; reflexivity. Qed.

Lemma json_string_text (s : string) : json_text (json_string s) = true.
Proof.
  unfold json_string. rewrite !json_text_app.
  assert (Hescape : json_text (json_escape s) = true).
  { induction s as [|c s IH]; [reflexivity |].
    cbn [json_escape]. now rewrite json_text_app, json_escape_char_text, IH. }
  now rewrite Hescape.
Qed.

Lemma digits_text (d : Decimal.uint) : json_text (NilEmpty.string_of_uint d) = true.
Proof. induction d; cbn [NilEmpty.string_of_uint json_text]; try rewrite IHd; reflexivity. Qed.

Lemma string_of_Z_text (n : Z) : json_text (string_of_Z n) = true.
Proof.
  unfold string_of_Z, NilZero.string_of_int, NilZero.string_of_uint.
  destruct (Z.to_int n) as [d|d]; destruct d;
    try reflexivity; cbn [json_text]; try apply digits_text;
    rewrite ?andb_true_l; apply (digits_text (_ d)).
Qed.

Lemma spaces_text (n : nat) : json_text (spaces n) = true.
Proof. induction n as [|n IH]; [reflexivity | exact IH]. Qed.

Lemma newline_indent_text (level : nat) : json_text (newline_indent level) = true.
Proof. unfold newline_indent. rewrite json_text_app. now rewrite spaces_text. Qed.

Lemma join_text (sep : string) (l : list string) :
  json_text sep = true ->
  List.Forall (fun s => json_text s = true) l ->
  json_text (join sep l) = true.
Proof.
  intros Hsep Hl. induction Hl as [|x l Hx Hl IH]; [reflexivity |].
  destruct l as [|y l]; [exact Hx |].
  change (join sep (x :: y :: l)) with (x +:+ sep +:+ join sep (y :: l)).
  now rewrite !json_text_app, Hx, Hsep, IH.
Qed.

Lemma json_encode_text (v : value) : forall level, json_text (json_encode level v) = true.
Proof.
  induction v as [| [|] | n | s | l IH | d IH] using value_deep_ind; intros level;
    try reflexivity.
  - apply string_of_Z_text.
  - apply json_string_text.
  - destruct l as [|x l]; [reflexivity |].
    change (json_encode level (VList (x :: l)))
      with ("[" +:+ newline_indent (S level)
            +:+ join ("," +:+ newline_indent (S level))
                  (List.map (json_encode (S level)) (x :: l))
            +:+ newline_indent level +:+ "]").
    rewrite !json_text_app, !newline_indent_text, join_text; [reflexivity | |].
    + now rewrite json_text_app, newline_indent_text.
    + apply List.Forall_forall. intros s Hs. apply in_map_iff in Hs as (y & <- & Hy).
      rewrite List.Forall_forall in IH. now apply IH.
  - destruct d as [|entry d]; [reflexivity |].
    change (json_encode level (VDict (entry :: d)))
      with ("{" +:+ newline_indent (S level)
            +:+ join ("," +:+ newline_indent (S level))
                  (List.map (fun kv => let '(k, x) := kv in
                               json_string k +:+ ": " +:+ json_encode (S level) x)
                     (entry :: d))
            +:+ newline_indent level +:+ "}").
    rewrite !json_text_app, !newline_indent_text, join_text; [reflexivity | |].
    + now rewrite json_text_app, newline_indent_text.
    + apply List.Forall_forall. intros s Hs. apply in_map_iff in Hs as ([k y] & <- & Hy).
      rewrite List.Forall_forall in IH. specialize (IH (k, y) Hy (S level)).
      cbn [snd] in IH. now rewrite !json_text_app, json_string_text, IH.
Qed.

Lemma str_take_text (n : nat) (s : string) :
  json_text s = true -> json_text (str_take n s) = true.
Proof.
  revert s. induction n as [|n IH]; intros s Hs; [reflexivity |].
  destruct s as [|c s]; [reflexivity |]. cbn [str_take json_text] in *.
  apply andb_true_iff in Hs as [Hc Hs]. now rewrite Hc, IH.
Qed.

(** X17.  [json.dumps(v, indent=2)] writes only printable ASCII
    characters and line feeds, whatever the texts of [v] contain; so
    does every context string that budget enforcement produces, cut and
    marked or not. *)
Theorem context_is_printable_ascii (summarized_data : value) (mentioned_players : list value)
    (mentioned_teams : list string) :
  json_text (json_dumps summarized_data) = true
  /\ forall context_str,
       bounded_context_str summarized_data mentioned_players mentioned_teams = Ok context_str ->
       json_text context_str = true.
Proof.
  split; [apply json_encode_text |].
  intros context_str. unfold bounded_context_str.
  destruct (max_context_size <? py_len (json_dumps summarized_data)).
  - destruct (essential_data_of _ _ _) as [essential_data|e]; [|discriminate].
    cbn [mbind result_bind].
    destruct (max_context_size <? py_len (json_dumps essential_data)); intros [= <-].
    + unfold str_slice_to. rewrite json_text_app, str_take_text; [reflexivity |].
      apply json_encode_text.
    + apply json_encode_text.
  - intros [= <-]. apply json_encode_text.
Qed.

(** ** Mentions in the rest-of-season data *)

Lemma first_pass_records (name_of : list (string * value) -> value) (mentions : list string)
    (players prioritized remaining : list value) :
  names_are_text_by name_of players ->
  first_pass name_of false (List.map VStr mentions) players prioritized remaining
  = Ok (prioritized
        ++ List.map VDict (List.filter (mentionedb_by name_of mentions) (records_of players)),
        remaining
        ++ List.map VDict
             (List.filter (fun p => negb (mentionedb_by name_of mentions p))
                (records_of players))).
Proof.
  revert prioritized remaining.
  induction players as [|player players IH]; intros prioritized remaining Htext.
  - simpl. now rewrite !app_nil_r.
  - assert (Htail : names_are_text_by name_of players)
      by (intros p Hp; apply Htext; now right).
    destruct player as [| | | |l|p]; try (simpl; now rewrite IH by assumption).
    destruct (Htext p (or_introl eq_refl)) as [name Hname].
    assert (Hmentioned :
              mentionedb_by name_of mentions p
              = existsb (fun m => any_part_in (str_lower name) (str_split (str_lower m)))
                  mentions)
      by (unfold mentionedb_by; now rewrite Hname).
    cbn [first_pass records_of List.filter]. rewrite Hmentioned, Hname.
    cbn [py_lower mbind result_bind]. rewrite is_mentioned_strs. cbn [mbind result_bind].
    destruct (existsb _ mentions); cbn [negb List.map];
      rewrite IH by assumption; now rewrite <- app_assoc.
Qed.

Lemma dict_set_own_key (k : string) (v v0 : value) (done rest : list (string * value)) :
  ~ In k (List.map fst done) ->
  dict_set k v (done ++ (k, v0) :: rest) = done ++ (k, v) :: rest.
Proof.
  induction done as [|[k' v'] done IH]; intros Hfresh.
  - simpl. now rewrite String.eqb_refl.
  - simpl in *. destruct (String.eqb k k') eqn:Hk.
    + apply String.eqb_eq in Hk. exfalso. apply Hfresh. left. now symmetry.
    + rewrite IH; [reflexivity |]. intros Hin. apply Hfresh. now right.
Qed.

Lemma ros_positions_loop (mentions : list string) (done rest : list (string * value)) :
  List.NoDup (List.map fst (done ++ rest)) ->
  (forall position players,
      In (position, VList players) rest ->
      str_in position ["season"; "metadata"] = false ->
      names_are_text_by plain_player_name players) ->
  for_each (fun modified_ros '(position, players) =>
              match players with
              | VList l =>
                  if str_in position ["season"; "metadata"] then Ok modified_ros
                  else
                    '(prioritized_players, remaining_players) ←
                      first_pass plain_player_name false (List.map VStr mentions) l [] [];
                    let max_players_per_position := 15 in
                    Ok (dict_set position
                          (VList (combine_players max_players_per_position
                                    prioritized_players remaining_players))
                          modified_ros)
              | _ => Ok modified_ros
              end) rest
    (List.map (fun '(position, players) => (position, ros_entry mentions position players)) done
     ++ rest)
  = Ok (List.map (fun '(position, players) => (position, ros_entry mentions position players))
          (done ++ rest)).
Proof.
  match goal with
  | |- _ -> _ -> for_each ?body _ _ = _ => set (step := body)
  end.
  revert done. induction rest as [|[position players] rest IH]; intros done Hkeys Htext.
  - simpl. now rewrite !app_nil_r.
  - assert (Hnext :
              List.map (fun '(position, players) =>
                          (position, ros_entry mentions position players)) done
              ++ (position, ros_entry mentions position players) :: rest
              = List.map (fun '(position, players) =>
                            (position, ros_entry mentions position players))
                  (done ++ [(position, players)]) ++ rest).
    { rewrite List.map_app. cbn [List.map]. now rewrite <- app_assoc. }
    assert (Hrest : forall position' players',
              In (position', VList players') rest ->
              str_in position' ["season"; "metadata"] = false ->
              names_are_text_by plain_player_name players')
      by (intros position' players' Hin; apply Htext; now right).
    assert (Hkeys' : List.NoDup (List.map fst ((done ++ [(position, players)]) ++ rest)))
      by now rewrite <- app_assoc.
    assert (Hdone :
              for_each step rest
                (List.map (fun '(position, players) =>
                             (position, ros_entry mentions position players)) done
                 ++ (position, ros_entry mentions position players) :: rest)
              = Ok (List.map (fun '(position, players) =>
                                (position, ros_entry mentions position players))
                      (done ++ (position, players) :: rest))).
    { rewrite Hnext, (IH (done ++ [(position, players)]) Hkeys' Hrest).
      now rewrite <- app_assoc. }
    cbn [for_each]. unfold step at 2.
    destruct players as [| | | |l|d]; cbn [mbind result_bind]; try exact Hdone.
    assert (Hentry :
              ros_entry mentions position (VList l)
              = if str_in position ["season"; "metadata"] then VList l
                else VList (ros_prioritized mentions l)) by reflexivity.
    rewrite Hentry in Hdone.
    destruct (str_in position ["season"; "metadata"]) eqn:Hposition.
    + cbn [mbind result_bind]. exact Hdone.
    + rewrite first_pass_records
        by (apply (Htext position); [now left | exact Hposition]).
      cbn [mbind result_bind app]. rewrite dict_set_own_key.
      * exact Hdone.
      * rewrite List.map_app in Hkeys. apply NoDup_remove_2 in Hkeys.
        intros Hin. apply Hkeys. apply in_or_app. left.
        rewrite List.map_map in Hin.
        replace (List.map fst done)
          with (List.map (fun x => fst (let '(position, players) := x in
                                        (position, ros_entry mentions position players)))
                  done); [exact Hin |].
        apply List.map_ext. now intros [k v].
Qed.

(** X18.  For a mapping with distinct keys and a non-empty list of
    mentions, [_prioritize_mentioned_players_in_ros] keeps the keys and
    their order and replaces every list, other than those under
    [season] and [metadata], by its mentioned records followed by the
    first of the others up to 15 records in all; elements that are not
    mappings are dropped.  A position with at most 15 mentioned records
    is cut to at most 15. *)
Theorem ros_prioritizer_rewrites_each_position (mentions : list string)
    (ros_data : list (string * value)) :
  mentions <> [] ->
  List.NoDup (List.map fst ros_data) ->
  (forall position players,
      In (position, VList players) ros_data ->
      str_in position ["season"; "metadata"] = false ->
      names_are_text_by plain_player_name players) ->
  _prioritize_mentioned_players_in_ros (VDict ros_data) (List.map VStr mentions)
  = Ok (VDict (List.map (fun '(position, players) =>
                           (position, ros_entry mentions position players)) ros_data))
  /\ forall players,
       Z.of_nat (length (List.filter (mentionedb_by plain_player_name mentions)
                           (records_of players))) <= 15 ->
       Z.of_nat (length (ros_prioritized mentions players)) <= 15.
Proof.
  intros Hmentions Hkeys Htext. split.
  - unfold _prioritize_mentioned_players_in_ros.
    assert (Hsome : is_nil (List.map VStr mentions) = false)
      by (destruct mentions; [contradiction | reflexivity]).
    rewrite Hsome.
    pose proof (ros_positions_loop mentions [] ros_data Hkeys Htext) as Hloop.
    change ([] ++ ros_data) with ros_data in Hloop.
    change (List.map (fun '(position, players) =>
                        (position, ros_entry mentions position players)) [] ++ ros_data)
      with ros_data in Hloop.
    exact (f_equal (fmap VDict) Hloop).
  - intros players Hfew. unfold ros_prioritized. unfold combine_players.
    rewrite length_app, !length_map in *.
    pose proof (slice_to_length
                  (15 - Z.of_nat (length (List.filter
                                            (mentionedb_by plain_player_name mentions)
                                            (records_of players))))
                  (List.map VDict
                     (List.filter
                        (fun p => negb (mentionedb_by plain_player_name mentions p))
                        (records_of players)))).
    lia.
Qed.

Lemma ros_prioritizer_rewrites_each_position_witness :
  _prioritize_mentioned_players_in_ros
    (VDict [("season", VInt 2024); ("QB", VList [mahomes; VInt 0; brady])])
    (List.map VStr ["Tom Brady"])
  = Ok (VDict (List.map (fun '(position, players) =>
                           (position, ros_entry ["Tom Brady"] position players))
                 [("season", VInt 2024); ("QB", VList [mahomes; VInt 0; brady])]))
  /\ forall players,
       Z.of_nat (length (List.filter (mentionedb_by plain_player_name ["Tom Brady"])
                           (records_of players))) <= 15 ->
       Z.of_nat (length (ros_prioritized ["Tom Brady"] players)) <= 15.
Proof.
  apply (ros_prioritizer_rewrites_each_position ["Tom Brady"]
           [("season", VInt 2024); ("QB", VList [mahomes; VInt 0; brady])]).
  - discriminate.
  - apply NoDup_ListNoDup, (bool_decide_unpack _). vm_compute. reflexivity.
  - intros position players [Hin | [Hin | []]] _; [discriminate |].
    injection Hin as <- <-.
    intros p [Hp | [Hp | [Hp | []]]]; try discriminate;
      injection Hp as <-; eexists; reflexivity.
Defined.

Example ros_prioritizer_puts_brady_first :
  _prioritize_mentioned_players_in_ros
    (VDict [("season", VInt 2024); ("QB", VList [mahomes; VInt 0; brady])])
    [VStr "Tom Brady"]
  = Ok (VDict [("season", VInt 2024); ("QB", VList [brady; mahomes])]).
Proof. vm_compute. reflexivity. Qed.

(** ** Prioritizing, then summarizing *)

Lemma combine_players_nonempty (max_players : Z) (keep : value -> bool) (player : value)
    (players : list value) :
  0 < max_players ->
  combine_players max_players (List.filter keep (player :: players))
    (List.filter (fun r => negb (keep r)) (player :: players)) <> [].
Proof.
  intros Hmax. unfold combine_players.
  pose proof (filter_length keep (player :: players)) as Hsplit.
  destruct (List.filter keep (player :: players)) as [|kept prioritized]; [|discriminate].
  cbn [app length] in *. unfold slice_to.
  destruct (0 <=? max_players - Z.of_nat 0) eqn:Hsign; [|apply Z.leb_gt in Hsign; lia].
  destruct (List.filter (fun r => negb (keep r)) (player :: players)) as [|other remaining];
    [simpl in Hsplit; lia |].
  replace (Z.to_nat (max_players - Z.of_nat 0)) with (S (Z.to_nat (max_players - 1))) by lia.
  discriminate.
Qed.

(** X19.  For a category holding a non-empty list of records with texts
    as names and a non-empty list of mentions, the step of
    [_summarize_context_data] for the rankings first cuts the list, the
    mentioned records in front, and then summarizes what is left: the
    category is stored as one summary per mapping element of the cut
    list, at most 30 when at most 30 records are mentioned. *)
Theorem mentioned_rankings_are_cut_before_summarizing (mentions : list string)
    (player : value) (players : list value) (key : string)
    (data summarized : list (string * value)) :
  mentions <> [] ->
  names_are_text (player :: players) ->
  dict_lookup key data = Some (VList (player :: players)) ->
  let prioritized_data :=
    combine_players 30 (List.filter (mentionedb mentions) (player :: players))
      (List.filter (fun r => negb (mentionedb mentions r)) (player :: players)) in
  let summaries :=
    List.map (fun p => VDict (flat_player_summary p)) (records_of prioritized_data) in
  prioritized_category data key (List.map VStr mentions)
    _prioritize_mentioned_players_in_fantasy_rankings _summarize_fantasy_rankings summarized
  = Ok (dict_set key (VList summaries) summarized)
  /\ (Z.of_nat (length (List.filter (mentionedb mentions) (player :: players))) <= 30 ->
      (length summaries <= 30)%nat).
Proof.
  intros Hmentions Htext Hraw prioritized_data summaries. split.
  - unfold prioritized_category, category. rewrite Hraw.
    assert (Hsome : is_nil (List.map VStr mentions) = false)
      by (destruct mentions; [contradiction | reflexivity]).
    rewrite Hsome. cbn [negb _prioritize_mentioned_players_in_fantasy_rankings].
    rewrite Hsome. cbn [truthy length Nat.eqb negb orb].
    rewrite prioritize_players_in_list_run by assumption.
    fold prioritized_data. cbn [fmap result_fmap mbind result_bind].
    pose proof (combine_players_nonempty 30 (mentionedb mentions) player players) as Hkept.
    fold prioritized_data in Hkept. unfold summaries.
    destruct prioritized_data as [|kept rest]; [exfalso; apply Hkept; [lia | reflexivity] |].
    cbn [_summarize_fantasy_rankings]. rewrite summarize_rankings_list_spec. reflexivity.
  - intros Hfew. unfold summaries. rewrite length_map.
    pose proof (records_of_length prioritized_data) as Hrecords.
    pose proof (combine_players_length 30
                  (List.filter (mentionedb mentions) (player :: players))
                  (List.filter (fun r => negb (mentionedb mentions r)) (player :: players))
                  Hfew) as Hcut.
    fold prioritized_data in Hcut. lia.
Qed.

Lemma mentioned_rankings_are_cut_before_summarizing_witness :
  let prioritized_data :=
    combine_players 30 (List.filter (mentionedb ["Tom Brady"]) (mahomes :: repeat brady 2))
      (List.filter (fun r => negb (mentionedb ["Tom Brady"] r)) (mahomes :: repeat brady 2)) in
  let summaries :=
    List.map (fun p => VDict (flat_player_summary p)) (records_of prioritized_data) in
  prioritized_category [("weekly_rankings", VList (mahomes :: repeat brady 2))]
    "weekly_rankings" (List.map VStr ["Tom Brady"])
    _prioritize_mentioned_players_in_fantasy_rankings _summarize_fantasy_rankings []
  = Ok (dict_set "weekly_rankings" (VList summaries) [])
  /\ (Z.of_nat (length (List.filter (mentionedb ["Tom Brady"]) (mahomes :: repeat brady 2)))
      <= 30 ->
      (length summaries <= 30)%nat).
Proof.
  apply (mentioned_rankings_are_cut_before_summarizing ["Tom Brady"] mahomes (repeat brady 2)
           "weekly_rankings" [("weekly_rankings", VList (mahomes :: repeat brady 2))] []).
  - discriminate.
  - intros p [Hp | [Hp | [Hp | []]]]; injection Hp as <-; eexists; reflexivity.
  - reflexivity.
Defined.

(** ** Mentions in the draft projections *)




(** ** Mentioned teams in the standings *)

Lemma division_teams_loop (mentioned_teams : list string) (teams : list value) :
  teams_are_text teams ->
  forall prioritized_teams remaining_teams,
    for_each (fun '(prioritized_teams, remaining_teams) team =>
                n ← py_get team "name" (VStr "");
                team_name ← py_lower n;
                a ← py_get team "alias" (VStr "");
                team_alias ← py_lower a;
                if team_mentioned team_name team_alias mentioned_teams
                then Ok (prioritized_teams ++ [team], remaining_teams)
                else Ok (prioritized_teams, remaining_teams ++ [team]))
      teams (prioritized_teams, remaining_teams)
    = Ok (prioritized_teams ++ List.filter (team_is_mentioned mentioned_teams) teams,
          remaining_teams
          ++ List.filter (fun team => negb (team_is_mentioned mentioned_teams team)) teams).
Proof.
  induction teams as [|team teams IH]; intros Htext prioritized_teams remaining_teams.
  - simpl. now rewrite !app_nil_r.
  - assert (Htail : teams_are_text teams) by (intros t Ht; apply Htext; now right).
    destruct (Htext team (or_introl eq_refl)) as (d & name & alias & -> & Hname & Halias).
    cbn [for_each py_get mbind result_bind List.filter].
    assert (Hmentioned :
              team_is_mentioned mentioned_teams (VDict d)
              = team_mentioned (str_lower name) (str_lower alias) mentioned_teams)
      by (unfold team_is_mentioned; now rewrite Hname, Halias).
    rewrite Hmentioned, Hname, Halias. cbn [py_lower mbind result_bind].
    destruct (team_mentioned (str_lower name) (str_lower alias) mentioned_teams);
      cbn [negb mbind result_bind]; rewrite IH by assumption; now rewrite <- app_assoc.
Qed.

Lemma stable_partition_permutes {A} (keep : A -> bool) (l : list A) :
  Permutation l (List.filter keep l ++ List.filter (fun x => negb (keep x)) l).
Proof.
  induction l as [|x l IH]; [constructor |].
  cbn [List.filter]. destruct (keep x); cbn [negb app].
  - now constructor.
  - now apply Permutation_cons_app.
Qed.

Lemma empty_text_is_part_of_any (s : string) : str_contains "" s = true.
Proof. destruct s; reflexivity. Qed.

(** X21.  For a division whose teams are mappings with texts as names
    and aliases, the division step of
    [_prioritize_mentioned_teams_in_standings] replaces the teams by the
    mentioned teams followed by the others, each group in its original
    order: the teams are permuted, none is dropped.  A team without a
    name or without an alias counts as mentioned as soon as one team is
    mentioned in the query, the empty text being part of every text. *)
Theorem division_teams_are_reordered_not_dropped (mentioned_teams : list string)
    (division : list (string * value)) (teams : list value) :
  dict_get division "teams" (VList []) = VList teams ->
  teams_are_text teams ->
  let combined_teams :=
    List.filter (team_is_mentioned mentioned_teams) teams
    ++ List.filter (fun team => negb (team_is_mentioned mentioned_teams team)) teams in
  prioritize_division mentioned_teams (VDict division)
  = Ok (VDict (dict_set "teams" (VList combined_teams) division))
  /\ Permutation teams combined_teams
  /\ (mentioned_teams <> [] ->
      forall team,
        In (VDict team) teams ->
        dict_mem "name" team = false \/ dict_mem "alias" team = false ->
        team_is_mentioned mentioned_teams (VDict team) = true).
Proof.
  intros Hteams Htext combined_teams. split; [|split].
  - unfold prioritize_division, prioritize_division_teams.
    cbn [py_copy py_get mbind result_bind]. rewrite Hteams.
    cbn [py_iter mbind result_bind]. rewrite division_teams_loop by assumption.
    reflexivity.
  - apply stable_partition_permutes.
  - intros Hsome team Hin Hmissing.
    destruct (Htext _ Hin) as (d & name & alias & [= <-] & Hname & Halias).
    unfold team_is_mentioned. rewrite Hname, Halias.
    destruct mentioned_teams as [|mentioned_team others]; [contradiction |].
    unfold team_mentioned. cbn [existsb]. apply orb_true_iff. left.
    unfold dict_get, dict_mem in *.
    destruct Hmissing as [Hmissing | Hmissing].
    + destruct (dict_lookup "name" team); [discriminate |]. injection Hname as <-.
      cbn [str_lower]. rewrite empty_text_is_part_of_any. now rewrite !orb_true_r.
    + destruct (dict_lookup "alias" team); [discriminate |]. injection Halias as <-.
      cbn [str_lower]. rewrite empty_text_is_part_of_any. now rewrite !orb_true_r.
Qed.

Lemma division_teams_are_reordered_not_dropped_witness :
  let teams :=
    [VDict [("name", VStr "Buffalo Bills"); ("alias", VStr "BUF")];
     VDict [("name", VStr "Miami Dolphins"); ("alias", VStr "MIA")];
     VDict [("name", VStr "New York Jets")]] in
  let combined_teams :=
    List.filter (team_is_mentioned ["dolphins"]) teams
    ++ List.filter (fun team => negb (team_is_mentioned ["dolphins"] team)) teams in
  prioritize_division ["dolphins"] (VDict [("name", VStr "AFC East"); ("teams", VList teams)])
  = Ok (VDict (dict_set "teams" (VList combined_teams)
                 [("name", VStr "AFC East"); ("teams", VList teams)]))
  /\ Permutation teams combined_teams
  /\ (["dolphins"] <> [] ->
      forall team,
        In (VDict team) teams ->
        dict_mem "name" team = false \/ dict_mem "alias" team = false ->
        team_is_mentioned ["dolphins"] (VDict team) = true).
Proof.
  apply (division_teams_are_reordered_not_dropped ["dolphins"]
           [("name", VStr "AFC East");
            ("teams",
             VList [VDict [("name", VStr "Buffalo Bills"); ("alias", VStr "BUF")];
                    VDict [("name", VStr "Miami Dolphins"); ("alias", VStr "MIA")];
                    VDict [("name", VStr "New York Jets")]])]
           [VDict [("name", VStr "Buffalo Bills"); ("alias", VStr "BUF")];
            VDict [("name", VStr "Miami Dolphins"); ("alias", VStr "MIA")];
            VDict [("name", VStr "New York Jets")]]).
  - reflexivity.
  - intros team [<- | [<- | [<- | []]]]; do 3 eexists; repeat split; reflexivity.
Defined.

Example team_without_alias_counts_as_mentioned :
  prioritize_division ["dolphins"]
    (VDict [("teams",
             VList [VDict [("name", VStr "Buffalo Bills"); ("alias", VStr "BUF")];
                    VDict [("name", VStr "Miami Dolphins"); ("alias", VStr "MIA")];
                    VDict [("name", VStr "New York Jets")]])])
  = Ok (VDict [("teams",
                VList [VDict [("name", VStr "Miami Dolphins"); ("alias", VStr "MIA")];
                       VDict [("name", VStr "New York Jets")];
                       VDict [("name", VStr "Buffalo Bills"); ("alias", VStr "BUF")]])]).
Proof. vm_compute. reflexivity. Qed.

(** ** Key statistics of a boxscore *)

Lemma stat_fields_loop (stats g : list (string * value)) (group : string)
    (fields : list (string * string * value)) :
  dict_lookup group stats = Some (VDict g) ->
  forall entries,
    for_each (fun entries '(target, source, default) =>
                g ← py_getitem (VDict stats) group;
                x ← py_get g source default;
                Ok (entries ++ [(target, x)])) fields entries
    = Ok (entries
          ++ List.map (fun '(target, source, default) => (target, dict_get g source default))
               fields).
Proof.
  intros Hgroup. induction fields as [|[[target source] default] fields IH]; intros entries.
  - simpl. now rewrite app_nil_r.
  - cbn [for_each py_getitem]. rewrite Hgroup. cbn [py_get mbind result_bind].
    cbn [py_getitem] in IH. rewrite Hgroup in IH. rewrite IH. cbn [List.map].
    now rewrite <- app_assoc.
Qed.

Lemma stat_group_spec (stats : list (string * value)) (group : string)
    (field : string * string * value) (fields : list (string * string * value))
    (key_stats : list (string * value)) :
  stat_group (VDict stats) group (field :: fields) key_stats
  = match dict_lookup group stats with
    | None => Ok key_stats
    | Some (VDict g) =>
        Ok (dict_set group
              (VDict (List.map (fun '(target, source, default) =>
                                  (target, dict_get g source default)) (field :: fields)))
              key_stats)
    | Some v => Raise (AttributeError (type_name v) "get")
    end.
Proof.
  unfold stat_group. cbn [py_in mbind result_bind]. unfold dict_mem.
  destruct (dict_lookup group stats) as [v|] eqn:Hgroup; [|reflexivity].
  destruct v as [| | | | |g];
    try (destruct field as [[target source] default];
         cbn [for_each py_getitem]; rewrite Hgroup; reflexivity).
  rewrite (stat_fields_loop stats g group (field :: fields) Hgroup). reflexivity.
Qed.

(** X22.  On a mapping, [_extract_key_stats] returns exactly when each
    of the four groups it looks for is absent or a mapping, and then
    reports the groups that are present, in the fixed order team,
    passing, rushing, receiving; a group that is no mapping makes it
    raise [AttributeError], which nothing in [_summarize_boxscore]
    catches. *)
Theorem key_stats_need_mapping_groups (stats : list (string * value)) :
  if forallb (group_is_usable stats) STAT_GROUPS
  then exists key_stats,
         _extract_key_stats (VDict stats) = Ok (VDict key_stats)
         /\ List.map fst key_stats
            = List.filter (fun group => dict_mem group stats) STAT_GROUPS
  else exists type, _extract_key_stats (VDict stats) = Raise (AttributeError type "get").
Proof.
  unfold _extract_key_stats, STAT_GROUPS, group_is_usable, dict_mem.
  cbn [forallb List.filter].
  destruct stats as [|entry stats'].
  { cbn. eexists. split; reflexivity. }
  cbn [truthy length Nat.eqb negb]. set (stats := entry :: stats').
  rewrite stat_group_spec.
  destruct (dict_lookup "team" stats) as [[| | | | |team]|];
    cbn [is_dict andb mbind result_bind]; try (eexists; reflexivity);
    rewrite stat_group_spec;
    destruct (dict_lookup "passing" stats) as [[| | | | |passing]|];
    cbn [is_dict andb mbind result_bind]; try (eexists; reflexivity);
    rewrite stat_group_spec;
    destruct (dict_lookup "rushing" stats) as [[| | | | |rushing]|];
    cbn [is_dict andb mbind result_bind]; try (eexists; reflexivity);
    rewrite stat_group_spec;
    destruct (dict_lookup "receiving" stats) as [[| | | | |receiving]|];
    cbn [is_dict andb mbind result_bind]; try (eexists; reflexivity);
    eexists; split; reflexivity.
Qed.

(** ** Samples of other list fields *)

Lemma find_player_field_starts_with_record (items : list (string * value))
    (field : list value) :
  find_player_field items = Some field -> exists p rest, field = VDict p :: rest.
Proof.
  induction items as [|[k v] items IH]; [discriminate |].
  cbn [find_player_field]. destruct v as [| | | |l|d]; try exact IH.
  destruct (first_is_dict l) eqn:Hfirst; [|exact IH].
  intros [= <-]. destruct l as [|[| | | | |p] rest]; try discriminate. eauto.
Qed.

Lemma slice_length {A} (i j : nat) (l : list A) : (length (slice i j l) <= j - i)%nat.
Proof. unfold slice. rewrite length_take. lia. Qed.

Lemma tiered_sample_length (field : list value) : (length (tiered_sample field) <= 30)%nat.
Proof.
  unfold tiered_sample. destruct (30 <? length field)%nat.
  - rewrite !length_app.
    pose proof (slice_to_length 15 field ltac:(lia)) as Htier1.
    assert (Htier2 : (length (if (60 <? length field)%nat then slice 50 60 field else [])
                      <= 10)%nat).
    { destruct (60 <? length field)%nat; [apply (slice_length 50 60) | simpl; lia]. }
    assert (Htier3 : (length (if (155 <? length field)%nat then slice 150 155 field else [])
                      <= 5)%nat).
    { destruct (155 <? length field)%nat; [apply (slice_length 150 155) | simpl; lia]. }
    lia.
  - pose proof (slice_to_length 30 field ltac:(lia)). lia.
Qed.

Lemma tiered_sample_starts_with_first (x : value) (rest : list value) :
  exists others, tiered_sample (x :: rest) = x :: others.
Proof.
  unfold tiered_sample. destruct (30 <? length (x :: rest))%nat; eexists; reflexivity.
Qed.

(** X23.  For a mapping that is not keyed by positions and has neither
    [data] nor [players], [_summarize_fantasy_rankings] samples the
    first field that holds a list starting with a mapping: the summary
    holds the scalar fields as metadata and, as [players_sample], the
    summaries of the mapping elements of the tiered sample, at most 30
    whatever the length of the field. *)
Theorem other_list_field_is_sampled (rankings_data : list (string * value))
    (field : list value) :
  position_keyed rankings_data = false ->
  dict_lookup "data" rankings_data = None ->
  dict_lookup "players" rankings_data = None ->
  find_player_field rankings_data = Some field ->
  let players_sample :=
    List.map (fun p => VDict (flat_player_summary p)) (records_of (tiered_sample field)) in
  _summarize_fantasy_rankings (VDict rankings_data)
  = Ok (VDict [("metadata", VDict (rankings_metadata rankings_data));
               ("players_sample", VList players_sample)])
  /\ (length players_sample <= 30)%nat.
Proof.
  intros Hpositions Hdata Hplayers Hfield players_sample. split.
  - destruct (find_player_field_starts_with_record _ _ Hfield) as (p & rest & ->).
    destruct (tiered_sample_starts_with_first (VDict p) rest) as [others Hsample].
    unfold players_sample. rewrite Hsample.
    cbn [_summarize_fantasy_rankings]. rewrite Hpositions.
    rewrite dict_lookup_map_spec, Hdata, Hplayers, Hfield, Hsample.
    rewrite summarize_rankings_list_spec. unfold rankings_frame.
    destruct rankings_data as [|entry rankings_data]; [discriminate |]. reflexivity.
  - unfold players_sample. rewrite length_map.
    pose proof (records_of_length (tiered_sample field)).
    pose proof (tiered_sample_length field). lia.
Qed.

Lemma other_list_field_is_sampled_witness :
  let players_sample :=
    List.map (fun p => VDict (flat_player_summary p))
      (records_of (tiered_sample (repeat mahomes 70))) in
  _summarize_fantasy_rankings
    (VDict [("season", VInt 2025); ("leaders", VList (repeat mahomes 70))])
  = Ok (VDict [("metadata",
                VDict (rankings_metadata
                         [("season", VInt 2025); ("leaders", VList (repeat mahomes 70))]));
               ("players_sample", VList players_sample)])
  /\ (length players_sample <= 30)%nat.
Proof.
  apply (other_list_field_is_sampled
           [("season", VInt 2025); ("leaders", VList (repeat mahomes 70))]
           (repeat mahomes 70)); reflexivity.
Defined.
